(** * A personal ledger: transaction ledger and investment cost-basis engine

    Shallow embedding of the financial core of the application: the ledger
    page ([handleSave], [deleteTransaction]), the three revisions of the
    portfolio page ([executeTrade], [handleUpdateMktPrice]) and the tool-call
    dispatcher of the voice assistant ([handleFunctionCall]).

    Modelling conventions.
    - A JavaScript [number] is read in two ways.  The pages are embedded
      over exact rationals ([Qc], canonical fractions with Leibniz
      equality); the specification calls these quantities "signed
      decimal".  This reading is the program's wherever the program's
      arithmetic does not round, as on whole amounts within the safe
      integer range.  Where a property stands or falls with rounding, the
      ledger page, the trade pages and the summary tiles are embedded
      once more over binary64 floats ([Doubles]); a property of sums is
      then stated on the doubles read exactly ([value], [exactBook]),
      under the hypothesis that the sums involved do not round.
    - [String.prototype.toLowerCase] is a built-in: [JS.toLowerCase] is it
      on ASCII text, and the assistant's dispatcher takes it as a
      parameter.
    - Arrays are lists, in source order.  [Array.prototype.sort] is stable,
      so it is an insertion sort that keeps equal keys in input order.
    - A React handler is a function from the current [AppData] (and the
      form state it closes over) to the list of callbacks it fires, in
      order: [onSave d], [showToast msg], ...
    - [Date.now()] is an input of the handler. *)

From Stdlib Require Import QArith Qcanon Qcabs.
From Stdlib Require Import List String Ascii Bool Arith NArith Lia.
From Stdlib Require Import DecimalString Permutation Sorted.
From Stdlib Require PrimFloat FloatOps FloatAxioms SpecFloat Qpower.
Import ListNotations.

Set Implicit Arguments.
Set Warnings "-inexact-float".

(** ** JavaScript primitives used by the pages *)

Module JS.

Abbreviation number := Qc (only parsing).

Definition ofZ (z : Z) : number := Q2Qc (inject_Z z).

(** [x < y] and [x <= y] on numbers. *)
Definition ltb (x y : number) : bool :=
  match (x ?= y)%Qc with Lt => true | _ => false end.

Definition leb (x y : number) : bool :=
  match (x ?= y)%Qc with Gt => false | _ => true end.

Definition Math_max (x y : number) : number := if ltb x y then y else x.

Definition Math_abs (x : number) : number := Qcabs x.

(** Truthiness of a string ([''] is falsy) and of a number ([0] is falsy). *)
Definition truthy (s : string) : bool := negb (String.eqb s EmptyString).

Definition truthyNum (x : number) : bool := negb (Qc_eq_bool x (ofZ 0)).

(** [`${n}`] for a non-negative integer such as a timestamp. *)
Definition natToString (n : N) : string :=
  NilZero.string_of_uint (N.to_uint n).

(** [a.localeCompare(b)] on the ISO dates ([YYYY-MM-DD]) produced by a date
    input: digits and hyphens collate in code-unit order. *)
Definition localeCompare (a b : string) : comparison := String.compare a b.

(** [s.toLowerCase()] on ASCII text. *)
Definition lowerAscii (c : ascii) : ascii :=
  let n := N_of_ascii c in
  if ((65 <=? n) && (n <=? 90))%N then ascii_of_N (n + 32) else c.

Fixpoint toLowerCase (s : string) : string :=
  match s with
  | EmptyString => EmptyString
  | String c s' => String (lowerAscii c) (toLowerCase s')
  end.

Definition upperAscii (c : ascii) : ascii :=
  let n := N_of_ascii c in
  if ((97 <=? n) && (n <=? 122))%N then ascii_of_N (n - 32) else c.

Fixpoint toUpperCase (s : string) : string :=
  match s with
  | EmptyString => EmptyString
  | String c s' => String (upperAscii c) (toUpperCase s')
  end.

(** The one-character string holding a double quote. *)
Definition dquote : string := String (ascii_of_N 34) EmptyString.

(** [s.includes(sub)]. *)
Fixpoint includes (s sub : string) : bool :=
  String.prefix sub s ||
  match s with
  | EmptyString => false
  | String _ s' => includes s' sub
  end.

Section Arrays.
Variable A : Type.

(** [l.findIndex(p)], [None] standing for [-1]. *)
Fixpoint findIndex (p : A -> bool) (l : list A) : option nat :=
  match l with
  | [] => None
  | x :: l' =>
      if p x then Some O
      else match findIndex p l' with
           | Some i => Some (S i)
           | None => None
           end
  end.

(** [l[i] = x] for an index inside the array. *)
Fixpoint setAt (i : nat) (x : A) (l : list A) : list A :=
  match l, i with
  | [], _ => []
  | _ :: l', O => x :: l'
  | y :: l', S i' => y :: setAt i' x l'
  end.

(** In-place update of the object returned by [l.find(p)]:
    [const o = l.find(p); if (o) o.field op= ...]. *)
Fixpoint updateFound (p : A -> bool) (f : A -> A) (l : list A) : list A :=
  match l with
  | [] => []
  | x :: l' => if p x then f x :: l' else x :: updateFound p f l'
  end.

(** [l.sort(cmp)]: stable, so an element inserted from the left goes in
    front of the first element it does not compare greater than. *)
Variable cmp : A -> A -> comparison.

Fixpoint insert (x : A) (l : list A) : list A :=
  match l with
  | [] => [x]
  | y :: l' =>
      match cmp x y with
      | Gt => y :: insert x l'
      | _ => x :: l
      end
  end.

Definition sort (l : list A) : list A := fold_right insert [] l.
End Arrays.

End JS.

Import JS.

(** ** The data model ([types.ts], reconstructed from its uses) *)

Inductive TransactionType : Set := INCOME | EXPENSE | SALE | PURCHASE.

Record Transaction : Set := mkTransaction {
  tx_id : string;
  tx_type : TransactionType;
  tx_date : string;
  description : string;
  category : string;
  amount : number;
  account : string;
  partyId : option string;
  notes : string
}.

Record Account : Set := mkAccount {
  acc_id : string;
  acc_name : string;
  balance : number;
  acc_type : string;
  openingBalance : number
}.

Record Party : Set := mkParty {
  party_id : string;
  party_name : string;
  currentBalance : number
}.

Inductive TradeType : Set := buy | sell.

Record InvestmentTrade : Set := mkTrade {
  trade_id : string;
  trade_date : string;
  trade_type : TradeType;
  trade_qty : number;
  trade_price : number;
  trade_charges : number
}.

Inductive Status : Set := active | closed.

Record Investment : Set := mkInvestment {
  inv_id : string;
  inv_name : string;
  assetType : string;
  qty : number;
  avgBuyPrice : number;
  currPrice : number;
  history : list InvestmentTrade;
  status : Status;
  totalRealizedPL : number
}.

Record Task : Set := mkTask {
  task_id : string;
  content : string;
  dueDate : string;
  priority : string;
  completed : bool
}.

Record JournalEntry : Set := mkJournal {
  journal_id : string;
  journal_date : string;
  title : string;
  journal_content : string
}.

Record Goal : Set := mkGoal {
  goal_id : string;
  goal_name : string
}.

Record AppData : Set := mkAppData {
  transactions : list Transaction;
  accounts : list Account;
  parties : list Party;
  investments : list Investment;
  tasks : list Task;
  journal : list JournalEntry;
  goals : list Goal
}.

(** The callbacks a handler may fire. *)
Inductive Effect : Set :=
| onSave (d : AppData)
| showToast (msg : string)
| setSearch (s : string)
| setDateRange (start finish : string)
| onNavigate (page : string).

(** The snapshot in force after a handler ran on [d]: the argument of its
    last [onSave], or [d] itself when it saved nothing. *)
Fixpoint saved (es : list Effect) (d : AppData) : AppData :=
  match es with
  | [] => d
  | onSave d' :: es' => saved es' d'
  | _ :: es' => saved es' d
  end.

(** Object spreads [{ ...o, field: v }]. *)
Definition withBalance (a : Account) (b : number) : Account :=
  mkAccount (acc_id a) (acc_name a) b (acc_type a) (openingBalance a).

Definition withCurrentBalance (p : Party) (b : number) : Party :=
  mkParty (party_id p) (party_name p) b.

Definition withCurrPrice (i : Investment) (p : number) : Investment :=
  mkInvestment (inv_id i) (inv_name i) (assetType i) (qty i) (avgBuyPrice i) p
    (history i) (status i) (totalRealizedPL i).

Definition typeToUpperCase (t : TradeType) : string :=
  match t with buy => "BUY" | sell => "SELL" end.

Definition isBuy (t : TradeType) : bool :=
  match t with buy => true | sell => false end.

(** ** The portfolio page with the replay engine (src/unnamed/part_001) *)

Module ReplayPortfolio.

(** The [tradeData] form state. *)
Record TradeData : Set := mkTradeData {
  td_id : string;
  td_assetId : string;
  td_newName : string;
  td_newType : string;
  td_type : TradeType;
  td_qty : number;
  td_price : number;
  td_charges : number;
  td_date : string;
  td_accountId : string
}.

(** The accumulators of the "recursive recalculation engine". *)
Record Replay : Set := mkReplay {
  calcQty : number;
  totalCostBasis : number;
  accRealizedPL : number
}.

Definition replayStart : Replay := mkReplay (ofZ 0) (ofZ 0) (ofZ 0).

(** The body of the [forEach] over the sorted history. *)
Definition replayStep (r : Replay) (h : InvestmentTrade) : Replay :=
  match trade_type h with
  | buy =>
      let costWithCharges := (trade_qty h * trade_price h + trade_charges h)%Qc in
      mkReplay (calcQty r + trade_qty h)%Qc
               (totalCostBasis r + costWithCharges)%Qc
               (accRealizedPL r)
  | sell =>
      let currentAvg :=
        if ltb (ofZ 0) (calcQty r)
        then (totalCostBasis r / calcQty r)%Qc else ofZ 0 in
      let profitOnSale :=
        ((trade_price h - currentAvg) * trade_qty h - trade_charges h)%Qc in
      mkReplay (calcQty r - trade_qty h)%Qc
               (totalCostBasis r - currentAvg * trade_qty h)%Qc
               (accRealizedPL r + profitOnSale)%Qc
  end.

Definition byDate (a b : InvestmentTrade) : comparison :=
  localeCompare (trade_date a) (trade_date b).

Definition replay (sorted : list InvestmentTrade) : Replay :=
  fold_left replayStep sorted replayStart.

(** [finalAsset]: the sort is in place, so the stored history is the sorted
    one. *)
Definition finalAsset (targetAsset : Investment)
    (hist : list InvestmentTrade) : Investment :=
  let sorted := sort byDate hist in
  let r := replay sorted in
  mkInvestment (inv_id targetAsset) (inv_name targetAsset)
    (assetType targetAsset)
    (Math_max (ofZ 0) (calcQty r))
    (if ltb (ofZ 0) (calcQty r)
     then (totalCostBasis r / calcQty r)%Qc else ofZ 0)
    (currPrice targetAsset)
    sorted
    (if ltb (ofZ 0) (calcQty r) then active else closed)
    (accRealizedPL r).

Section Handlers.
(** [`${x}`] for an arbitrary number. *)
Variable numberToString : number -> string.

Variable data : AppData.
Variable tradeData : TradeData.
(** The two readings of [Date.now()]. *)
Variable assetStamp timestamp : N.

Definition targetAsset : option Investment :=
  if truthy (td_assetId tradeData) then
    find (fun i => String.eqb (inv_id i) (td_assetId tradeData))
         (investments data)
  else if truthy (td_newName tradeData) then
    Some (mkInvestment (natToString assetStamp) (td_newName tradeData)
            (td_newType tradeData) (ofZ 0) (ofZ 0) (td_price tradeData)
            [] active (ofZ 0))
  else None.

Definition tradeValue : number := (td_qty tradeData * td_price tradeData)%Qc.

Definition netImpact : number :=
  if isBuy (td_type tradeData)
  then (tradeValue + td_charges tradeData)%Qc
  else (tradeValue - td_charges tradeData)%Qc.

Definition ledgerTrans (target : Investment) : Transaction :=
  mkTransaction
    (if truthy (td_id tradeData)
     then "trade-" ++ td_id tradeData
     else "trade-" ++ natToString timestamp)
    (if isBuy (td_type tradeData) then EXPENSE else INCOME)
    (td_date tradeData)
    (typeToUpperCase (td_type tradeData) ++ " " ++ inv_name target ++ " ("
       ++ numberToString (td_qty tradeData) ++ " Units)")
    "Asset Reconciliation"
    (Math_abs netImpact)
    (td_accountId tradeData)
    None
    ("Trade ID: "
       ++ (if truthy (td_id tradeData) then td_id tradeData
           else natToString timestamp)
       ++ " | Node: " ++ inv_name target).

Definition tradeRecord : InvestmentTrade :=
  mkTrade
    (if truthy (td_id tradeData) then td_id tradeData
     else "tr-" ++ natToString timestamp)
    (td_date tradeData) (td_type tradeData) (td_qty tradeData)
    (td_price tradeData) (td_charges tradeData).

(** [history] just before the sort: the amended entry is dropped, the new
    record is pushed last. *)
Definition newHistory (target : Investment) : list InvestmentTrade :=
  (if truthy (td_id tradeData)
   then filter (fun h => negb (String.eqb (trade_id h) (td_id tradeData)))
               (history target)
   else history target) ++ [tradeRecord].

Definition updatedInvestments (target : Investment) : list Investment :=
  let final := finalAsset target (newHistory target) in
  match findIndex (fun i => String.eqb (inv_id i) (inv_id target))
                  (investments data) with
  | Some assetIdx => setAt assetIdx final (investments data)
  | None => investments data ++ [final]
  end.

(** "Simple balance update for now". *)
Definition updatedAccounts : list Account :=
  map (fun acc =>
         if String.eqb (acc_id acc) (td_accountId tradeData) then
           let delta :=
             if isBuy (td_type tradeData) then (- netImpact)%Qc
             else netImpact in
           withBalance acc (balance acc + delta)%Qc
         else acc)
      (accounts data).

Definition executeTrade : list Effect :=
  match targetAsset with
  | None => [showToast "Define Asset Node First"]
  | Some target =>
      if leb (td_qty tradeData) (ofZ 0) || leb (td_price tradeData) (ofZ 0)
      then [showToast "Invalid Execution Metrics"]
      else
        let lt := ledgerTrans target in
        [ onSave (mkAppData
            (lt :: filter (fun t => negb (String.eqb (tx_id t) (tx_id lt)))
                          (transactions data))
            updatedAccounts
            (parties data)
            (updatedInvestments target)
            (tasks data) (journal data) (goals data));
          showToast ("Authority Protocol "
                     ++ (if truthy (td_id tradeData) then "Amended"
                         else "Signed")) ]
  end.
End Handlers.

(** Row rendering: the unrealized P/L is computed, not stored. *)
Definition currentUnrealizedPL (inv : Investment) : number :=
  ((currPrice inv - avgBuyPrice inv) * qty inv)%Qc.

End ReplayPortfolio.

(** ** The portfolio page with the incremental update
       (src/pages/PortfolioPage.tsx; src/unnamed/part_002 has the same
       [handleUpdateMktPrice] and the same guards in [executeTrade]) *)

Module PortfolioPage.

Record TradeData : Set := mkTradeData {
  td_type : TradeType;
  td_qty : number;
  td_price : number;
  td_charges : number;
  td_date : string;
  td_accountId : string
}.

Definition handleUpdateMktPrice (data : AppData) (assetId : string)
    (newPrice : number) : list Effect :=
  let updated :=
    map (fun inv =>
           if String.eqb (inv_id inv) assetId
           then withCurrPrice inv newPrice else inv)
        (investments data) in
  [ onSave (mkAppData (transactions data) (accounts data) (parties data)
              updated (tasks data) (journal data) (goals data)) ].

(** Row rendering: the unrealized P/L is computed, not stored. *)
Definition currentUnrealizedPL (inv : Investment) : number :=
  ((currPrice inv - avgBuyPrice inv) * qty inv)%Qc.

Section Handlers.
Variable numberToString : number -> string.
Variable toLocaleString : number -> string.

Variable data : AppData.
(** The [tradingAsset] component state: the row the trade modal was opened
    on. *)
Variable tradingAsset : option Investment.
Variable tradeData : TradeData.
Variable timestamp : N.

Definition tradeValue : number := (td_qty tradeData * td_price tradeData)%Qc.

Definition tradeTotalImpact : number :=
  if isBuy (td_type tradeData)
  then (tradeValue + td_charges tradeData)%Qc
  else (tradeValue - td_charges tradeData)%Qc.

Definition ledgerTrans (asset : Investment) : Transaction :=
  mkTransaction
    ("trade-" ++ natToString timestamp)
    (if isBuy (td_type tradeData) then EXPENSE else INCOME)
    (td_date tradeData)
    (typeToUpperCase (td_type tradeData) ++ " " ++ inv_name asset ++ " ("
       ++ numberToString (td_qty tradeData) ++ " units)")
    "Investment Trade"
    (Math_abs tradeTotalImpact)
    (td_accountId tradeData)
    None
    ("Asset: " ++ inv_name asset ++ " | Price: ₹"
       ++ numberToString (td_price tradeData) ++ " | Charges: ₹"
       ++ numberToString (td_charges tradeData)).

Definition tradeRecord : InvestmentTrade :=
  mkTrade ("tr-" ++ natToString timestamp) (td_date tradeData)
    (td_type tradeData) (td_qty tradeData) (td_price tradeData)
    (td_charges tradeData).

(** The incremental update of one asset: [status] is carried over by the
    spread, [avgBuyPrice] is recomputed on a buy only.  [newQty] divides
    there; it is positive whenever the quantity held is not negative. *)
Definition tradedAsset (inv : Investment) : Investment :=
  let hist := history inv ++ [tradeRecord] in
  match td_type tradeData with
  | buy =>
      let currentTotalCost := (qty inv * avgBuyPrice inv)%Qc in
      let newTradeCost :=
        (td_qty tradeData * td_price tradeData + td_charges tradeData)%Qc in
      let newQty := (qty inv + td_qty tradeData)%Qc in
      mkInvestment (inv_id inv) (inv_name inv) (assetType inv)
        newQty ((currentTotalCost + newTradeCost) / newQty)%Qc
        (td_price tradeData) hist (status inv) (totalRealizedPL inv)
  | sell =>
      let profitOnThisSell :=
        ((td_price tradeData - avgBuyPrice inv) * td_qty tradeData
         - td_charges tradeData)%Qc in
      mkInvestment (inv_id inv) (inv_name inv) (assetType inv)
        (qty inv - td_qty tradeData)%Qc (avgBuyPrice inv)
        (td_price tradeData) hist (status inv)
        (totalRealizedPL inv + profitOnThisSell)%Qc
  end.

Definition updatedInvestments (asset : Investment) : list Investment :=
  map (fun inv =>
         if String.eqb (inv_id inv) (inv_id asset) then tradedAsset inv
         else inv)
      (investments data).

Definition updatedAccounts : list Account :=
  map (fun acc =>
         if String.eqb (acc_id acc) (td_accountId tradeData) then
           withBalance acc
             (if isBuy (td_type tradeData)
              then (balance acc - tradeTotalImpact)%Qc
              else (balance acc + tradeTotalImpact)%Qc)
         else acc)
      (accounts data).

Definition executeTrade : list Effect :=
  match tradingAsset with
  | None => []
  | Some asset =>
      if leb (td_qty tradeData) (ofZ 0) || leb (td_price tradeData) (ofZ 0)
      then []
      else if negb (isBuy (td_type tradeData))
              && ltb (qty asset) (td_qty tradeData)
      then [showToast "Insufficient holding quantity."]
      else
        [ onSave (mkAppData
            (ledgerTrans asset :: transactions data)
            updatedAccounts
            (parties data)
            (updatedInvestments asset)
            (tasks data) (journal data) (goals data));
          showToast ("Trade Recorded: " ++ typeToUpperCase (td_type tradeData)
                     ++ " ₹" ++ toLocaleString tradeTotalImpact) ]
  end.
End Handlers.

End PortfolioPage.

(** ** The ledger page (src/unnamed/part_004) *)

Module LedgerPage.

(** [handleSave] works on shallow copies of the arrays and updates the
    account and party objects it finds in place; those objects are shared
    with the snapshot being replaced, and the copies are what it saves.
    [updateFound] is that update on the working copy. *)

(** The [editing] form state, a partial transaction: an absent text field
    reads as the empty string, an absent amount as [0]. *)
Record Editing : Set := mkEditing {
  e_id : string;
  e_type : TransactionType;
  e_date : string;
  e_description : string;
  e_category : string;
  e_amount : number;
  e_account : string;
  e_partyId : option string;
  e_notes : string
}.

(** [editing.partyId || undefined]. *)
Definition orUndefined (o : option string) : option string :=
  match o with
  | Some s => if truthy s then Some s else None
  | None => None
  end.

(** [p.id === tx.partyId]. *)
Definition isParty (pid : option string) (p : Party) : bool :=
  match pid with
  | Some s => String.eqb (party_id p) s
  | None => false
  end.

Definition isIncomeOrSale (t : TransactionType) : bool :=
  match t with INCOME | SALE => true | _ => false end.

(** "Revert Old Record if editing". *)
Definition revertAccount (old : Transaction) (oldAcc : Account) : Account :=
  if isIncomeOrSale (tx_type old)
  then withBalance oldAcc (balance oldAcc - amount old)%Qc
  else withBalance oldAcc (balance oldAcc + amount old)%Qc.

Definition revertParty (old : Transaction) (oldParty : Party) : Party :=
  match tx_type old with
  | SALE => withCurrentBalance oldParty (currentBalance oldParty - amount old)%Qc
  | PURCHASE => withCurrentBalance oldParty (currentBalance oldParty + amount old)%Qc
  | INCOME => withCurrentBalance oldParty (currentBalance oldParty + amount old)%Qc
  | EXPENSE => withCurrentBalance oldParty (currentBalance oldParty - amount old)%Qc
  end.

(** "Apply New Impact". *)
Definition applyAccount (trans : Transaction) (newAcc : Account) : Account :=
  if isIncomeOrSale (tx_type trans)
  then withBalance newAcc (balance newAcc + amount trans)%Qc
  else withBalance newAcc (balance newAcc - amount trans)%Qc.

Definition applyParty (trans : Transaction) (newParty : Party) : Party :=
  match tx_type trans with
  | SALE => withCurrentBalance newParty (currentBalance newParty + amount trans)%Qc
  | PURCHASE => withCurrentBalance newParty (currentBalance newParty - amount trans)%Qc
  | INCOME => withCurrentBalance newParty (currentBalance newParty - amount trans)%Qc
  | EXPENSE => withCurrentBalance newParty (currentBalance newParty + amount trans)%Qc
  end.

Definition hasId (id : string) (t : Transaction) : bool := String.eqb (tx_id t) id.

Definition isAccount (id : string) (a : Account) : bool := String.eqb (acc_id a) id.

Section Handlers.
Variable data : AppData.

Definition transOf (e : Editing) (now : N) : Transaction :=
  mkTransaction
    (if truthy (e_id e) then e_id e else natToString now)
    (e_type e) (e_date e) (e_description e) (e_category e) (e_amount e)
    (e_account e) (orUndefined (e_partyId e)) (e_notes e).

(** The three working copies after the revert phase. *)
Definition reverted (e : Editing)
    : list Transaction * list Account * list Party :=
  if truthy (e_id e) then
    match find (hasId (e_id e)) (transactions data) with
    | Some old =>
        ( filter (fun t => negb (hasId (e_id e) t)) (transactions data),
          updateFound (isAccount (account old)) (revertAccount old)
                      (accounts data),
          updateFound (isParty (partyId old)) (revertParty old)
                      (parties data) )
    | None => (transactions data, accounts data, parties data)
    end
  else (transactions data, accounts data, parties data).

Definition handleSave (editing : option Editing) (now : N) : list Effect :=
  match editing with
  | None => []
  | Some e =>
      if negb (truthy (e_description e)) || negb (truthyNum (e_amount e))
         || negb (truthy (e_date e))
      then []
      else
        let trans := transOf e now in
        let '(tempTransactions, accs, pts) := reverted e in
        let accs' := updateFound (isAccount (account trans))
                                 (applyAccount trans) accs in
        let pts' := updateFound (isParty (partyId trans))
                                (applyParty trans) pts in
        [ onSave (mkAppData (trans :: tempTransactions) accs' pts'
                    (investments data) (tasks data) (journal data)
                    (goals data));
          showToast "Ledger Entry Synchronized" ]
  end.

(** [confirmed] is the answer to the [confirm] dialog. *)
Definition deleteTransaction (id : string) (confirmed : bool) : list Effect :=
  if negb confirmed then []
  else
    match find (hasId id) (transactions data) with
    | None => []
    | Some trans =>
        let accs :=
          map (fun a =>
                 if isAccount (account trans) a then
                   let delta :=
                     if isIncomeOrSale (tx_type trans)
                     then (- amount trans)%Qc else amount trans in
                   withBalance a (balance a + delta)%Qc
                 else a)
              (accounts data) in
        let pts :=
          map (fun p =>
                 if isParty (partyId trans) p then
                   let delta :=
                     match tx_type trans with
                     | SALE => (- amount trans)%Qc
                     | PURCHASE => amount trans
                     | INCOME => amount trans
                     | EXPENSE => (- amount trans)%Qc
                     end in
                   withCurrentBalance p (currentBalance p + delta)%Qc
                 else p)
              (parties data) in
        [ onSave (mkAppData
                    (filter (fun t => negb (hasId id t)) (transactions data))
                    accs pts (investments data) (tasks data) (journal data)
                    (goals data));
          showToast "Record Purged & Balance Corrected" ]
    end.
End Handlers.

End LedgerPage.

(** ** The tool-call dispatcher of the voice assistant (src/unnamed/part_006) *)

Module MayaAssistant.

(** A tool call [fc]: its [name] with its [args]. *)
Inductive FunctionCall : Set :=
| recordTransaction (type : TransactionType) (amount : number)
    (description category date accountId : string)
| addTask (content dueDate priority : string)
| deleteEntry (type searchPart : string)
| addJournal (title content date : string)
| setPageFilters (search startDate endDate : option string)
| navigateToPage (page : string)
| otherCall (name : string).

Definition orEmpty (o : option string) : string :=
  match o with Some s => s | None => EmptyString end.

Definition truthyOpt (o : option string) : bool :=
  match o with Some s => truthy s | None => false end.

(** The dispatcher is written over [String.prototype.toLowerCase], a
    built-in of the language that lower-cases by the Unicode tables;
    [JS.toLowerCase] is that built-in on ASCII text.  The definitions
    below take the built-in as [lower]; the names of the source stand for
    their instances at [JS.toLowerCase]. *)
Section Dispatcher.
Variable lower : string -> string.

(** [t => !field(t).toLowerCase().includes(term)]. *)
Definition keepsWith (A : Type) (field : A -> string) (term : string) (x : A)
    : bool :=
  negb (includes (lower (field x)) term).

Section Handlers.
Variable numberToString : number -> string.
(** [data] is deep-copied through JSON first: values, not references. *)
Variable data : AppData.
Variable now : N.

Definition purgeWith (type searchPart : string) : option AppData :=
  let term := lower searchPart in
  if String.eqb type "transaction" then
    let kept := filter (keepsWith description term) (transactions data) in
    if Nat.ltb (List.length kept) (List.length (transactions data))
    then Some (mkAppData kept (accounts data) (parties data)
                 (investments data) (tasks data) (journal data) (goals data))
    else None
  else if String.eqb type "task" then
    let kept := filter (keepsWith content term) (tasks data) in
    if Nat.ltb (List.length kept) (List.length (tasks data))
    then Some (mkAppData (transactions data) (accounts data) (parties data)
                 (investments data) kept (journal data) (goals data))
    else None
  else if String.eqb type "journal" then
    let kept := filter (keepsWith title term) (journal data) in
    if Nat.ltb (List.length kept) (List.length (journal data))
    then Some (mkAppData (transactions data) (accounts data) (parties data)
                 (investments data) (tasks data) kept (goals data))
    else None
  else if String.eqb type "goal" then
    let kept := filter (keepsWith goal_name term) (goals data) in
    if Nat.ltb (List.length kept) (List.length (goals data))
    then Some (mkAppData (transactions data) (accounts data) (parties data)
                 (investments data) (tasks data) (journal data) kept)
    else None
  else None.

(** The callbacks fired and the string answered to the model. *)
Definition handleFunctionCallWith (fc : FunctionCall)
    : list Effect * string :=
  match fc with
  | recordTransaction type amt desc cat date accountId =>
      let trans :=
        mkTransaction (natToString now) type date desc cat amt accountId None
          "Recorded via Maya Voice Partner" in
      let accs :=
        map (fun a =>
               if String.eqb (acc_id a) (account trans) then
                 let delta :=
                   match tx_type trans with
                   | INCOME | SALE => amount trans
                   | _ => (- amount trans)%Qc
                   end in
                 withBalance a (balance a + delta)%Qc
               else a)
            (accounts data) in
      ( [ onSave (mkAppData (trans :: transactions data) accs (parties data)
                    (investments data) (tasks data) (journal data)
                    (goals data));
          showToast ("Logged: ₹" ++ numberToString amt) ],
        ("Theek hai baby! Ledger mein ₹" ++ numberToString amt
           ++ " ki entry ho gayi hai.")%string )
  | addTask c due prio =>
      ( [ onSave (mkAppData (transactions data) (accounts data)
                    (parties data) (investments data)
                    (mkTask (natToString now) c due prio false :: tasks data)
                    (journal data) (goals data));
          showToast "Objective Synchronized" ],
        ("Done jaan! Maine task add kar liya: " ++ c)%string )
  | addJournal ttl c date =>
      ( [ onSave (mkAppData (transactions data) (accounts data)
                    (parties data) (investments data) (tasks data)
                    (mkJournal (natToString now) date ttl c :: journal data)
                    (goals data));
          showToast "Journal Secured" ],
        "Tumhari baatein journal mein note kar li hain baby."%string )
  | deleteEntry type searchPart =>
      match purgeWith type searchPart with
      | Some currentData =>
          ( [ onSave currentData;
              showToast ("Purged " ++ type ++ " matching " ++ dquote
                         ++ searchPart ++ dquote) ],
            ("Theek hai jaan, maine wo " ++ type
             ++ " delete kar diya hai.")%string )
      | None => ( [], ("Sorry baby, mujhe wo " ++ type ++ " nahi mila.")%string )
      end
  | setPageFilters search startDate endDate =>
      ( (match search with Some s => [setSearch s] | None => [] end)
        ++ (if truthyOpt startDate || truthyOpt endDate
            then [setDateRange (orEmpty startDate) (orEmpty endDate)]
            else []),
        "Applied your requested filters, baby."%string )
  | navigateToPage page =>
      ( [ onNavigate page; showToast ("Showing " ++ toUpperCase page) ],
        ("Lo baby, maine " ++ page ++ " open kar di hai.")%string )
  | otherCall _ => ( [], "Done."%string )
  end.
End Handlers.
End Dispatcher.

Definition keeps (A : Type) (field : A -> string) (term : string) (x : A)
    : bool :=
  keepsWith toLowerCase field term x.

Definition purge (data : AppData) (type searchPart : string)
    : option AppData :=
  purgeWith toLowerCase data type searchPart.

Definition handleFunctionCall (numberToString : number -> string)
    (data : AppData) (now : N) (fc : FunctionCall) : list Effect * string :=
  handleFunctionCallWith toLowerCase numberToString data now fc.

End MayaAssistant.

(** ** Vocabulary of the specification *)

(** [signedDelta(tx)]: [+amount] for income and sale, [-amount] otherwise. *)
Definition signedDelta (t : Transaction) : number :=
  match tx_type t with
  | INCOME | SALE => amount t
  | EXPENSE | PURCHASE => (- amount t)%Qc
  end.

(** [partySignedDelta(tx)]: [+amount] for sale and expense, [-amount] for
    purchase and income. *)
Definition partySignedDelta (t : Transaction) : number :=
  match tx_type t with
  | SALE => amount t
  | PURCHASE => (- amount t)%Qc
  | INCOME => (- amount t)%Qc
  | EXPENSE => amount t
  end.

(** Sum of the signed deltas of the live transactions that reference the
    account [id]. *)
Fixpoint ledgerSum (id : string) (l : list Transaction) : number :=
  match l with
  | [] => ofZ 0
  | t :: l' =>
      if String.eqb (account t) id
      then (signedDelta t + ledgerSum id l')%Qc
      else ledgerSum id l'
  end.

(** [Account.balance = openingBalance + sum of signedDelta]. *)
Definition balanced (d : AppData) (a : Account) : Prop :=
  balance a = (openingBalance a + ledgerSum (acc_id a) (transactions d))%Qc.

Definition balancedData (d : AppData) : Prop :=
  forall a, In a (accounts d) -> balanced d a.

(** The asset and the account a page row shows for an id. *)
Definition assetOf (d : AppData) (id : string) : option Investment :=
  find (fun i => String.eqb (inv_id i) id) (investments d).

Definition accountOf (d : AppData) (id : string) : option Account :=
  find (LedgerPage.isAccount id) (accounts d).

Definition partyOf (d : AppData) (id : string) : option Party :=
  find (fun p => String.eqb (party_id p) id) (parties d).

(** The commands of the ledger, from the ledger page and from the
    assistant, and the snapshot each leaves behind. *)
Inductive Command : Set :=
| PageSave (editing : LedgerPage.Editing) (now : N)
| PageDelete (id : string)
| MayaRecord (type : TransactionType) (amount : number)
    (description category date accountId : string) (now : N)
| MayaDelete (searchPart : string).

Section Run.
Variable numberToString : number -> string.

Definition run (d : AppData) (c : Command) : AppData :=
  match c with
  | PageSave e now => saved (LedgerPage.handleSave d (Some e) now) d
  | PageDelete id => saved (LedgerPage.deleteTransaction d id true) d
  | MayaRecord ty amt desc cat date acct now =>
      saved (fst (MayaAssistant.handleFunctionCall numberToString d now
                    (MayaAssistant.recordTransaction ty amt desc cat date acct)))
            d
  | MayaDelete s =>
      saved (fst (MayaAssistant.handleFunctionCall numberToString d 0%N
                    (MayaAssistant.deleteEntry "transaction" s)))
            d
  end.

Definition runAll (d : AppData) (cs : list Command) : AppData :=
  fold_left run cs d.
End Run.



(** The two trades of the cost-basis scenario, on the asset [assetId]. *)
Definition scenarioBuy (assetId date acct : string)
    : ReplayPortfolio.TradeData :=
  ReplayPortfolio.mkTradeData EmptyString assetId EmptyString EmptyString buy
    (ofZ 10) (ofZ 100) (ofZ 10) date acct.

Definition scenarioSell (assetId date acct : string)
    : ReplayPortfolio.TradeData :=
  ReplayPortfolio.mkTradeData EmptyString assetId EmptyString EmptyString sell
    (ofZ 4) (ofZ 150) (ofZ 5) date acct.

(** A small book used by the worked examples: one cash account holding its
    opening balance of 5000, one party, one asset that was never traded. *)
Definition cashAccount : Account :=
  mkAccount "cash-01" "Main Cash" (ofZ 5000) "Cash" (ofZ 5000).

Definition goldAsset : Investment :=
  mkInvestment "gold" "Gold" "Gold" (ofZ 0) (ofZ 0) (ofZ 0) [] active (ofZ 0).

Definition acmeParty : Party := mkParty "acme" "Acme" (ofZ 0).

Definition sampleData : AppData :=
  mkAppData [] [cashAccount] [acmeParty] [goldAsset] [] [] [].

Definition noText : number -> string := fun _ => EmptyString.

(** A sell of 20 units, more than the 10 held after [scenarioBuy]. *)
Definition overSell : ReplayPortfolio.TradeData :=
  ReplayPortfolio.mkTradeData EmptyString "gold" EmptyString EmptyString sell
    (ofZ 20) (ofZ 150) (ofZ 0) "2024-03-01" "cash-01".

(** The amendment form of [scenarioBuy] once it was recorded at timestamp 1:
    same content, the id of the recorded trade filled in. *)
Definition sameBuyAgain : ReplayPortfolio.TradeData :=
  ReplayPortfolio.mkTradeData "tr-1" "gold" EmptyString EmptyString buy
    (ofZ 10) (ofZ 100) (ofZ 10) "2024-01-10" "cash-01".

(** The same buy and a sell of the whole holding, as forms of the
    incremental page. *)
Definition pageBuy : PortfolioPage.TradeData :=
  PortfolioPage.mkTradeData buy (ofZ 10) (ofZ 100) (ofZ 10)
    "2024-01-10" "cash-01".

Definition pageSellAll : PortfolioPage.TradeData :=
  PortfolioPage.mkTradeData sell (ofZ 10) (ofZ 150) (ofZ 5)
    "2024-02-01" "cash-01".

(** A trade on the asset "gold", settled on the cash account. *)
Definition tradeOn (ty : TradeType) (q price : Z) (date : string)
    : ReplayPortfolio.TradeData :=
  ReplayPortfolio.mkTradeData EmptyString "gold" EmptyString EmptyString ty
    (ofZ q) (ofZ price) (ofZ 0) date "cash-01".

(** A book after the cost-basis scenario: 6 units held at 101. *)
Definition firstBuy : InvestmentTrade :=
  mkTrade "tr-1" "2024-01-10" buy (ofZ 10) (ofZ 100) (ofZ 10).

Definition laterSell : InvestmentTrade :=
  mkTrade "tr-2" "2024-02-01" sell (ofZ 4) (ofZ 150) (ofZ 5).

Definition heldAsset : Investment :=
  mkInvestment "gold" "Gold" "Gold" (ofZ 6) (ofZ 101) (ofZ 150)
    [firstBuy; laterSell] active (ofZ 191).

Definition heldData : AppData :=
  mkAppData [] [cashAccount] [acmeParty] [heldAsset] [] [] [].

(** A book with one sale of 250 to Acme paid into the cash account, and the
    form that records it. *)
Definition saleTx : Transaction :=
  mkTransaction "1700000000000" SALE "2024-01-10" "Invoice 7" "Sales"
    (ofZ 250) "cash-01" (Some "acme"%string) EmptyString.

Definition soldData : AppData :=
  mkAppData [saleTx]
    [mkAccount "cash-01" "Main Cash" (ofZ 5250) "Cash" (ofZ 5000)]
    [mkParty "acme" "Acme" (ofZ 250)] [goldAsset] [] [] [].

Definition newSaleForm : LedgerPage.Editing :=
  LedgerPage.mkEditing EmptyString SALE "2024-01-10" "Invoice 7" "Sales"
    (ofZ 250) "cash-01" (Some "acme"%string) EmptyString.

(** The invariant on the working copies of a handler. *)
Definition booksOK (txs : list Transaction) (accs : list Account) : Prop :=
  NoDup (map acc_id accs) /\
  NoDup (map tx_id txs) /\
  forall a, In a accs ->
    balance a = (openingBalance a + ledgerSum (acc_id a) txs)%Qc.

(** Well-formed books: account ids and transaction ids are unique and every
    account is balanced. *)
Definition wellFormed (d : AppData) : Prop :=
  NoDup (map acc_id (accounts d)) /\
  NoDup (map tx_id (transactions d)) /\
  balancedData d.

(** Commands that reverse what they remove, with an id not yet in use when
    they mint one from the clock. *)
Definition admissible (d : AppData) (c : Command) : Prop :=
  match c with
  | PageSave e now =>
      truthy (LedgerPage.e_id e) = false ->
      ~ In (natToString now) (map tx_id (transactions d))
  | PageDelete _ => True
  | MayaRecord _ _ _ _ _ _ now =>
      ~ In (natToString now) (map tx_id (transactions d))
  | MayaDelete _ => False
  end.

Section Admissible.
Variable numberToString : number -> string.

Fixpoint admissibleAll (d : AppData) (cs : list Command) : Prop :=
  match cs with
  | [] => True
  | c :: cs' => admissible d c /\ admissibleAll (run numberToString d c) cs'
  end.
End Admissible.

(** ** Further handlers and views of the pages *)

(** [x || 0] on a number. *)
Definition orZero (x : number) : number := if truthyNum x then x else ofZ 0.

(** [l.reduce((sum, x) => sum + f(x), 0)]. *)
Definition sumBy (A : Type) (f : A -> number) (l : list A) : number :=
  fold_left (fun sum x => (sum + f x)%Qc) l (ofZ 0).

(** [s >= start] on strings compares code units. *)
Definition notBefore (start s : string) : bool := String.leb start s.

(** [l.join(sep)]. *)
Fixpoint join (sep : string) (l : list string) : string :=
  match l with
  | [] => EmptyString
  | [x] => x
  | x :: l' => (x ++ sep ++ join sep l')%string
  end.

Definition newline : string := String (ascii_of_N 10) EmptyString.

(** *** The summary tiles and the asset audit ledger of the replay page
        (src/unnamed/part_001, lines 35-46 and 58-82; the pages of
        src/pages/PortfolioPage.tsx and src/unnamed/part_002 compute the
        same invested, current, unrealized and realized sums) *)

Module PortfolioViews.

Record Stats : Set := mkStats {
  totalInvested : number;
  currentValue : number;
  unrealizedPL : number;
  realizedPL : number;
  totalCharges : number;
  assetCount : nat
}.

Definition isHeld (i : Investment) : bool := ltb (ofZ 0) (qty i).

Definition historyCharges (inv : Investment) : number :=
  orZero (sumBy (fun trade => orZero (trade_charges trade)) (history inv)).

Definition stats (data : AppData) : Stats :=
  let activeInvestments := filter isHeld (investments data) in
  let invested :=
    sumBy (fun i => (qty i * avgBuyPrice i)%Qc) activeInvestments in
  let current := sumBy (fun i => (qty i * currPrice i)%Qc) activeInvestments in
  mkStats invested current (current - invested)%Qc
    (sumBy (fun i => orZero (totalRealizedPL i)) (investments data))
    (sumBy historyCharges (investments data))
    (List.length activeInvestments).

(** A row of the audit ledger: the trade with the running totals. *)
Record LedgerRow : Set := mkRow {
  row_trade : InvestmentTrade;
  runningQty : number;
  runningCapital : number
}.

(** The [map] over the sorted history, threading [runningQty] and
    [runningCapital]. *)
Fixpoint runningRows (rq rc : number) (l : list InvestmentTrade)
    : list LedgerRow :=
  match l with
  | [] => []
  | h :: l' =>
      let impact :=
        (trade_qty h * trade_price h
         + (if isBuy (trade_type h) then trade_charges h
            else - trade_charges h))%Qc in
      let rq' :=
        if isBuy (trade_type h) then (rq + trade_qty h)%Qc
        else (rq - trade_qty h)%Qc in
      let rc' :=
        if isBuy (trade_type h) then (rc + impact)%Qc else (rc - impact)%Qc in
      mkRow h rq' rc' :: runningRows rq' rc' l'
  end.

Definition inWindow (ledgerStart ledgerEnd : string) (h : LedgerRow) : bool :=
  (if truthy ledgerStart
   then notBefore ledgerStart (trade_date (row_trade h)) else true)
  && (if truthy ledgerEnd
      then notBefore (trade_date (row_trade h)) ledgerEnd else true).

Definition assetLedgerData (viewingAssetLedger : option Investment)
    (ledgerStart ledgerEnd : string) : list LedgerRow :=
  match viewingAssetLedger with
  | None => []
  | Some asset =>
      let fullHistory :=
        runningRows (ofZ 0) (ofZ 0)
          (sort ReplayPortfolio.byDate (history asset)) in
      rev (filter (inWindow ledgerStart ledgerEnd) fullHistory)
  end.

End PortfolioViews.

(** *** Asset profiles (src/pages/PortfolioPage.tsx, lines 48-84) *)

Module AssetProfile.

Definition openAddAsset (now : N) : Investment :=
  mkInvestment (natToString now) EmptyString "Stock" (ofZ 0) (ofZ 0) (ofZ 0)
    [] active (ofZ 0).

(** The saved profile: the form's fields with absent numbers read as [0],
    and the status forced to active. *)
Definition profileOf (editingAsset : Investment) : Investment :=
  mkInvestment (inv_id editingAsset) (inv_name editingAsset)
    (assetType editingAsset) (orZero (qty editingAsset))
    (orZero (avgBuyPrice editingAsset)) (orZero (currPrice editingAsset))
    (history editingAsset) active (orZero (totalRealizedPL editingAsset)).

Definition handleSaveAsset (data : AppData) (editingAsset : option Investment)
    : list Effect :=
  match editingAsset with
  | None => []
  | Some e =>
      if negb (truthy (inv_name e)) then []
      else
        let final := profileOf e in
        let newList :=
          match findIndex (fun i => String.eqb (inv_id i) (inv_id e))
                          (investments data) with
          | Some index => setAt index final (investments data)
          | None => investments data ++ [final]
          end in
        [ onSave (mkAppData (transactions data) (accounts data)
                    (parties data) newList (tasks data) (journal data)
                    (goals data));
          showToast "Asset Profile Initialized" ]
  end.

End AssetProfile.

(** *** The ledger page without parties (src/pages/TransactionsPage.tsx,
        lines 35-90): the same form, the same account arithmetic as
        part_004, and no write to a party *)

Module TransactionsPage.

Section Handlers.
Variable data : AppData.

Definition reverted (e : LedgerPage.Editing)
    : list Transaction * list Account :=
  if truthy (LedgerPage.e_id e) then
    match find (LedgerPage.hasId (LedgerPage.e_id e)) (transactions data) with
    | Some old =>
        ( filter (fun t => negb (LedgerPage.hasId (LedgerPage.e_id e) t))
                 (transactions data),
          updateFound (LedgerPage.isAccount (account old))
                      (LedgerPage.revertAccount old) (accounts data) )
    | None => (transactions data, accounts data)
    end
  else (transactions data, accounts data).

Definition handleSave (editing : option LedgerPage.Editing) (now : N)
    : list Effect :=
  match editing with
  | None => []
  | Some e =>
      if negb (truthy (LedgerPage.e_description e))
         || negb (truthyNum (LedgerPage.e_amount e))
         || negb (truthy (LedgerPage.e_date e))
      then []
      else
        let trans := LedgerPage.transOf e now in
        let '(tempTransactions, accs) := reverted e in
        let accs' := updateFound (LedgerPage.isAccount (account trans))
                                 (LedgerPage.applyAccount trans) accs in
        [ onSave (mkAppData (trans :: tempTransactions) accs' (parties data)
                    (investments data) (tasks data) (journal data)
                    (goals data));
          showToast "Ledger Entry Synchronized" ]
  end.

Definition deleteTransaction (id : string) (confirmed : bool) : list Effect :=
  if negb confirmed then []
  else
    match find (LedgerPage.hasId id) (transactions data) with
    | None => []
    | Some trans =>
        let accs :=
          map (fun a =>
                 if LedgerPage.isAccount (account trans) a then
                   let delta :=
                     if LedgerPage.isIncomeOrSale (tx_type trans)
                     then (- amount trans)%Qc else amount trans in
                   withBalance a (balance a + delta)%Qc
                 else a)
              (accounts data) in
        [ onSave (mkAppData
                    (filter (fun t => negb (LedgerPage.hasId id t))
                            (transactions data))
                    accs (parties data) (investments data) (tasks data)
                    (journal data) (goals data));
          showToast "Record Purged" ]
    end.
End Handlers.

End TransactionsPage.

(** *** The filtered list of the ledger page (src/unnamed/part_004,
        lines 13-26) *)

Module LedgerView.

Inductive KindFilter : Set := allKinds | onlyKind (t : TransactionType).

Definition sameKind (a b : TransactionType) : bool :=
  match a, b with
  | INCOME, INCOME | EXPENSE, EXPENSE | SALE, SALE | PURCHASE, PURCHASE => true
  | _, _ => false
  end.

Definition matchesKind (f : KindFilter) (t : Transaction) : bool :=
  match f with
  | allKinds => true
  | onlyKind k => sameKind (tx_type t) k
  end.

Definition newestFirst (a b : Transaction) : comparison :=
  localeCompare (tx_date b) (tx_date a).

Section View.
Variable data : AppData.
Variable kindFilter : KindFilter.
Variable search startDate endDate : string.

Definition matches (t : Transaction) : bool :=
  let term := toLowerCase search in
  let party :=
    match find (LedgerPage.isParty (partyId t)) (parties data) with
    | Some p => toLowerCase (party_name p)
    | None => EmptyString
    end in
  let acct :=
    match find (LedgerPage.isAccount (account t)) (accounts data) with
    | Some a => toLowerCase (acc_name a)
    | None => EmptyString
    end in
  let matchesSearch :=
    includes (toLowerCase (description t)) term
    || includes (toLowerCase (category t)) term
    || (truthy (notes t) && includes (toLowerCase (notes t)) term)
    || includes party term || includes acct term in
  let matchesStart :=
    if truthy startDate then notBefore startDate (tx_date t) else true in
  let matchesEnd :=
    if truthy endDate then notBefore (tx_date t) endDate else true in
  matchesSearch && matchesStart && matchesEnd.

Definition filtered : list Transaction :=
  sort newestFirst
    (filter matches (filter (matchesKind kindFilter) (transactions data))).
End View.

End LedgerView.

(** *** The dispatcher that reverses balances (src/unnamed/part_005,
        lines 151-245) *)

Module MayaReversing.

Inductive FunctionCall : Set :=
| getCurrentSystemState
| deleteEntry (type searchPart : string)
| addTask (content dueDate priority : string)
| recordTransaction (type : TransactionType) (amount : number)
    (description category date accountId : string)
| navigateToPage (page : string)
| otherCall (name : string).

(** [t => t.description.toLowerCase().includes(term)]. *)
Definition mentions (term : string) (t : Transaction) : bool :=
  includes (toLowerCase (description t)) term.

(** [l.splice(idx, 1)]. *)
Fixpoint removeAt (A : Type) (idx : nat) (l : list A) : list A :=
  match l, idx with
  | [], _ => []
  | _ :: l', O => l'
  | x :: l', S i => x :: removeAt i l'
  end.

Section Handlers.
Variable numberToString : number -> string.
(** [dataRef.current], deep-copied through JSON. *)
Variable data : AppData.
Variable now : N.

Definition summary : string :=
  (newline ++ "        Current Accounts: "
   ++ join ", " (map (fun a => acc_name a ++ ": ₹"
                               ++ numberToString (balance a))
                     (accounts data))
   ++ newline ++ "        Pending Tasks: "
   ++ natToString
        (N.of_nat (List.length (filter (fun t => negb (completed t))
                                       (tasks data))))
   ++ newline ++ "        Total Transactions: "
   ++ natToString (N.of_nat (List.length (transactions data)))
   ++ newline ++ "      ")%string.

Definition purge (type searchPart : string) : option AppData :=
  let term := toLowerCase searchPart in
  if String.eqb type "transaction" then
    match findIndex (mentions term) (transactions data) with
    | Some idx =>
        match nth_error (transactions data) idx with
        | Some target =>
            let accs :=
              map (fun a =>
                     if String.eqb (acc_id a) (account target) then
                       let delta :=
                         match tx_type target with
                         | INCOME | SALE => (- amount target)%Qc
                         | _ => amount target
                         end in
                       withBalance a (balance a + delta)%Qc
                     else a)
                  (accounts data) in
            Some (mkAppData (removeAt idx (transactions data)) accs
                    (parties data) (investments data) (tasks data)
                    (journal data) (goals data))
        | None => None
        end
    | None => None
    end
  else if String.eqb type "task" then
    let kept := filter (MayaAssistant.keeps content term) (tasks data) in
    if Nat.ltb (List.length kept) (List.length (tasks data))
    then Some (mkAppData (transactions data) (accounts data) (parties data)
                 (investments data) kept (journal data) (goals data))
    else None
  else None.

Definition handleFunctionCall (fc : FunctionCall) : list Effect * string :=
  match fc with
  | getCurrentSystemState => ([], summary)
  | deleteEntry type searchPart =>
      match purge type searchPart with
      | Some currentData =>
          ( [ onSave currentData; showToast ("Maya Purged: " ++ searchPart) ],
            ("Theek hai baby, maine wo " ++ type
             ++ " delete kar diya hai. Everything is clean.")%string )
      | None =>
          ( [], ("Nahi baby, mujhe " ++ dquote ++ searchPart ++ dquote
                 ++ " wala " ++ type ++ " nahi mila.")%string )
      end
  | addTask c due prio =>
      ( [ onSave (mkAppData (transactions data) (accounts data)
                    (parties data) (investments data)
                    (mkTask (natToString now) c due prio false :: tasks data)
                    (journal data) (goals data));
          showToast "Task Initialized" ],
        ("Done jaan! Task add ho gaya: " ++ c)%string )
  | recordTransaction type amt desc cat date accountId =>
      let trans :=
        mkTransaction (natToString now) type date desc cat amt accountId None
          "Live Maya Partner Log" in
      let accs :=
        map (fun a =>
               if String.eqb (acc_id a) (account trans) then
                 let delta :=
                   match tx_type trans with
                   | INCOME | SALE => amount trans
                   | _ => (- amount trans)%Qc
                   end in
                 withBalance a (balance a + delta)%Qc
               else a)
            (accounts data) in
      ( [ onSave (mkAppData (trans :: transactions data) accs (parties data)
                    (investments data) (tasks data) (journal data)
                    (goals data));
          showToast ("Logged: ₹" ++ numberToString amt) ],
        ("Entry successful baby! ₹" ++ numberToString amt ++ " in "
         ++ category trans ++ ". I've updated your balance too.")%string )
  | navigateToPage page =>
      ( [ onNavigate page; showToast ("Nav: " ++ page) ],
        ("Lo baby, hum " ++ page ++ " par aa gaye.")%string )
  | otherCall _ => ( [], "Done."%string )
  end.
End Handlers.

End MayaReversing.

(** *** The task page (src/pages/TaskPage.tsx, lines 16-56) *)

Module TaskPage.

Definition withCompleted (t : Task) (c : bool) : Task :=
  mkTask (task_id t) (content t) (dueDate t) (priority t) c.

Definition withTasks (data : AppData) (ts : list Task) : AppData :=
  mkAppData (transactions data) (accounts data) (parties data)
    (investments data) ts (journal data) (goals data).

(** The comparator of [filteredTasks]: open tasks first, then the later due
    date first. *)
Definition byStatusThenDue (a b : Task) : comparison :=
  if Bool.eqb (completed a) (completed b)
  then localeCompare (dueDate b) (dueDate a)
  else if completed a then Gt else Lt.

Definition filteredTasks (data : AppData) (search : string) : list Task :=
  sort byStatusThenDue
    (filter (fun t => includes (toLowerCase (content t)) (toLowerCase search))
            (tasks data)).

Definition toggleTask (data : AppData) (id : string) : list Effect :=
  [ onSave (withTasks data
              (map (fun t => if String.eqb (task_id t) id
                             then withCompleted t (negb (completed t)) else t)
                   (tasks data)));
    showToast "Task Status Updated" ].

Definition deleteTask (data : AppData) (id : string) (confirmed : bool)
    : list Effect :=
  if confirmed then
    [ onSave (withTasks data
                (filter (fun t => negb (String.eqb (task_id t) id))
                        (tasks data)));
      showToast "Task Removed" ]
  else [].

(** The [editingTask] form: an absent field reads as the empty string;
    [today] is the date the clock gives. *)
Definition taskOf (editingTask : Task) (now : N) (today : string) : Task :=
  mkTask
    (if truthy (task_id editingTask) then task_id editingTask
     else natToString now)
    (content editingTask)
    (if truthy (dueDate editingTask) then dueDate editingTask else today)
    (if truthy (priority editingTask) then priority editingTask else "medium")
    (completed editingTask).

Definition handleSave (data : AppData) (editingTask : option Task) (now : N)
    (today : string) : list Effect :=
  match editingTask with
  | None => []
  | Some e =>
      if negb (truthy (content e)) then []
      else
        let task := taskOf e now today in
        let newTasks :=
          match findIndex (fun t => String.eqb (task_id t) (task_id task))
                          (tasks data) with
          | Some idx => setAt idx task (tasks data)
          | None => task :: tasks data
          end in
        [ onSave (withTasks data newTasks);
          showToast "Task Protocol Synchronized" ]
  end.

End TaskPage.

(** ** The ledger page and the replay engine on IEEE doubles

    The handlers above compute on exact rationals.  A JavaScript [number]
    is a binary64 float, and where a property stands or falls with
    rounding the same source lines are read once more over the kernel's
    floats: [handleSave] and [deleteTransaction] of the ledger page
    (src/unnamed/part_004, lines 28-114), [executeTrade] of the replay
    page (src/unnamed/part_001, lines 84-165), and [executeTrade], the
    summary tiles and the charges tab of the incremental page
    (src/pages/PortfolioPage.tsx, lines 28-39, 86-168 and 217-229). *)

Module Doubles.

Import PrimFloat.

Abbreviation number := float (only parsing).

(** Truthiness of a number: [0], [-0] and [NaN] are falsy. *)
Definition truthyNum (x : number) : bool := negb (is_zero x || is_nan x).

(** [Math.max(x, y)]: [NaN] when either argument is, [+0] above [-0]. *)
Definition Math_max (x y : number) : number :=
  if is_nan x || is_nan y then nan
  else if (x <? y)%float then y
  else if (y <? x)%float then x
  else if is_zero x then (x + y)%float
  else x.

Definition Math_abs (x : number) : number := abs x.

Record Transaction : Set := mkTransaction {
  tx_id : string;
  tx_type : TransactionType;
  tx_date : string;
  description : string;
  category : string;
  amount : number;
  account : string;
  partyId : option string;
  notes : string
}.

Record Account : Set := mkAccount {
  acc_id : string;
  acc_name : string;
  balance : number;
  acc_type : string;
  openingBalance : number
}.

Record Party : Set := mkParty {
  party_id : string;
  party_name : string;
  currentBalance : number
}.

Record InvestmentTrade : Set := mkTrade {
  trade_id : string;
  trade_date : string;
  trade_type : TradeType;
  trade_qty : number;
  trade_price : number;
  trade_charges : number
}.

Record Investment : Set := mkInvestment {
  inv_id : string;
  inv_name : string;
  assetType : string;
  qty : number;
  avgBuyPrice : number;
  currPrice : number;
  history : list InvestmentTrade;
  status : Status;
  totalRealizedPL : number
}.

Record AppData : Set := mkAppData {
  transactions : list Transaction;
  accounts : list Account;
  parties : list Party;
  investments : list Investment;
  tasks : list Task;
  journal : list JournalEntry;
  goals : list Goal
}.

(** The callbacks the two pages fire. *)
Inductive Effect : Set :=
| onSave (d : AppData)
| showToast (msg : string).

Fixpoint saved (es : list Effect) (d : AppData) : AppData :=
  match es with
  | [] => d
  | onSave d' :: es' => saved es' d'
  | _ :: es' => saved es' d
  end.

Definition withBalance (a : Account) (b : number) : Account :=
  mkAccount (acc_id a) (acc_name a) b (acc_type a) (openingBalance a).

Definition withCurrentBalance (p : Party) (b : number) : Party :=
  mkParty (party_id p) (party_name p) b.

(** *** The ledger page (src/unnamed/part_004, lines 28-114) *)

Module LedgerPage.

Record Editing : Set := mkEditing {
  e_id : string;
  e_type : TransactionType;
  e_date : string;
  e_description : string;
  e_category : string;
  e_amount : number;
  e_account : string;
  e_partyId : option string;
  e_notes : string
}.

(** [editing.partyId || undefined]. *)
Definition orUndefined (o : option string) : option string :=
  match o with
  | Some s => if truthy s then Some s else None
  | None => None
  end.

(** [p.id === tx.partyId]. *)
Definition isParty (pid : option string) (p : Party) : bool :=
  match pid with
  | Some s => String.eqb (party_id p) s
  | None => false
  end.

Definition isIncomeOrSale (t : TransactionType) : bool :=
  match t with INCOME | SALE => true | _ => false end.

(** "Revert Old Record if editing". *)
Definition revertAccount (old : Transaction) (oldAcc : Account) : Account :=
  if isIncomeOrSale (tx_type old)
  then withBalance oldAcc (balance oldAcc - amount old)%float
  else withBalance oldAcc (balance oldAcc + amount old)%float.

Definition revertParty (old : Transaction) (oldParty : Party) : Party :=
  match tx_type old with
  | SALE =>
      withCurrentBalance oldParty (currentBalance oldParty - amount old)%float
  | PURCHASE =>
      withCurrentBalance oldParty (currentBalance oldParty + amount old)%float
  | INCOME =>
      withCurrentBalance oldParty (currentBalance oldParty + amount old)%float
  | EXPENSE =>
      withCurrentBalance oldParty (currentBalance oldParty - amount old)%float
  end.

(** "Apply New Impact". *)
Definition applyAccount (trans : Transaction) (newAcc : Account) : Account :=
  if isIncomeOrSale (tx_type trans)
  then withBalance newAcc (balance newAcc + amount trans)%float
  else withBalance newAcc (balance newAcc - amount trans)%float.

Definition applyParty (trans : Transaction) (newParty : Party) : Party :=
  match tx_type trans with
  | SALE =>
      withCurrentBalance newParty (currentBalance newParty + amount trans)%float
  | PURCHASE =>
      withCurrentBalance newParty (currentBalance newParty - amount trans)%float
  | INCOME =>
      withCurrentBalance newParty (currentBalance newParty - amount trans)%float
  | EXPENSE =>
      withCurrentBalance newParty (currentBalance newParty + amount trans)%float
  end.

Definition hasId (id : string) (t : Transaction) : bool :=
  String.eqb (tx_id t) id.

Definition isAccount (id : string) (a : Account) : bool :=
  String.eqb (acc_id a) id.

Section Handlers.
Variable data : AppData.

Definition transOf (e : Editing) (now : N) : Transaction :=
  mkTransaction
    (if truthy (e_id e) then e_id e else natToString now)
    (e_type e) (e_date e) (e_description e) (e_category e) (e_amount e)
    (e_account e) (orUndefined (e_partyId e)) (e_notes e).

(** The three working copies after the revert phase. *)
Definition reverted (e : Editing)
    : list Transaction * list Account * list Party :=
  if truthy (e_id e) then
    match find (hasId (e_id e)) (transactions data) with
    | Some old =>
        ( filter (fun t => negb (hasId (e_id e) t)) (transactions data),
          updateFound (isAccount (account old)) (revertAccount old)
                      (accounts data),
          updateFound (isParty (partyId old)) (revertParty old)
                      (parties data) )
    | None => (transactions data, accounts data, parties data)
    end
  else (transactions data, accounts data, parties data).

Definition handleSave (editing : option Editing) (now : N) : list Effect :=
  match editing with
  | None => []
  | Some e =>
      if negb (truthy (e_description e)) || negb (truthyNum (e_amount e))
         || negb (truthy (e_date e))
      then []
      else
        let trans := transOf e now in
        let '(tempTransactions, accs, pts) := reverted e in
        let accs' := updateFound (isAccount (account trans))
                                 (applyAccount trans) accs in
        let pts' := updateFound (isParty (partyId trans))
                                (applyParty trans) pts in
        [ onSave (mkAppData (trans :: tempTransactions) accs' pts'
                    (investments data) (tasks data) (journal data)
                    (goals data));
          showToast "Ledger Entry Synchronized" ]
  end.

(** [confirmed] is the answer to the [confirm] dialog. *)
Definition deleteTransaction (id : string) (confirmed : bool) : list Effect :=
  if negb confirmed then []
  else
    match find (hasId id) (transactions data) with
    | None => []
    | Some trans =>
        let accs :=
          map (fun a =>
                 if isAccount (account trans) a then
                   let delta :=
                     if isIncomeOrSale (tx_type trans)
                     then (- amount trans)%float else amount trans in
                   withBalance a (balance a + delta)%float
                 else a)
              (accounts data) in
        let pts :=
          map (fun p =>
                 if isParty (partyId trans) p then
                   let delta :=
                     match tx_type trans with
                     | SALE => (- amount trans)%float
                     | PURCHASE => amount trans
                     | INCOME => amount trans
                     | EXPENSE => (- amount trans)%float
                     end in
                   withCurrentBalance p (currentBalance p + delta)%float
                 else p)
              (parties data) in
        [ onSave (mkAppData
                    (filter (fun t => negb (hasId id t)) (transactions data))
                    accs pts (investments data) (tasks data) (journal data)
                    (goals data));
          showToast "Record Purged & Balance Corrected" ]
    end.
End Handlers.

End LedgerPage.

(** *** The replay page (src/unnamed/part_001, lines 84-165) *)

Module ReplayPortfolio.

Record TradeData : Set := mkTradeData {
  td_id : string;
  td_assetId : string;
  td_newName : string;
  td_newType : string;
  td_type : TradeType;
  td_qty : number;
  td_price : number;
  td_charges : number;
  td_date : string;
  td_accountId : string
}.

Record Replay : Set := mkReplay {
  calcQty : number;
  totalCostBasis : number;
  accRealizedPL : number
}.

Definition replayStart : Replay := mkReplay 0%float 0%float 0%float.

(** The body of the [forEach] over the sorted history. *)
Definition replayStep (r : Replay) (h : InvestmentTrade) : Replay :=
  match trade_type h with
  | buy =>
      let costWithCharges :=
        (trade_qty h * trade_price h + trade_charges h)%float in
      mkReplay (calcQty r + trade_qty h)%float
               (totalCostBasis r + costWithCharges)%float
               (accRealizedPL r)
  | sell =>
      let currentAvg :=
        if (0 <? calcQty r)%float
        then (totalCostBasis r / calcQty r)%float else 0%float in
      let profitOnSale :=
        ((trade_price h - currentAvg) * trade_qty h - trade_charges h)%float in
      mkReplay (calcQty r - trade_qty h)%float
               (totalCostBasis r - currentAvg * trade_qty h)%float
               (accRealizedPL r + profitOnSale)%float
  end.

Definition byDate (a b : InvestmentTrade) : comparison :=
  localeCompare (trade_date a) (trade_date b).

Definition replay (sorted : list InvestmentTrade) : Replay :=
  fold_left replayStep sorted replayStart.

Definition finalAsset (targetAsset : Investment)
    (hist : list InvestmentTrade) : Investment :=
  let sorted := sort byDate hist in
  let r := replay sorted in
  mkInvestment (inv_id targetAsset) (inv_name targetAsset)
    (assetType targetAsset)
    (Math_max 0%float (calcQty r))
    (if (0 <? calcQty r)%float
     then (totalCostBasis r / calcQty r)%float else 0%float)
    (currPrice targetAsset)
    sorted
    (if (0 <? calcQty r)%float then active else closed)
    (accRealizedPL r).

Section Handlers.
(** [`${x}`] for an arbitrary number. *)
Variable numberToString : number -> string.

Variable data : AppData.
Variable tradeData : TradeData.
(** The two readings of [Date.now()]. *)
Variable assetStamp timestamp : N.

Definition targetAsset : option Investment :=
  if truthy (td_assetId tradeData) then
    find (fun i => String.eqb (inv_id i) (td_assetId tradeData))
         (investments data)
  else if truthy (td_newName tradeData) then
    Some (mkInvestment (natToString assetStamp) (td_newName tradeData)
            (td_newType tradeData) 0%float 0%float (td_price tradeData)
            [] active 0%float)
  else None.

Definition tradeValue : number :=
  (td_qty tradeData * td_price tradeData)%float.

Definition netImpact : number :=
  if isBuy (td_type tradeData)
  then (tradeValue + td_charges tradeData)%float
  else (tradeValue - td_charges tradeData)%float.

Definition ledgerTrans (target : Investment) : Transaction :=
  mkTransaction
    (if truthy (td_id tradeData)
     then "trade-" ++ td_id tradeData
     else "trade-" ++ natToString timestamp)
    (if isBuy (td_type tradeData) then EXPENSE else INCOME)
    (td_date tradeData)
    (typeToUpperCase (td_type tradeData) ++ " " ++ inv_name target ++ " ("
       ++ numberToString (td_qty tradeData) ++ " Units)")
    "Asset Reconciliation"
    (Math_abs netImpact)
    (td_accountId tradeData)
    None
    ("Trade ID: "
       ++ (if truthy (td_id tradeData) then td_id tradeData
           else natToString timestamp)
       ++ " | Node: " ++ inv_name target).

Definition tradeRecord : InvestmentTrade :=
  mkTrade
    (if truthy (td_id tradeData) then td_id tradeData
     else "tr-" ++ natToString timestamp)
    (td_date tradeData) (td_type tradeData) (td_qty tradeData)
    (td_price tradeData) (td_charges tradeData).

(** [history] just before the sort: the amended entry is dropped, the new
    record is pushed last. *)
Definition newHistory (target : Investment) : list InvestmentTrade :=
  (if truthy (td_id tradeData)
   then filter (fun h => negb (String.eqb (trade_id h) (td_id tradeData)))
               (history target)
   else history target) ++ [tradeRecord].

Definition updatedInvestments (target : Investment) : list Investment :=
  let final := finalAsset target (newHistory target) in
  match findIndex (fun i => String.eqb (inv_id i) (inv_id target))
                  (investments data) with
  | Some assetIdx => setAt assetIdx final (investments data)
  | None => investments data ++ [final]
  end.

(** "Simple balance update for now". *)
Definition updatedAccounts : list Account :=
  map (fun acc =>
         if String.eqb (acc_id acc) (td_accountId tradeData) then
           let delta :=
             if isBuy (td_type tradeData) then (- netImpact)%float
             else netImpact in
           withBalance acc (balance acc + delta)%float
         else acc)
      (accounts data).

Definition executeTrade : list Effect :=
  match targetAsset with
  | None => [showToast "Define Asset Node First"]
  | Some target =>
      if (td_qty tradeData <=? 0)%float || (td_price tradeData <=? 0)%float
      then [showToast "Invalid Execution Metrics"]
      else
        let lt := ledgerTrans target in
        [ onSave (mkAppData
            (lt :: filter (fun t => negb (String.eqb (tx_id t) (tx_id lt)))
                          (transactions data))
            updatedAccounts
            (parties data)
            (updatedInvestments target)
            (tasks data) (journal data) (goals data));
          showToast ("Authority Protocol "
                     ++ (if truthy (td_id tradeData) then "Amended"
                         else "Signed")) ]
  end.
End Handlers.

End ReplayPortfolio.

(** *** The incremental page (src/pages/PortfolioPage.tsx, lines 86-168) *)

Module PortfolioPage.

Record TradeData : Set := mkTradeData {
  td_type : TradeType;
  td_qty : number;
  td_price : number;
  td_charges : number;
  td_date : string;
  td_accountId : string
}.

Section Handlers.
Variable numberToString : number -> string.
Variable toLocaleString : number -> string.

Variable data : AppData.
Variable tradingAsset : option Investment.
Variable tradeData : TradeData.
Variable timestamp : N.

Definition tradeValue : number :=
  (td_qty tradeData * td_price tradeData)%float.

Definition tradeTotalImpact : number :=
  if isBuy (td_type tradeData)
  then (tradeValue + td_charges tradeData)%float
  else (tradeValue - td_charges tradeData)%float.

Definition ledgerTrans (asset : Investment) : Transaction :=
  mkTransaction
    ("trade-" ++ natToString timestamp)
    (if isBuy (td_type tradeData) then EXPENSE else INCOME)
    (td_date tradeData)
    (typeToUpperCase (td_type tradeData) ++ " " ++ inv_name asset ++ " ("
       ++ numberToString (td_qty tradeData) ++ " units)")
    "Investment Trade"
    (Math_abs tradeTotalImpact)
    (td_accountId tradeData)
    None
    ("Asset: " ++ inv_name asset ++ " | Price: ₹"
       ++ numberToString (td_price tradeData) ++ " | Charges: ₹"
       ++ numberToString (td_charges tradeData)).

Definition tradeRecord : InvestmentTrade :=
  mkTrade ("tr-" ++ natToString timestamp) (td_date tradeData)
    (td_type tradeData) (td_qty tradeData) (td_price tradeData)
    (td_charges tradeData).

Definition tradedAsset (inv : Investment) : Investment :=
  let hist := history inv ++ [tradeRecord] in
  match td_type tradeData with
  | buy =>
      let currentTotalCost := (qty inv * avgBuyPrice inv)%float in
      let newTradeCost :=
        (td_qty tradeData * td_price tradeData + td_charges tradeData)%float in
      let newQty := (qty inv + td_qty tradeData)%float in
      mkInvestment (inv_id inv) (inv_name inv) (assetType inv)
        newQty ((currentTotalCost + newTradeCost) / newQty)%float
        (td_price tradeData) hist (status inv) (totalRealizedPL inv)
  | sell =>
      let profitOnThisSell :=
        ((td_price tradeData - avgBuyPrice inv) * td_qty tradeData
         - td_charges tradeData)%float in
      mkInvestment (inv_id inv) (inv_name inv) (assetType inv)
        (qty inv - td_qty tradeData)%float (avgBuyPrice inv)
        (td_price tradeData) hist (status inv)
        (totalRealizedPL inv + profitOnThisSell)%float
  end.

Definition updatedInvestments (asset : Investment) : list Investment :=
  map (fun inv =>
         if String.eqb (inv_id inv) (inv_id asset) then tradedAsset inv
         else inv)
      (investments data).

Definition updatedAccounts : list Account :=
  map (fun acc =>
         if String.eqb (acc_id acc) (td_accountId tradeData) then
           withBalance acc
             (if isBuy (td_type tradeData)
              then (balance acc - tradeTotalImpact)%float
              else (balance acc + tradeTotalImpact)%float)
         else acc)
      (accounts data).

Definition executeTrade : list Effect :=
  match tradingAsset with
  | None => []
  | Some asset =>
      if (td_qty tradeData <=? 0)%float || (td_price tradeData <=? 0)%float
      then []
      else if negb (isBuy (td_type tradeData))
              && (qty asset <? td_qty tradeData)%float
      then [showToast "Insufficient holding quantity."]
      else
        [ onSave (mkAppData
            (ledgerTrans asset :: transactions data)
            updatedAccounts
            (parties data)
            (updatedInvestments asset)
            (tasks data) (journal data) (goals data));
          showToast ("Trade Recorded: " ++ typeToUpperCase (td_type tradeData)
                     ++ " ₹" ++ toLocaleString tradeTotalImpact) ]
  end.
End Handlers.

End PortfolioPage.

(** *** The summary tiles and the charges tab
        (src/pages/PortfolioPage.tsx, lines 28-39 and 217-229) *)

(** [x || 0] on a number. *)
Definition orZero (x : number) : number :=
  if truthyNum x then x else 0%float.

(** [l.reduce((sum, x) => sum + f(x), 0)]. *)
Definition sumBy (A : Type) (f : A -> number) (l : list A) : number :=
  fold_left (fun sum x => (sum + f x)%float) l 0%float.

Module PortfolioViews.

Record Stats : Set := mkStats {
  totalInvested : number;
  currentValue : number;
  unrealizedPL : number;
  realizedPL : number;
  totalCharges : number;
  assetCount : nat
}.

Definition isHeld (i : Investment) : bool := (0 <? qty i)%float.

Definition historyCharges (inv : Investment) : number :=
  orZero (sumBy (fun trade => orZero (trade_charges trade)) (history inv)).

Definition stats (data : AppData) : Stats :=
  let activeInvestments := filter isHeld (investments data) in
  let invested :=
    sumBy (fun i => (qty i * avgBuyPrice i)%float) activeInvestments in
  let current :=
    sumBy (fun i => (qty i * currPrice i)%float) activeInvestments in
  mkStats invested current (current - invested)%float
    (sumBy (fun i => orZero (totalRealizedPL i)) (investments data))
    (sumBy historyCharges (investments data))
    (List.length activeInvestments).

End PortfolioViews.

Module AssetProfile.

Record ChargeRow : Set := mkChargeRow {
  charge_id : string;
  assetName : string;
  charge_date : string;
  charge_type : TradeType;
  charge_qty : number;
  charge_price : number;
  charge_amount : number
}.

Definition newestFirst (a b : ChargeRow) : comparison :=
  localeCompare (charge_date b) (charge_date a).

(** The rows pushed by the two nested [forEach], before the sort. *)
Definition chargeRows (data : AppData) : list ChargeRow :=
  flat_map
    (fun inv =>
       flat_map
         (fun trade =>
            if (0 <? trade_charges trade)%float
            then [mkChargeRow (trade_id trade) (inv_name inv)
                    (trade_date trade) (trade_type trade) (trade_qty trade)
                    (trade_price trade) (trade_charges trade)]
            else [])
         (history inv))
    (investments data).

Definition chargesList (data : AppData) : list ChargeRow :=
  sort newestFirst (chargeRows data).

End AssetProfile.

(** The rows a page shows for an id. *)
Definition assetOf (d : AppData) (id : string) : option Investment :=
  find (fun i => String.eqb (inv_id i) id) (investments d).

Definition accountOf (d : AppData) (id : string) : option Account :=
  find (LedgerPage.isAccount id) (accounts d).

Definition partyOf (d : AppData) (id : string) : option Party :=
  find (fun p => String.eqb (party_id p) id) (parties d).

End Doubles.

(** *** Further vocabulary *)

(** [tx.partyId === id]. *)
Definition namesParty (id : string) (t : Transaction) : bool :=
  match partyId t with
  | Some s => String.eqb s id
  | None => false
  end.

(** Sum of the party signed deltas of the live transactions that name the
    party [id]. *)
Fixpoint partySum (id : string) (l : list Transaction) : number :=
  match l with
  | [] => ofZ 0
  | t :: l' =>
      if namesParty id t
      then (partySignedDelta t + partySum id l')%Qc
      else partySum id l'
  end.

(** The party side of the books: unique ids, and every party's current
    balance is the sum of the party signed deltas that name it. *)
Definition partiesOK (txs : list Transaction) (pts : list Party) : Prop :=
  NoDup (map party_id pts) /\
  NoDup (map tx_id txs) /\
  forall p, In p pts -> currentBalance p = partySum (party_id p) txs.

(** The first snapshot of the application (src/unnamed/part_000, line 23). *)
Definition INITIAL_DATA : AppData :=
  mkAppData []
    [mkAccount "cash-01" "Main Cash" (ofZ 0) "Cash" (ofZ 0)] [] [] [] [] [].

(** [a] may stand in front of [b] under the comparator. *)
Definition inOrder (A : Type) (cmp : A -> A -> comparison) (a b : A) : Prop :=
  cmp a b <> Gt.

Definition onDate (d : string) (h : InvestmentTrade) : bool :=
  String.eqb (trade_date h) d.

(** Whether a handler saved a snapshot. *)
Definition firesOnSave (es : list Effect) : bool :=
  existsb (fun e => match e with onSave _ => true | _ => false end) es.

(** The assistant's calls that write the ledger: a record, and a delete of
    type ['transaction']. *)
Definition touchesLedger (fc : MayaAssistant.FunctionCall) : bool :=
  match fc with
  | MayaAssistant.recordTransaction _ _ _ _ _ _ => true
  | MayaAssistant.deleteEntry type _ => String.eqb type "transaction"
  | _ => false
  end.

(** Further forms of the worked examples: a buy that opens a new asset, a
    partial sell on the incremental page, and a ledger entry on an account
    the book does not hold. *)
Definition newAssetForm : ReplayPortfolio.TradeData :=
  ReplayPortfolio.mkTradeData EmptyString EmptyString "Silver" "Metal" buy
    (ofZ 10) (ofZ 100) (ofZ 10) "2024-01-10" "cash-01".

Definition pageSellPart : PortfolioPage.TradeData :=
  PortfolioPage.mkTradeData sell (ofZ 4) (ofZ 150) (ofZ 5)
    "2024-03-01" "cash-01".

Definition strangerForm : LedgerPage.Editing :=
  LedgerPage.mkEditing EmptyString EXPENSE "2024-01-10" "Lunch" "Food"
    (ofZ 100) "bank-99" None EmptyString.

(** ASCII text: every character code is below 128.  On such text
    [String.prototype.toLowerCase] lower-cases the letters A to Z and
    nothing else, as [JS.toLowerCase] does. *)
Definition isAscii (s : string) : bool :=
  forallb (fun c => N.ltb (N_of_ascii c) 128) (list_ascii_of_string s).

(** [String.prototype.toLowerCase] on the two Greek strings of the
    example below and on ASCII text: ['ΑΣ'.toLowerCase()] is ['ας'], the
    capital sigma that ends a word taking the final form, while
    ['Σ'.toLowerCase()] is ['σ']. *)
Definition toLowerCaseFinalSigma (s : string) : string :=
  if String.eqb s "ΑΣ" then "ας"
  else if String.eqb s "Σ" then "σ"
  else toLowerCase s.

(** A book whose one entry is described in Greek capitals. *)
Definition greekEntry : Transaction :=
  mkTransaction "1700000000001" EXPENSE "2024-01-10" "ΑΣ" "Food" (ofZ 100)
    "cash-01" None EmptyString.

Definition greekData : AppData :=
  mkAppData [greekEntry]
    [mkAccount "cash-01" "Main Cash" (ofZ 4900) "Cash" (ofZ 5000)]
    [acmeParty] [goldAsset] [] [] [].

(** *** Doubles against exact arithmetic *)

(** The rational a finite double stands for ([0] for the infinities and
    [NaN]). *)
Definition value (x : PrimFloat.float) : number :=
  match FloatOps.Prim2SF x with
  | SpecFloat.S754_finite s m e =>
      Q2Qc (inject_Z (if s then Z.neg m else Z.pos m) * Qpower 2 e)
  | _ => ofZ 0
  end.

(** The double [x] is finite and stands for the rational [q]. *)
Definition stands (x : PrimFloat.float) (q : number) : Prop :=
  PrimFloat.is_finite x = true /\ value x = q.

(** A trade of the double page, read exactly. *)
Definition exactTrade (h : Doubles.InvestmentTrade) : InvestmentTrade :=
  mkTrade (Doubles.trade_id h) (Doubles.trade_date h) (Doubles.trade_type h)
    (value (Doubles.trade_qty h)) (value (Doubles.trade_price h))
    (value (Doubles.trade_charges h)).




(** What an amendment with identical content leaves of a balance [b]: the
    amount [x] of a transaction of kind [ty] undone, then redone. *)
Definition undoneRedone (ty : TransactionType) (x b : PrimFloat.float)
    : PrimFloat.float :=
  match ty with
  | INCOME | SALE => PrimFloat.add (PrimFloat.sub b x) x
  | EXPENSE | PURCHASE => PrimFloat.sub (PrimFloat.add b x) x
  end.

Definition partyUndoneRedone (ty : TransactionType) (x b : PrimFloat.float)
    : PrimFloat.float :=
  match ty with
  | SALE | EXPENSE => PrimFloat.add (PrimFloat.sub b x) x
  | PURCHASE | INCOME => PrimFloat.sub (PrimFloat.add b x) x
  end.



(** Books of the worked examples on doubles. *)
Module DoublesBook.

Import PrimFloat.

Definition noText : float -> string := fun _ => EmptyString.

Definition cashAccount : Doubles.Account :=
  Doubles.mkAccount "cash-01" "Main Cash" 5000 "Cash" 5000.

Definition goldAsset : Doubles.Investment :=
  Doubles.mkInvestment "gold" "Gold" "Gold" 0 0 0 [] active 0.

Definition sampleData : Doubles.AppData :=
  Doubles.mkAppData [] [cashAccount] [] [goldAsset] [] [] [].

Definition tradeOn (ty : TradeType) (q price : float) (date : string)
    : Doubles.ReplayPortfolio.TradeData :=
  Doubles.ReplayPortfolio.mkTradeData EmptyString "gold" EmptyString
    EmptyString ty q price 0 date "cash-01".

(** One trade entered through the page at the clock reading [t]. *)
Definition exec (d : Doubles.AppData)
    (td : Doubles.ReplayPortfolio.TradeData) (t : N) : Doubles.AppData :=
  Doubles.saved (Doubles.ReplayPortfolio.executeTrade noText d td t t) d.




(** The book after the cost-basis scenario: 6 units held at 101. *)
Definition firstBuy : Doubles.InvestmentTrade :=
  Doubles.mkTrade "tr-1" "2024-01-10" buy 10 100 10.

Definition laterSell : Doubles.InvestmentTrade :=
  Doubles.mkTrade "tr-2" "2024-02-01" sell 4 150 5.

Definition heldAsset : Doubles.Investment :=
  Doubles.mkInvestment "gold" "Gold" "Gold" 6 101 150 [firstBuy; laterSell]
    active 191.

Definition heldData : Doubles.AppData :=
  Doubles.mkAppData [] [cashAccount] [] [heldAsset] [] [] [].

(** A book with one expense of 2.13 on an account left with 8, and the
    form that re-saves the expense unchanged. *)
Definition teaTx : Doubles.Transaction :=
  Doubles.mkTransaction "1700000000000" EXPENSE "2024-01-10" "Tea" "Food"
    2.13 "cash-01" None EmptyString.

Definition teaData : Doubles.AppData :=
  Doubles.mkAppData [teaTx]
    [Doubles.mkAccount "cash-01" "Main Cash" 8 "Cash" 10.13] [] [] [] [] [].

Definition teaForm : Doubles.LedgerPage.Editing :=
  Doubles.LedgerPage.mkEditing "1700000000000" EXPENSE "2024-01-10" "Tea"
    "Food" 2.13 "cash-01" None EmptyString.

(** A book with one sale of 250 to Acme paid into the cash account, and
    the form that re-saves the sale unchanged. *)
Definition saleTx : Doubles.Transaction :=
  Doubles.mkTransaction "1700000000000" SALE "2024-01-10" "Invoice 7" "Sales"
    250 "cash-01" (Some "acme"%string) EmptyString.

Definition soldData : Doubles.AppData :=
  Doubles.mkAppData [saleTx]
    [Doubles.mkAccount "cash-01" "Main Cash" 5250 "Cash" 5000]
    [Doubles.mkParty "acme" "Acme" 250] [] [] [] [].

Definition sameSaleForm : Doubles.LedgerPage.Editing :=
  Doubles.LedgerPage.mkEditing "1700000000000" SALE "2024-01-10" "Invoice 7"
    "Sales" 250 "cash-01" (Some "acme"%string) EmptyString.

(** A second buy, a second asset with a charge of a half, a buy on the
    incremental page, a new expense of a half, and the amendment of the
    sale to 300.5. *)
Definition secondBuy : Doubles.InvestmentTrade :=
  Doubles.mkTrade "tr-3" "2024-03-01" buy 5 120 0.

Definition silverAsset : Doubles.Investment :=
  Doubles.mkInvestment "silver" "Silver" "Metal" 3 30.5 31
    [Doubles.mkTrade "tr-4" "2024-01-20" buy 2 30 0.5;
     Doubles.mkTrade "tr-5" "2024-03-05" buy 1 31 0] active 0.

Definition chargedData : Doubles.AppData :=
  Doubles.mkAppData [] [cashAccount] [] [heldAsset; silverAsset] [] [] [].

Definition pageBuy : Doubles.PortfolioPage.TradeData :=
  Doubles.PortfolioPage.mkTradeData buy 10 100.5 10 "2024-01-10" "cash-01".

Definition teaCupForm : Doubles.LedgerPage.Editing :=
  Doubles.LedgerPage.mkEditing EmptyString EXPENSE "2024-01-11" "Tea" "Food"
    0.5 "cash-01" None EmptyString.

Definition raisedSaleForm : Doubles.LedgerPage.Editing :=
  Doubles.LedgerPage.mkEditing "1700000000000" SALE "2024-01-10" "Invoice 7"
    "Sales" 300.5 "cash-01" (Some "acme"%string) EmptyString.

End DoublesBook.


(** *** Doubles read exactly

    A snapshot of the double pages read through [value]: every number is
    replaced by the rational it stands for; ids, texts and flags stay. *)
Definition exactTransaction (t : Doubles.Transaction) : Transaction :=
  mkTransaction (Doubles.tx_id t) (Doubles.tx_type t) (Doubles.tx_date t)
    (Doubles.description t) (Doubles.category t) (value (Doubles.amount t))
    (Doubles.account t) (Doubles.partyId t) (Doubles.notes t).

Definition exactAccount (a : Doubles.Account) : Account :=
  mkAccount (Doubles.acc_id a) (Doubles.acc_name a)
    (value (Doubles.balance a)) (Doubles.acc_type a)
    (value (Doubles.openingBalance a)).

Definition exactParty (p : Doubles.Party) : Party :=
  mkParty (Doubles.party_id p) (Doubles.party_name p)
    (value (Doubles.currentBalance p)).

Definition exactInvestment (i : Doubles.Investment) : Investment :=
  mkInvestment (Doubles.inv_id i) (Doubles.inv_name i) (Doubles.assetType i)
    (value (Doubles.qty i)) (value (Doubles.avgBuyPrice i))
    (value (Doubles.currPrice i)) (map exactTrade (Doubles.history i))
    (Doubles.status i) (value (Doubles.totalRealizedPL i)).

Definition exactBook (d : Doubles.AppData) : AppData :=
  mkAppData (map exactTransaction (Doubles.transactions d))
    (map exactAccount (Doubles.accounts d))
    (map exactParty (Doubles.parties d))
    (map exactInvestment (Doubles.investments d))
    (Doubles.tasks d) (Doubles.journal d) (Doubles.goals d).

Definition exactForm (e : Doubles.LedgerPage.Editing) : LedgerPage.Editing :=
  LedgerPage.mkEditing (Doubles.LedgerPage.e_id e)
    (Doubles.LedgerPage.e_type e) (Doubles.LedgerPage.e_date e)
    (Doubles.LedgerPage.e_description e) (Doubles.LedgerPage.e_category e)
    (value (Doubles.LedgerPage.e_amount e)) (Doubles.LedgerPage.e_account e)
    (Doubles.LedgerPage.e_partyId e) (Doubles.LedgerPage.e_notes e).

(** The balance [b] takes the amount [x] without rounding: the double sum
    and the double differences, in the two ways the handlers write them,
    are finite and stand for the exact ones. *)
Definition takesExactly (b x : PrimFloat.float) : Prop :=
  stands (PrimFloat.add b x) (value b + value x)%Qc /\
  stands (PrimFloat.sub b x) (value b - value x)%Qc /\
  stands (PrimFloat.add b (PrimFloat.opp x)) (value b - value x)%Qc.

(** The ledger numbers of the snapshot are finite: the amounts of the
    transactions, the balances and opening balances of the accounts, the
    current balances of the parties. *)
Definition finiteBook (d : Doubles.AppData) : bool :=
  forallb (fun t => PrimFloat.is_finite (Doubles.amount t))
          (Doubles.transactions d)
  && forallb (fun a => PrimFloat.is_finite (Doubles.balance a)
                       && PrimFloat.is_finite (Doubles.openingBalance a))
             (Doubles.accounts d)
  && forallb (fun p => PrimFloat.is_finite (Doubles.currentBalance p))
             (Doubles.parties d).

(** Well-formed books of doubles: the ledger numbers are finite and, read
    exactly, account ids and transaction ids are unique and every account
    is balanced.  The party side likewise. *)
Definition wellFormedExactly (d : Doubles.AppData) : Prop :=
  finiteBook d = true /\ wellFormed (exactBook d).

Definition partiesOKExactly (d : Doubles.AppData) : Prop :=
  finiteBook d = true /\
  partiesOK (transactions (exactBook d)) (parties (exactBook d)).

(** [handleSave] on this book and form does not round.  The amount is
    finite; when the form amends a stored entry, the account and the
    party that entry moved take its amount back exactly; and the account
    and the party the form names, as the revert phase left them, take the
    form's amount exactly. *)
Definition savesExactly (d : Doubles.AppData)
    (e : Doubles.LedgerPage.Editing) : Prop :=
  PrimFloat.is_finite (Doubles.LedgerPage.e_amount e) = true /\
  (forall old,
     truthy (Doubles.LedgerPage.e_id e) = true ->
     find (Doubles.LedgerPage.hasId (Doubles.LedgerPage.e_id e))
          (Doubles.transactions d) = Some old ->
     (forall a, find (Doubles.LedgerPage.isAccount (Doubles.account old))
                     (Doubles.accounts d) = Some a ->
                takesExactly (Doubles.balance a) (Doubles.amount old)) /\
     (forall p, find (Doubles.LedgerPage.isParty (Doubles.partyId old))
                     (Doubles.parties d) = Some p ->
                takesExactly (Doubles.currentBalance p)
                             (Doubles.amount old))) /\
  (forall a, find (Doubles.LedgerPage.isAccount
                     (Doubles.LedgerPage.e_account e))
                  (snd (fst (Doubles.LedgerPage.reverted d e))) = Some a ->
             takesExactly (Doubles.balance a)
                          (Doubles.LedgerPage.e_amount e)) /\
  (forall p, find (Doubles.LedgerPage.isParty
                     (Doubles.LedgerPage.orUndefined
                        (Doubles.LedgerPage.e_partyId e)))
                  (snd (Doubles.LedgerPage.reverted d e)) = Some p ->
             takesExactly (Doubles.currentBalance p)
                          (Doubles.LedgerPage.e_amount e)).

(** [deleteTransaction] on this book and id does not round: every account
    and every party of the entry found under the id takes its amount back
    exactly. *)
Definition deletesExactly (d : Doubles.AppData) (id : string) : Prop :=
  forall trans,
    find (Doubles.LedgerPage.hasId id) (Doubles.transactions d) = Some trans ->
    (forall a, In a (Doubles.accounts d) ->
               Doubles.LedgerPage.isAccount (Doubles.account trans) a = true ->
               takesExactly (Doubles.balance a) (Doubles.amount trans)) /\
    (forall p, In p (Doubles.parties d) ->
               Doubles.LedgerPage.isParty (Doubles.partyId trans) p = true ->
               takesExactly (Doubles.currentBalance p)
                            (Doubles.amount trans)).

(** The commands of the ledger page on doubles, the delete confirmed, and
    the snapshot each leaves behind. *)
Inductive PageCommand : Set :=
| Save (editing : Doubles.LedgerPage.Editing) (now : N)
| Delete (id : string).

Definition pageRun (d : Doubles.AppData) (c : PageCommand) : Doubles.AppData :=
  match c with
  | Save e now =>
      Doubles.saved (Doubles.LedgerPage.handleSave d (Some e) now) d
  | Delete id =>
      Doubles.saved (Doubles.LedgerPage.deleteTransaction d id true) d
  end.

Definition pageRunAll (d : Doubles.AppData) (cs : list PageCommand)
    : Doubles.AppData :=
  fold_left pageRun cs d.

Definition exactCommand (c : PageCommand) : Command :=
  match c with
  | Save e now => PageSave (exactForm e) now
  | Delete id => PageDelete id
  end.

(** The id a save mints from the clock is not in use. *)
Definition mintsFreshId (d : Doubles.AppData) (c : PageCommand) : Prop :=
  match c with
  | Save e now =>
      truthy (Doubles.LedgerPage.e_id e) = false ->
      ~ In (natToString now) (map Doubles.tx_id (Doubles.transactions d))
  | Delete _ => True
  end.

Definition stepsExactly (d : Doubles.AppData) (c : PageCommand) : Prop :=
  match c with
  | Save e _ => savesExactly d e
  | Delete id => deletesExactly d id
  end.

(** Every command of the run mints a fresh id when it mints one and works
    without rounding, each on the book the commands before it left. *)
Fixpoint runsExactly (d : Doubles.AppData) (cs : list PageCommand) : Prop :=
  match cs with
  | [] => True
  | c :: cs' =>
      mintsFreshId d c /\ stepsExactly d c /\ runsExactly (pageRun d c) cs'
  end.

(** What the ledger page leaves of a balance [b] after it recorded an
    entry of kind [ty] over [x] and then deleted it: on the account, and
    on the party. *)
Definition recordedDeleted (ty : TransactionType) (x b : PrimFloat.float)
    : PrimFloat.float :=
  match ty with
  | INCOME | SALE => PrimFloat.add (PrimFloat.add b x) (PrimFloat.opp x)
  | EXPENSE | PURCHASE => PrimFloat.add (PrimFloat.sub b x) x
  end.

Definition partyRecordedDeleted (ty : TransactionType)
    (x b : PrimFloat.float) : PrimFloat.float :=
  match ty with
  | SALE | EXPENSE => PrimFloat.add (PrimFloat.add b x) (PrimFloat.opp x)
  | PURCHASE | INCOME => PrimFloat.add (PrimFloat.sub b x) x
  end.

(** The double sum of [f] over [l] does not round: it is finite and
    stands for the exact sum of what its terms stand for. *)
Definition addsExactly (A : Type) (f : A -> PrimFloat.float) (l : list A)
    : Prop :=
  stands (Doubles.sumBy f l) (sumBy (fun x => value (f x)) l).

(** The cost of a buy, as the replay accumulates it. *)
Definition buyCost (h : Doubles.InvestmentTrade) : PrimFloat.float :=
  PrimFloat.add (PrimFloat.mul (Doubles.trade_qty h) (Doubles.trade_price h))
    (Doubles.trade_charges h).

(** What the dispatcher of part_005 leaves of a balance [b] after it
    recorded an entry of kind [ty] over [x] and then deleted it, and the
    delta by which it moves the account of an entry it deletes. *)
Definition recordedThenPurged (ty : TransactionType) (x b : number)
    : number :=
  match ty with
  | INCOME | SALE => ((b + x) + - x)%Qc
  | EXPENSE | PURCHASE => ((b + - x) + x)%Qc
  end.

Definition reverseDelta (t : Transaction) : number :=
  match tx_type t with
  | INCOME | SALE => (- amount t)%Qc
  | EXPENSE | PURCHASE => amount t
  end.

(** Closed numeric goals: compare the canonical fractions. *)
Ltac qc_eval := apply Qc_is_canon; vm_compute; reflexivity.

(** * Properties *)

(** ** Numbers *)

Lemma ltb_true (x y : number) : ltb x y = true <-> (x < y)%Qc.
Proof.
  unfold ltb. rewrite Qclt_alt. destruct (x ?= y)%Qc; split; congruence.
Qed.

Lemma ltb_false (x y : number) : ltb x y = false <-> (y <= x)%Qc.
Proof.
  unfold ltb. split; intro H.
  - apply (proj2 (Qcge_alt x y)). destruct (x ?= y)%Qc; congruence.
  - apply (proj1 (Qcge_alt x y)) in H. destruct (x ?= y)%Qc; congruence.
Qed.

Lemma leb_true (x y : number) : leb x y = true <-> (x <= y)%Qc.
Proof.
  unfold leb. rewrite Qcle_alt. destruct (x ?= y)%Qc; split; congruence.
Qed.

Lemma leb_false (x y : number) : leb x y = false <-> (y < x)%Qc.
Proof.
  unfold leb. split; intro H.
  - apply (proj2 (Qcgt_alt x y)). destruct (x ?= y)%Qc; congruence.
  - apply (proj1 (Qcgt_alt x y)) in H. rewrite H. reflexivity.
Qed.

(** ** Arrays *)

Section ArrayFacts.
Variable A : Type.
Variable p : A -> bool.

Lemma find_setAt (l : list A) (a x : A) :
  find p l = Some a -> p x = true ->
  exists i, findIndex p l = Some i /\ find p (setAt i x l) = Some x.
Proof.
  intros Hf Hx. induction l as [|y l IH]; simpl in *; [discriminate|].
  destruct (p y) eqn:Hy.
  - exists O. simpl. rewrite Hx. auto.
  - destruct (IH Hf) as (i & Hi & Hs). exists (S i).
    rewrite Hi. simpl. rewrite Hy. auto.
Qed.

Lemma find_ext (q : A -> bool) (l : list A) :
  (forall x, p x = q x) -> find p l = find q l.
Proof.
  intros E. induction l as [|y l IH]; simpl; [reflexivity|].
  rewrite E, IH. reflexivity.
Qed.

Lemma findIndex_ext (q : A -> bool) (l : list A) :
  (forall x, p x = q x) -> findIndex p l = findIndex q l.
Proof.
  intros E. induction l as [|y l IH]; simpl; [reflexivity|].
  rewrite E, IH. reflexivity.
Qed.
End ArrayFacts.

(** ** The replay engine (part_001) *)

Section ReplayFacts.
Import ReplayPortfolio.
Variable numberToString : number -> string.

(** A valid trade on an existing asset stores the replay of the amended
    history under the asset's id. *)
Lemma executeTrade_asset (data : AppData) (td : TradeData) (s t : N)
    (a : Investment) :
  truthy (td_assetId td) = true ->
  assetOf data (td_assetId td) = Some a ->
  leb (td_qty td) (ofZ 0) = false ->
  leb (td_price td) (ofZ 0) = false ->
  assetOf (saved (executeTrade numberToString data td s t) data)
          (td_assetId td)
  = Some (finalAsset a (newHistory td t a)).
Proof.
  intros Hid Hfind Hq Hp. unfold executeTrade, targetAsset.
  rewrite Hid. unfold assetOf in Hfind. rewrite Hfind, Hq, Hp. simpl.
  unfold assetOf, updatedInvestments. simpl.
  assert (Eid : inv_id a = td_assetId td).
  { apply find_some in Hfind. destruct Hfind as [_ H].
    apply String.eqb_eq in H. exact H. }
  rewrite (findIndex_ext _ (fun i => String.eqb (inv_id i) (td_assetId td))).
  2:{ intros x. rewrite Eid. reflexivity. }
  destruct (find_setAt _ (investments data)
              (finalAsset a (newHistory td t a)) Hfind) as (i & Hi & Hs).
  { simpl. rewrite Eid. apply String.eqb_refl. }
  rewrite Hi. exact Hs.
Qed.

(** C1. On an asset with an empty history, a buy of 10 units at 100 with
    charges 10 gives qty 10 and average buy price 101; a sell of 4 units at
    150 with charges 5, dated no earlier than the buy, then gives qty 6, the
    same average buy price 101 and a total realized P/L of
    (150 - 101) * 4 - 5 = 191. *)
Theorem cost_basis_scenario (data : AppData) (a : Investment)
    (assetId d1 d2 acct1 acct2 : string) (s1 t1 s2 t2 : N) :
  truthy assetId = true ->
  assetOf data assetId = Some a ->
  history a = [] ->
  localeCompare d1 d2 <> Gt ->
  let afterBuy :=
    saved (executeTrade numberToString data
             (scenarioBuy assetId d1 acct1) s1 t1) data in
  let afterSell :=
    saved (executeTrade numberToString afterBuy
             (scenarioSell assetId d2 acct2) s2 t2) afterBuy in
  exists a1 a2,
    assetOf afterBuy assetId = Some a1 /\
    qty a1 = ofZ 10 /\ avgBuyPrice a1 = ofZ 101 /\
    assetOf afterSell assetId = Some a2 /\
    qty a2 = ofZ 6 /\ avgBuyPrice a2 = ofZ 101 /\
    totalRealizedPL a2 = ofZ 191 /\
    totalRealizedPL a2 = ((ofZ 150 - ofZ 101) * ofZ 4 - ofZ 5)%Qc.
Proof.
  intros Hid Hfind Hhist Hdate afterBuy afterSell.
  pose proof (@executeTrade_asset data (scenarioBuy assetId d1 acct1) s1 t1 a
                Hid Hfind eq_refl eq_refl) as H1.
  fold afterBuy in H1. simpl td_assetId in H1.
  pose proof (@executeTrade_asset afterBuy (scenarioSell assetId d2 acct2)
                s2 t2 _ Hid H1 eq_refl eq_refl) as H2.
  fold afterSell in H2. simpl td_assetId in H2.
  eexists. eexists. split; [exact H1|]. split; [|split; [|split; [exact H2|]]].
  - unfold newHistory. rewrite Hhist. qc_eval.
  - unfold newHistory. rewrite Hhist. qc_eval.
  - assert (Hs : history (finalAsset (finalAsset a
                   (newHistory (scenarioBuy assetId d1 acct1) t1 a))
                   (newHistory (scenarioSell assetId d2 acct2) t2
                      (finalAsset a
                         (newHistory (scenarioBuy assetId d1 acct1) t1 a))))
                 = [tradeRecord (scenarioBuy assetId d1 acct1) t1;
                    tradeRecord (scenarioSell assetId d2 acct2) t2]).
    { unfold newHistory. rewrite Hhist. simpl. unfold byDate. simpl.
      destruct (localeCompare d1 d2); congruence. }
    unfold finalAsset in *. simpl history in Hs. simpl.
    rewrite Hs. repeat split; qc_eval.
Qed.

(** X2. The replay always leaves a non-negative quantity, a zero average on
    an empty holding, and a status that says whether anything is held. *)
Lemma finalAsset_invariant (target : Investment) (hist : list InvestmentTrade) :
  let a := finalAsset target hist in
  (ofZ 0 <= qty a)%Qc /\
  (qty a = ofZ 0 -> avgBuyPrice a = ofZ 0) /\
  (status a = closed <-> qty a = ofZ 0) /\
  (status a = active <-> qty a <> ofZ 0).
Proof.
  simpl. unfold Math_max.
  destruct (ltb (ofZ 0) (calcQty (replay (sort byDate hist)))) eqn:E.
  - apply ltb_true in E. pose proof (Qclt_not_eq _ _ E) as N.
    split; [apply Qclt_le_weak; exact E|].
    split; [intros H; exfalso; apply N; symmetry; exact H|].
    split; split; intros H; try discriminate; try reflexivity.
    + exfalso. apply N. symmetry. exact H.
    + intros H'. apply N. symmetry. exact H'.
  - split; [apply Qcle_refl|].
    split; [reflexivity|].
    split; split; intros H; try discriminate; try reflexivity.
    exfalso. apply H. reflexivity.
Qed.

(** C4, at the failing input.  With 10 units held, the replay page executes
    a sell of 20 units: the snapshot is saved, the asset is clamped to
    qty 0 and closed, and the settlement account is credited. *)
Theorem oversell_is_executed :
  let held :=
    saved (executeTrade numberToString sampleData
             (scenarioBuy "gold" "2024-01-10" "cash-01") 1 1) sampleData in
  let fired := executeTrade numberToString held overSell 2 2 in
  let after := saved fired held in
  (exists a, assetOf held "gold" = Some a /\ qty a = ofZ 10) /\
  (exists d, fired = [onSave d; showToast "Authority Protocol Signed"]) /\
  (exists a', assetOf after "gold" = Some a' /\ qty a' = ofZ 0 /\
              status a' = closed /\ List.length (history a') = 2%nat) /\
  (exists c c', accountOf held "cash-01" = Some c /\
                accountOf after "cash-01" = Some c' /\
                balance c = ofZ 3990 /\ balance c' = ofZ 6990) /\
  List.length (transactions after) = 2%nat.
Proof.
  cbv zeta. split; [|split; [|split; [|split]]].
  - eexists. split; [reflexivity|]. qc_eval.
  - eexists. reflexivity.
  - eexists. split; [reflexivity|]. split; [qc_eval|]. split; reflexivity.
  - eexists. eexists. split; [reflexivity|]. split; [reflexivity|].
    split; qc_eval.
  - reflexivity.
Qed.

(** C5, at the failing input.  Recording a buy and then amending it with
    the same content debits the settlement account a second time, and
    leaves two linked transactions for the one trade. *)
Theorem amend_trade_double_counts :
  let once :=
    saved (executeTrade numberToString sampleData
             (scenarioBuy "gold" "2024-01-10" "cash-01") 1 1) sampleData in
  let twice := saved (executeTrade numberToString once sameBuyAgain 2 2) once in
  (exists a, assetOf once "gold" = Some a /\
             map trade_id (history a) = ["tr-1"%string]) /\
  (exists a, assetOf twice "gold" = Some a /\
             map trade_id (history a) = ["tr-1"%string] /\ qty a = ofZ 10) /\
  (exists c c', accountOf once "cash-01" = Some c /\
                accountOf twice "cash-01" = Some c' /\
                balance c = ofZ 3990 /\ balance c' = ofZ 2980) /\
  map tx_id (transactions once) = ["trade-1"%string] /\
  map tx_id (transactions twice) = ["trade-tr-1"%string; "trade-1"%string].
Proof.
  cbv zeta. split; [|split; [|split; [|split]]].
  - eexists. split; reflexivity.
  - eexists. split; [reflexivity|]. split; [reflexivity|]. qc_eval.
  - eexists. eexists. split; [reflexivity|]. split; [reflexivity|].
    split; qc_eval.
  - reflexivity.
  - reflexivity.
Qed.

End ReplayFacts.

(** ** The incremental page (src/pages/PortfolioPage.tsx) *)

Section PortfolioPageFacts.
Import PortfolioPage.
Variable numberToString toLocaleString : number -> string.

(** X3. The guard of the incremental page: a sell of more than the trading
    asset holds only raises the toast, and nothing is saved. *)
Lemma strict_page_rejects_oversell (data : AppData) (asset : Investment)
    (td : TradeData) (t : N) :
  td_type td = sell ->
  (ofZ 0 < td_qty td)%Qc -> (ofZ 0 < td_price td)%Qc ->
  (qty asset < td_qty td)%Qc ->
  executeTrade numberToString toLocaleString data (Some asset) td t
  = [showToast "Insufficient holding quantity."]
  /\ saved (executeTrade numberToString toLocaleString data (Some asset) td t)
           data = data.
Proof.
  intros Hs Hq Hp Hlt. unfold executeTrade.
  apply leb_false in Hq. apply leb_false in Hp. apply ltb_true in Hlt.
  rewrite Hq, Hp, Hs, Hlt. simpl. split; reflexivity.
Qed.

(** C3, at the failing input.  On the incremental page, buying 10 units and
    then selling all 10 leaves qty 0 with the average buy price still 101
    and the status still active. *)
Theorem sell_all_keeps_average_and_status :
  let bought :=
    saved (executeTrade numberToString toLocaleString sampleData
             (assetOf sampleData "gold") pageBuy 1) sampleData in
  let fired :=
    executeTrade numberToString toLocaleString bought
      (assetOf bought "gold") pageSellAll 2 in
  let sold := saved fired bought in
  (exists a, assetOf bought "gold" = Some a /\
             qty a = ofZ 10 /\ avgBuyPrice a = ofZ 101 /\ status a = active) /\
  (exists d, fired = [onSave d; showToast ("Trade Recorded: SELL ₹"
                                           ++ toLocaleString (ofZ 1495))]) /\
  (exists a, assetOf sold "gold" = Some a /\
             qty a = ofZ 0 /\ avgBuyPrice a = ofZ 101 /\
             avgBuyPrice a <> ofZ 0 /\ status a = active /\
             status a <> closed).
Proof.
  cbv zeta. split; [|split].
  - eexists. split; [reflexivity|]. split; [qc_eval|]. split; [qc_eval|].
    reflexivity.
  - eexists. vm_compute. do 2 f_equal.
  - eexists. split; [reflexivity|]. split; [qc_eval|]. split; [qc_eval|].
    split; [|split; [reflexivity|discriminate]].
    intros H. apply (f_equal this) in H. vm_compute in H. discriminate.
Qed.

(** C9. Setting the mark price saves a snapshot whose transactions,
    accounts and parties are the old ones and whose assets are the old ones
    in the same order, except that each asset carrying the target id has its
    [currPrice] replaced: its id, name, type, qty, average buy price,
    history, status and total realized P/L are kept.  The unrealized P/L of
    a row is recomputed from the asset as (currPrice - avgBuyPrice) * qty;
    the asset record has no field holding it. *)
Theorem mark_price_touches_only_currPrice (data : AppData) (assetId : string)
    (price : number) :
  let after := saved (handleUpdateMktPrice data assetId price) data in
  transactions after = transactions data /\
  accounts after = accounts data /\
  parties after = parties data /\
  tasks after = tasks data /\ journal after = journal data /\
  goals after = goals data /\
  List.length (investments after) = List.length (investments data) /\
  (forall i inv, nth_error (investments data) i = Some inv ->
     exists inv', nth_error (investments after) i = Some inv' /\
       (inv_id inv <> assetId -> inv' = inv) /\
       (inv_id inv = assetId -> currPrice inv' = price) /\
       inv_id inv' = inv_id inv /\ inv_name inv' = inv_name inv /\
       assetType inv' = assetType inv /\
       qty inv' = qty inv /\ avgBuyPrice inv' = avgBuyPrice inv /\
       history inv' = history inv /\ status inv' = status inv /\
       totalRealizedPL inv' = totalRealizedPL inv /\
       currentUnrealizedPL inv'
       = ((currPrice inv' - avgBuyPrice inv) * qty inv)%Qc).
Proof.
  simpl. repeat (split; [reflexivity|]). split; [apply length_map|].
  intros i inv H.
  exists (if String.eqb (inv_id inv) assetId then withCurrPrice inv price
          else inv).
  split; [rewrite nth_error_map, H; reflexivity|].
  destruct (String.eqb_spec (inv_id inv) assetId) as [E|E].
  - split; [congruence|]. repeat split.
  - split; [reflexivity|]. split; [congruence|]. repeat split.
Qed.

End PortfolioPageFacts.

(** ** The ledger page (part_004) *)

Section UpdateFoundFacts.
Variable A : Type.
Variable p : A -> bool.

Lemma find_updateFound (f : A -> A) (l : list A) :
  (forall x, p (f x) = p x) ->
  find p (updateFound p f l) = option_map f (find p l).
Proof.
  intros Hf. induction l as [|x l IH]; simpl; [reflexivity|].
  destruct (p x) eqn:E; simpl.
  - rewrite Hf, E. reflexivity.
  - rewrite E. exact IH.
Qed.

End UpdateFoundFacts.

Section LedgerPageFacts.
Import LedgerPage.

Lemma applyParty_delta (trans : Transaction) (p : Party) :
  currentBalance (applyParty trans p)
  = (currentBalance p + partySignedDelta trans)%Qc.
Proof.
  unfold applyParty, partySignedDelta.
  destruct (tx_type trans); simpl; ring.
Qed.

Lemma applyAccount_delta (trans : Transaction) (a : Account) :
  balance (applyAccount trans a) = (balance a + signedDelta trans)%Qc.
Proof.
  unfold applyAccount, signedDelta.
  destruct (tx_type trans); simpl; ring.
Qed.

(** C6. When the ledger page records a new transaction (the form carries no
    id) whose party id resolves to a party, that party's current balance
    moves by the party signed delta: plus the amount for a sale, minus the
    amount for a purchase, minus the amount for an income, plus the amount
    for an expense. *)
Theorem record_moves_party_by_signed_delta (data : AppData) (e : Editing)
    (now : N) (pid : string) (p : Party) :
  truthy (e_id e) = false ->
  truthy (e_description e) = true ->
  truthyNum (e_amount e) = true ->
  truthy (e_date e) = true ->
  orUndefined (e_partyId e) = Some pid ->
  partyOf data pid = Some p ->
  let trans := transOf e now in
  let after := saved (handleSave data (Some e) now) data in
  exists p',
    partyOf after pid = Some p' /\
    party_id p' = party_id p /\
    currentBalance p' = (currentBalance p + partySignedDelta trans)%Qc /\
    currentBalance p'
    = match e_type e with
      | SALE => (currentBalance p + e_amount e)%Qc
      | PURCHASE => (currentBalance p - e_amount e)%Qc
      | INCOME => (currentBalance p - e_amount e)%Qc
      | EXPENSE => (currentBalance p + e_amount e)%Qc
      end.
Proof.
  intros Hid Hd Ha Hdt Hpid Hp trans after.
  exists (applyParty trans p).
  assert (Hafter : partyOf after pid = Some (applyParty trans p)).
  { unfold after, handleSave, reverted. rewrite Hd, Ha, Hdt, Hid. simpl.
    unfold partyOf. simpl. rewrite Hpid. simpl.
    change (fun p0 : Party => String.eqb (party_id p0) pid)
      with (isParty (Some pid)).
    rewrite find_updateFound.
    - transitivity (option_map (applyParty (transOf e now)) (Some p));
        [f_equal; exact Hp | reflexivity].
    - intros x. unfold applyParty.
      destruct (tx_type (transOf e now)); reflexivity. }
  split; [exact Hafter|]. split.
  - unfold applyParty. destruct (tx_type trans); reflexivity.
  - split; [apply applyParty_delta|].
    unfold applyParty, trans. simpl. destruct (e_type e); reflexivity.
Qed.

End LedgerPageFacts.

(** ** The assistant (part_006) *)

Section StringFacts.

Lemma prefix_toLowerCase (sub s : string) :
  String.prefix sub s = true ->
  String.prefix (toLowerCase sub) (toLowerCase s) = true.
Proof.
  revert s. induction sub as [|c sub IH]; intros s H.
  - destruct s; reflexivity.
  - destruct s as [|c' s]; simpl in *; [discriminate|].
    destruct (ascii_dec c c') as [->|N]; [|discriminate].
    destruct (ascii_dec (lowerAscii c') (lowerAscii c')) as [_|N];
      [apply IH; exact H | exfalso; apply N; reflexivity].
Qed.

Lemma includes_unfold (s sub : string) :
  includes s sub
  = String.prefix sub s
    || match s with
       | EmptyString => false
       | String _ s' => includes s' sub
       end.
Proof. destruct s; reflexivity. Qed.

(** A description that contains the search part still contains it once both
    are put in lower case. *)
Lemma includes_toLowerCase (s sub : string) :
  includes s sub = true ->
  includes (toLowerCase s) (toLowerCase sub) = true.
Proof.
  induction s as [|c s IH]; intros H; rewrite includes_unfold in H;
    rewrite includes_unfold; cbn [toLowerCase];
    apply orb_true_iff in H; apply orb_true_iff; destruct H as [H|H].
  - left. apply (prefix_toLowerCase _ EmptyString). exact H.
  - discriminate.
  - left. apply (prefix_toLowerCase _ (String c s)). exact H.
  - right. apply IH. exact H.
Qed.

End StringFacts.

Section FilterFacts.
Variable A : Type.
Variable f : A -> bool.

Lemma filter_length_le (l : list A) :
  (List.length (filter f l) <= List.length l)%nat.
Proof.
  induction l as [|x l IH]; simpl; [lia|]. destruct (f x); simpl; lia.
Qed.

(** [filter] that drops nothing returns the array itself. *)
Lemma filter_nothing_dropped (l : list A) :
  Nat.ltb (List.length (filter f l)) (List.length l) = false ->
  filter f l = l.
Proof.
  intros H. apply Nat.ltb_ge in H.
  induction l as [|x l IH]; simpl in *; [reflexivity|].
  pose proof (filter_length_le l) as L.
  destruct (f x); simpl in *; [f_equal; apply IH; lia | lia].
Qed.
Lemma filter_all_kept (l : list A) :
  (forall x, In x l -> f x = true) -> filter f l = l.
Proof.
  induction l as [|x l IH]; simpl; intros H; [reflexivity|].
  rewrite (H x (or_introl eq_refl)). f_equal. apply IH.
  intros y Hy. apply H. right. exact Hy.
Qed.
End FilterFacts.

Section MayaFacts.
Import MayaAssistant.
Variable numberToString : number -> string.

(** On ASCII text the built-in lower-casing keeps containment. *)
Lemma lower_keeps_ascii_containment (lower : string -> string)
    (s sub : string) :
  (forall x, isAscii x = true -> lower x = toLowerCase x) ->
  isAscii s = true -> isAscii sub = true ->
  includes s sub = true -> includes (lower s) (lower sub) = true.
Proof.
  intros Hl Hs Hsub H. rewrite (Hl s Hs), (Hl sub Hsub).
  apply includes_toLowerCase. exact H.
Qed.

(** C10, amended.  Whatever [String.prototype.toLowerCase] computes, the
    assistant's [deleteEntry] of type ['transaction'] keeps exactly the
    transactions whose lower-cased description does not contain the
    lower-cased search part: each one that does is gone, each other one
    stays.  On ASCII text, where the built-in lower-cases the letters A to
    Z only, every transaction whose description contains the search part
    is therefore gone.  The accounts and the parties, hence every balance,
    are the old ones. *)
Theorem maya_delete_leaves_balances (lower : string -> string)
    (data : AppData) (now : N) (searchPart : string) :
  let after :=
    saved (fst (handleFunctionCallWith lower numberToString data now
                  (deleteEntry "transaction" searchPart))) data in
  accounts after = accounts data /\
  parties after = parties data /\
  transactions after
  = filter (keepsWith lower description (lower searchPart))
           (transactions data) /\
  (forall t, In t (transactions data) ->
             includes (lower (description t)) (lower searchPart) = true ->
             ~ In t (transactions after)) /\
  (forall t, In t (transactions data) ->
             includes (lower (description t)) (lower searchPart) = false ->
             In t (transactions after)) /\
  ((forall x, isAscii x = true -> lower x = toLowerCase x) ->
   isAscii searchPart = true ->
   forall t, In t (transactions data) ->
             isAscii (description t) = true ->
             includes (description t) searchPart = true ->
             ~ In t (transactions after)) /\
  (forall id, option_map balance (accountOf after id)
              = option_map balance (accountOf data id)) /\
  (forall id, option_map currentBalance (partyOf after id)
              = option_map currentBalance (partyOf data id)).
Proof.
  intros after.
  assert (H : accounts after = accounts data /\ parties after = parties data
              /\ transactions after
                 = filter (keepsWith lower description (lower searchPart))
                          (transactions data)).
  { unfold after. cbn [handleFunctionCallWith]. unfold purgeWith.
    cbn [String.eqb Ascii.eqb Bool.eqb].
    destruct (Nat.ltb _ _) eqn:E; cbn [fst saved accounts parties
                                        transactions].
    - split; [reflexivity|]. split; reflexivity.
    - split; [reflexivity|]. split; [reflexivity|]. symmetry.
      apply filter_nothing_dropped. exact E. }
  destruct H as (HA & HP & HT).
  assert (Gone : forall t, includes (lower (description t))
                                    (lower searchPart) = true ->
                           ~ In t (transactions after)).
  { intros t Hinc Hin. rewrite HT in Hin. apply filter_In in Hin.
    destruct Hin as [_ Hk]. unfold keepsWith in Hk. rewrite Hinc in Hk.
    discriminate. }
  split; [exact HA|]. split; [exact HP|]. split; [exact HT|].
  split; [intros t _; apply Gone|]. split; [|split].
  - intros t Ht Hinc. rewrite HT. apply filter_In. split; [exact Ht|].
    unfold keepsWith. rewrite Hinc. reflexivity.
  - intros Hl Hsp t _ Hd Hinc. apply Gone.
    apply lower_keeps_ascii_containment; assumption.
  - unfold accountOf, partyOf. rewrite HA, HP. split; reflexivity.
Qed.

(** C2, at the failing input.  The assistant records an expense of 100 on
    the cash account, which keeps the book balanced, and then deletes it by
    keyword: no transaction is left, yet the balance stays 4900 against an
    opening balance of 5000. *)
Theorem maya_delete_breaks_balance :
  let recorded :=
    run numberToString sampleData
        (MayaRecord EXPENSE (ofZ 100) "Lunch" "Food" "2024-01-10" "cash-01" 7) in
  let purged := run numberToString recorded (MayaDelete "lunch") in
  balancedData sampleData /\
  balancedData recorded /\
  transactions purged = [] /\
  (exists a, accounts purged = [a] /\
             balance a = ofZ 4900 /\
             (openingBalance a + ledgerSum (acc_id a) (transactions purged))%Qc
             = ofZ 5000 /\
             ~ balanced purged a) /\
  ~ balancedData purged.
Proof.
  cbv zeta.
  set (a := withBalance cashAccount (ofZ 5000 + - ofZ 100)%Qc).
  assert (N : forall d, transactions d = [] -> ~ balanced d a).
  { intros d Hd H. unfold balanced in H. rewrite Hd in H.
    apply (f_equal this) in H. vm_compute in H. discriminate. }
  split; [|split; [|split; [|split]]].
  - intros x [<-|[]]. unfold balanced. qc_eval.
  - intros x [<-|[]]. unfold balanced. qc_eval.
  - reflexivity.
  - exists a. split; [reflexivity|]. split; [qc_eval|]. split; [qc_eval|].
    apply N. reflexivity.
  - intros H. specialize (H a (or_introl eq_refl)). revert H.
    apply N. reflexivity.
Qed.

End MayaFacts.

(** ** Retroactive edits under the replay engine (part_001) *)

Section SortFacts.
Variable A : Type.
Variable cmp : A -> A -> comparison.

Lemma In_insert (a x : A) (l : list A) :
  In x (insert cmp a l) -> x = a \/ In x l.
Proof.
  induction l as [|y l IH]; simpl.
  - intros [H|[]]. left. symmetry. exact H.
  - destruct (cmp a y); simpl; intros H;
      try (destruct H as [H|H]; [left; symmetry; exact H | right; exact H]).
    destruct H as [H|H]; [right; left; exact H|].
    destruct (IH H) as [H'|H']; [left; exact H' | right; right; exact H'].
Qed.

Lemma In_sort (x : A) (l : list A) : In x (sort cmp l) -> In x l.
Proof.
  induction l as [|y l IH]; simpl; [tauto|]. intros H.
  apply In_insert in H. destruct H as [H|H]; [left; symmetry; exact H|].
  right. apply IH. exact H.
Qed.




End SortFacts.

Section OrderFacts.




Lemma Qc_add_nonneg (x y : number) :
  (0 <= x -> 0 <= y -> 0 <= x + y)%Qc.
Proof.
  intros Hx Hy. pose proof (Qcplus_le_compat _ _ _ _ Hx Hy) as H.
  rewrite Qcplus_0_l in H. exact H.
Qed.



End OrderFacts.

Section RetroactiveEdit.
Import ReplayPortfolio.
Variable numberToString : number -> string.





End RetroactiveEdit.

(** ** The balance invariant under the reversing commands *)

Section LedgerInvariant.
Import LedgerPage.
Variable numberToString : number -> string.

(** With unique ids, updating the found account is updating every account
    with that id. *)
Lemma updateFound_map (k : string) (f : Account -> Account)
    (l : list Account) :
  NoDup (map acc_id l) ->
  updateFound (isAccount k) f l
  = map (fun a => if isAccount k a then f a else a) l.
Proof.
  induction l as [|x l IH]; intros N; [reflexivity|].
  inversion N as [|? ? Hx Hl]; subst. simpl.
  destruct (isAccount k x) eqn:E.
  - f_equal. symmetry. rewrite <- (map_id l) at 2. apply map_ext_in.
    intros y Hy. destruct (isAccount k y) eqn:Ey; [|reflexivity].
    exfalso. apply Hx. unfold isAccount in *.
    apply String.eqb_eq in E, Ey. rewrite E, <- Ey. apply in_map. exact Hy.
  - f_equal. apply IH. exact Hl.
Qed.

Lemma not_found_not_in (tid : string) (txs : list Transaction) :
  find (hasId tid) txs = None -> ~ In tid (map tx_id txs).
Proof.
  intros H Hin. apply in_map_iff in Hin. destruct Hin as (t & Ht & Hin).
  apply (find_none _ _ H) in Hin. unfold hasId in Hin.
  rewrite Ht, String.eqb_refl in Hin. discriminate.
Qed.

Lemma filter_other_ids (tid : string) (txs : list Transaction) :
  ~ In tid (map tx_id txs) ->
  filter (fun t => negb (hasId tid t)) txs = txs.
Proof.
  intros H. apply filter_all_kept. intros x Hx. apply negb_true_iff.
  apply String.eqb_neq. intros E. apply H. rewrite <- E. apply in_map.
  exact Hx.
Qed.

(** Removing the transaction found under an id removes its signed delta
    from the sum of its account, and nothing else. *)
Lemma ledgerSum_remove (id tid : string) (old : Transaction)
    (txs : list Transaction) :
  NoDup (map tx_id txs) ->
  find (hasId tid) txs = Some old ->
  ledgerSum id txs
  = ((if String.eqb (account old) id then signedDelta old else 0)
     + ledgerSum id (filter (fun t => negb (hasId tid t)) txs))%Qc.
Proof.
  induction txs as [|x txs IH]; intros N Hf; [discriminate|].
  inversion N as [|? ? Hx Hl]; subst. simpl in Hf. cbn [filter].
  destruct (hasId tid x) eqn:E.
  - injection Hf as <-. cbn [negb]. rewrite filter_other_ids.
    + cbn [ledgerSum]. destruct (String.eqb (account x) id); ring.
    + unfold hasId in E. apply String.eqb_eq in E. rewrite <- E. exact Hx.
  - cbn [negb ledgerSum]. rewrite (IH Hl Hf).
    destruct (String.eqb (account x) id);
      destruct (String.eqb (account old) id); ring.
Qed.

Lemma NoDup_filter_ids (f : Transaction -> bool) (txs : list Transaction) :
  NoDup (map tx_id txs) -> NoDup (map tx_id (filter f txs)).
Proof.
  induction txs as [|x txs IH]; intros N; [constructor|].
  inversion N as [|? ? Hx Hl]; subst. simpl. destruct (f x); [|auto].
  simpl. constructor; [|auto]. intros Hin. apply Hx.
  apply in_map_iff in Hin. destruct Hin as (t & Ht & Hin).
  apply filter_In in Hin. rewrite <- Ht. apply in_map. tauto.
Qed.

Lemma filtered_id_gone (tid : string) (txs : list Transaction) :
  ~ In tid (map tx_id (filter (fun t => negb (hasId tid t)) txs)).
Proof.
  intros Hin. apply in_map_iff in Hin. destruct Hin as (t & Ht & Hin).
  apply filter_In in Hin. destruct Hin as [_ Hk]. unfold hasId in Hk.
  rewrite Ht, String.eqb_refl in Hk. discriminate.
Qed.

Lemma map_ids_kept (g : Account -> Account) (l : list Account) :
  (forall a, acc_id (g a) = acc_id a) ->
  map acc_id (map g l) = map acc_id l.
Proof.
  intros H. rewrite map_map. apply map_ext. exact H.
Qed.

Lemma revertAccount_id (old : Transaction) (a : Account) :
  acc_id (revertAccount old a) = acc_id a
  /\ openingBalance (revertAccount old a) = openingBalance a
  /\ balance (revertAccount old a) = (balance a - signedDelta old)%Qc.
Proof.
  unfold revertAccount, signedDelta.
  destruct (tx_type old); simpl; repeat split; ring.
Qed.

Lemma applyAccount_id (trans : Transaction) (a : Account) :
  acc_id (applyAccount trans a) = acc_id a
  /\ openingBalance (applyAccount trans a) = openingBalance a.
Proof.
  unfold applyAccount. destruct (isIncomeOrSale (tx_type trans)); split;
    reflexivity.
Qed.

Lemma booksOK_add (t : Transaction) (g : Account -> Account)
    (txs : list Transaction) (accs : list Account) :
  booksOK txs accs ->
  ~ In (tx_id t) (map tx_id txs) ->
  (forall a, acc_id (g a) = acc_id a /\
             openingBalance (g a) = openingBalance a /\
             balance (g a)
             = (balance a
                + (if String.eqb (account t) (acc_id a)
                   then signedDelta t else 0))%Qc) ->
  booksOK (t :: txs) (map g accs).
Proof.
  intros (NA & NT & HB) Hfresh Hg. split; [|split].
  - rewrite map_ids_kept; [exact NA|]. intros a. apply (Hg a).
  - simpl. constructor; assumption.
  - intros a' Hin. apply in_map_iff in Hin. destruct Hin as (a & <- & Hin).
    destruct (Hg a) as (Hi & Ho & Hb). rewrite Hi, Ho, Hb, (HB a Hin).
    cbn [ledgerSum]. destruct (String.eqb (account t) (acc_id a)); ring.
Qed.

Lemma booksOK_remove (tid : string) (old : Transaction)
    (g : Account -> Account) (txs : list Transaction) (accs : list Account) :
  booksOK txs accs ->
  find (hasId tid) txs = Some old ->
  (forall a, acc_id (g a) = acc_id a /\
             openingBalance (g a) = openingBalance a /\
             balance (g a)
             = (balance a
                - (if String.eqb (account old) (acc_id a)
                   then signedDelta old else 0))%Qc) ->
  booksOK (filter (fun t => negb (hasId tid t)) txs) (map g accs).
Proof.
  intros (NA & NT & HB) Hf Hg. split; [|split].
  - rewrite map_ids_kept; [exact NA|]. intros a. apply (Hg a).
  - apply NoDup_filter_ids. exact NT.
  - intros a' Hin. apply in_map_iff in Hin. destruct Hin as (a & <- & Hin).
    destruct (Hg a) as (Hi & Ho & Hb). rewrite Hi, Ho, Hb, (HB a Hin).
    rewrite (@ledgerSum_remove (acc_id a) _ _ _ NT Hf). ring.
Qed.

Lemma applied_ok (trans : Transaction) (txs : list Transaction)
    (accs : list Account) :
  booksOK txs accs ->
  ~ In (tx_id trans) (map tx_id txs) ->
  booksOK (trans :: txs)
    (updateFound (isAccount (account trans)) (applyAccount trans) accs).
Proof.
  intros H Hfresh. rewrite updateFound_map by apply H.
  apply booksOK_add; [exact H | exact Hfresh|]. intros a.
  unfold isAccount. rewrite (String.eqb_sym (acc_id a)).
  destruct (String.eqb (account trans) (acc_id a)).
  - destruct (applyAccount_id trans a) as [Hi Ho].
    split; [exact Hi|]. split; [exact Ho|]. apply applyAccount_delta.
  - repeat split. ring.
Qed.

Lemma reverted_ok (tid : string) (old : Transaction)
    (txs : list Transaction) (accs : list Account) :
  booksOK txs accs ->
  find (hasId tid) txs = Some old ->
  booksOK (filter (fun t => negb (hasId tid t)) txs)
    (updateFound (isAccount (account old)) (revertAccount old) accs).
Proof.
  intros H Hf. rewrite updateFound_map by apply H.
  apply booksOK_remove with old; [exact H | exact Hf|]. intros a.
  unfold isAccount. rewrite (String.eqb_sym (acc_id a)).
  destruct (String.eqb (account old) (acc_id a)).
  - apply revertAccount_id.
  - repeat split. ring.
Qed.

Lemma save_keeps_wellFormed (d : AppData) (e : Editing) (now : N) :
  wellFormed d -> admissible d (PageSave e now) ->
  wellFormed (saved (handleSave d (Some e) now) d).
Proof.
  intros W Hadm. unfold handleSave.
  destruct (negb (truthy (e_description e)) || negb (truthyNum (e_amount e))
            || negb (truthy (e_date e))); [exact W|].
  unfold reverted. destruct (truthy (e_id e)) eqn:Hid.
  - destruct (find (hasId (e_id e)) (transactions d)) as [old|] eqn:Hf.
    + cbn [saved]. apply applied_ok; [apply reverted_ok; assumption|].
      cbn [transOf tx_id]. rewrite Hid. apply filtered_id_gone.
    + cbn [saved]. apply applied_ok; [exact W|].
      cbn [transOf tx_id]. rewrite Hid. apply not_found_not_in. exact Hf.
  - cbn [saved]. apply applied_ok; [exact W|].
    cbn [transOf tx_id]. rewrite Hid. apply Hadm. exact Hid.
Qed.

Lemma delete_keeps_wellFormed (d : AppData) (id : string) :
  wellFormed d -> wellFormed (saved (deleteTransaction d id true) d).
Proof.
  intros W. unfold deleteTransaction. cbn [negb].
  destruct (find (hasId id) (transactions d)) as [old|] eqn:Hf; [|exact W].
  cbn [saved]. apply booksOK_remove with old; [exact W | exact Hf|].
  intros a. unfold isAccount. rewrite (String.eqb_sym (acc_id a)).
  destruct (String.eqb (account old) (acc_id a)).
  - split; [reflexivity|]. split; [reflexivity|]. unfold signedDelta.
    cbn [withBalance balance].
    destruct (tx_type old); cbn [isIncomeOrSale]; ring.
  - split; [reflexivity|]. split; [reflexivity|]. ring.
Qed.

Lemma maya_record_keeps_wellFormed (d : AppData) (ty : TransactionType)
    (amt : number) (desc cat date acct : string) (now : N) :
  wellFormed d ->
  admissible d (MayaRecord ty amt desc cat date acct now) ->
  wellFormed (run numberToString d
                (MayaRecord ty amt desc cat date acct now)).
Proof.
  intros W Hadm. unfold run, MayaAssistant.handleFunctionCall,
    MayaAssistant.handleFunctionCallWith.
  cbn [fst saved].
  apply (@booksOK_add
           (mkTransaction (natToString now) ty date desc cat amt acct None
              "Recorded via Maya Voice Partner"));
    [exact W | exact Hadm|].
  intros a. cbn [account tx_type amount]. rewrite (String.eqb_sym (acc_id a)).
  destruct (String.eqb acct (acc_id a)).
  - split; [reflexivity|]. split; [reflexivity|]. unfold signedDelta.
    cbn [withBalance balance tx_type amount]. destruct ty; reflexivity.
  - split; [reflexivity|]. split; [reflexivity|]. ring.
Qed.

(** The reversing commands of the ledger page and the assistant's record
    keep well-formed books well-formed, one command or many. *)
Lemma admissible_keeps_wellFormed (d : AppData) (c : Command) :
  wellFormed d -> admissible d c -> wellFormed (run numberToString d c).
Proof.
  intros W Hadm. destruct c as [e now|id|ty amt desc cat date acct now|sp].
  - apply save_keeps_wellFormed; assumption.
  - apply delete_keeps_wellFormed; assumption.
  - apply maya_record_keeps_wellFormed; assumption.
  - destruct Hadm.
Qed.

(** In exact arithmetic, after any run of reversing commands whose minted
    ids are fresh every account of a well-formed book is balanced. *)
Lemma admissibleAll_keeps_balanced (cs : list Command) :
  forall d, wellFormed d -> admissibleAll numberToString d cs ->
            balancedData (runAll numberToString d cs).
Proof.
  induction cs as [|c cs IH]; intros d W H.
  - apply W.
  - destruct H as [Hc Hcs]. cbn [runAll fold_left]. apply IH; [|exact Hcs].
    apply admissible_keeps_wellFormed; assumption.
Qed.

End LedgerInvariant.

(** ** Closing and reopening under the replay engine (part_001) *)

Section CloseReopen.
Import ReplayPortfolio.
Variable numberToString : number -> string.

(** On the replay page, selling the 10 units held closes the asset with
    qty 0 and average buy price 0, and a later buy of 5 units reopens it. *)
Lemma replay_closes_and_reopens :
  let exec d td t := saved (executeTrade numberToString d td t t) d in
  let held := exec sampleData (tradeOn buy 10 100 "2024-01-10") 1%N in
  let sold := exec held (tradeOn sell 10 150 "2024-02-01") 2%N in
  let again := exec sold (tradeOn buy 5 120 "2024-03-01") 3%N in
  (exists a, assetOf sold "gold" = Some a /\
             qty a = ofZ 0 /\ avgBuyPrice a = ofZ 0 /\ status a = closed) /\
  (exists a, assetOf again "gold" = Some a /\
             qty a = ofZ 5 /\ avgBuyPrice a = ofZ 120 /\ status a = active).
Proof.
  cbv zeta. split.
  - eexists. split; [reflexivity|]. split; [qc_eval|]. split; [qc_eval|].
    reflexivity.
  - eexists. split; [reflexivity|]. split; [qc_eval|]. split; [qc_eval|].
    reflexivity.
Qed.

End CloseReopen.

(** ** Worked instances *)

Lemma cost_basis_scenario_witness :
  exists a1 a2,
    assetOf (saved (ReplayPortfolio.executeTrade noText sampleData
                      (scenarioBuy "gold" "2024-01-10" "cash-01") 1 1)
                   sampleData) "gold" = Some a1 /\
    qty a1 = ofZ 10 /\ avgBuyPrice a1 = ofZ 101 /\
    assetOf (saved (ReplayPortfolio.executeTrade noText
                      (saved (ReplayPortfolio.executeTrade noText sampleData
                                (scenarioBuy "gold" "2024-01-10" "cash-01")
                                1 1) sampleData)
                      (scenarioSell "gold" "2024-02-01" "cash-01") 2 2)
                   (saved (ReplayPortfolio.executeTrade noText sampleData
                             (scenarioBuy "gold" "2024-01-10" "cash-01") 1 1)
                          sampleData)) "gold" = Some a2 /\
    qty a2 = ofZ 6 /\ avgBuyPrice a2 = ofZ 101 /\
    totalRealizedPL a2 = ofZ 191 /\
    totalRealizedPL a2 = ((ofZ 150 - ofZ 101) * ofZ 4 - ofZ 5)%Qc.
Proof.
  apply (@cost_basis_scenario noText sampleData goldAsset "gold"
           "2024-01-10" "2024-02-01" "cash-01" "cash-01" 1 1 2 2).
  - reflexivity.
  - reflexivity.
  - reflexivity.
  - vm_compute. discriminate.
Defined.

Lemma record_moves_party_witness :
  exists p',
    partyOf (saved (LedgerPage.handleSave sampleData (Some newSaleForm) 7)
                   sampleData) "acme" = Some p' /\
    party_id p' = party_id acmeParty /\
    currentBalance p'
    = (currentBalance acmeParty
       + partySignedDelta (LedgerPage.transOf newSaleForm 7))%Qc /\
    currentBalance p' = (currentBalance acmeParty + ofZ 250)%Qc.
Proof.
  apply (@record_moves_party_by_signed_delta sampleData newSaleForm 7 "acme"
           acmeParty); reflexivity.
Defined.

(** * Further properties of the pages *)

(** ** Sorting *)

Section SortOrder.
Variable A : Type.
Variable cmp : A -> A -> comparison.

Lemma insert_Permutation (a : A) (l : list A) :
  Permutation (insert cmp a l) (a :: l).
Proof.
  induction l as [|y l IH]; simpl; [apply Permutation_refl|].
  destruct (cmp a y); try apply Permutation_refl.
  apply Permutation_trans with (y :: a :: l); [|apply perm_swap].
  apply perm_skip. exact IH.
Qed.

Lemma sort_Permutation (l : list A) : Permutation (sort cmp l) l.
Proof.
  induction l as [|a l IH]; simpl; [apply perm_nil|].
  apply Permutation_trans with (a :: sort cmp l);
    [apply insert_Permutation | apply perm_skip; exact IH].
Qed.

(** What is left of a sorted array when some elements are taken out is in
    the order of the input, as long as an element that jumps over another
    is never selected together with it. *)
Lemma sort_stable (q : A -> bool) (l : list A) :
  (forall x y, cmp x y = Gt -> q x = true -> q y = false) ->
  filter q (sort cmp l) = filter q l.
Proof.
  intros H.
  assert (Hins : forall a s,
             filter q (insert cmp a s)
             = if q a then a :: filter q s else filter q s).
  { intros a s. induction s as [|y s IH]; simpl; [reflexivity|].
    destruct (cmp a y) eqn:E; simpl; try reflexivity.
    rewrite IH. destruct (q a) eqn:Qa.
    - rewrite (H a y E Qa). reflexivity.
    - reflexivity. }
  induction l as [|a l IH]; simpl; [reflexivity|].
  rewrite Hins, IH. reflexivity.
Qed.

Hypothesis antisym : forall x y, cmp x y = Gt -> cmp y x <> Gt.

Lemma insert_sorted (a : A) (l : list A) :
  Sorted (inOrder cmp) l -> Sorted (inOrder cmp) (insert cmp a l).
Proof.
  induction l as [|y l IH]; intros S; simpl.
  - constructor; constructor.
  - destruct (cmp a y) eqn:E.
    + constructor; [exact S|]. constructor. unfold inOrder. congruence.
    + constructor; [exact S|]. constructor. unfold inOrder. congruence.
    + inversion S as [|? ? Sl Hd]; subst. constructor; [apply IH; exact Sl|].
      destruct l as [|z l]; simpl.
      * constructor. apply antisym. exact E.
      * destruct (cmp a z); constructor;
          try (apply antisym; exact E);
          inversion Hd; assumption.
Qed.

Lemma sort_sorted (l : list A) : Sorted (inOrder cmp) (sort cmp l).
Proof.
  induction l as [|a l IH]; simpl; [constructor|].
  apply insert_sorted. exact IH.
Qed.

Lemma sort_fixes_sorted (l : list A) :
  Sorted (inOrder cmp) l -> sort cmp l = l.
Proof.
  induction l as [|a l IH]; intros S; [reflexivity|].
  inversion S as [|? ? Sl Hd]; subst. simpl.
  change (fold_right (insert cmp) [] l) with (sort cmp l).
  rewrite (IH Sl). destruct l as [|y l]; [reflexivity|]. simpl.
  inversion Hd as [|? ? Hab]; subst. unfold inOrder in Hab.
  destruct (cmp a y); congruence.
Qed.
End SortOrder.

Lemma localeCompare_antisym (a b : string) :
  localeCompare a b = Gt -> localeCompare b a <> Gt.
Proof.
  unfold localeCompare. intros H. rewrite String.compare_antisym, H.
  discriminate.
Qed.

Lemma localeCompare_Gt_neq (a b : string) :
  localeCompare a b = Gt -> a <> b.
Proof.
  unfold localeCompare. intros H E. subst.
  pose proof (String.compare_antisym b b) as S. rewrite H in S.
  discriminate.
Qed.

(** ** Sums *)

Section SumFacts.
Variable A : Type.
Variable f : A -> number.

Lemma fold_sum (l : list A) (acc : number) :
  fold_left (fun sum x => (sum + f x)%Qc) l acc = (acc + sumBy f l)%Qc.
Proof.
  unfold sumBy. revert acc. induction l as [|x l IH]; intros acc; simpl.
  - change (ofZ 0) with 0%Qc. ring.
  - rewrite IH, (IH (ofZ 0 + f x)%Qc). change (ofZ 0) with 0%Qc. ring.
Qed.

Lemma sumBy_cons (x : A) (l : list A) :
  sumBy f (x :: l) = (f x + sumBy f l)%Qc.
Proof.
  unfold sumBy at 1. simpl. rewrite fold_sum. change (ofZ 0) with 0%Qc. ring.
Qed.

Lemma sumBy_app (l1 l2 : list A) :
  sumBy f (l1 ++ l2) = (sumBy f l1 + sumBy f l2)%Qc.
Proof.
  induction l1 as [|x l1 IH]; simpl.
  - unfold sumBy at 2. simpl. change (ofZ 0) with 0%Qc. ring.
  - rewrite !sumBy_cons, IH. ring.
Qed.

Lemma sumBy_Permutation (l1 l2 : list A) :
  Permutation l1 l2 -> sumBy f l1 = sumBy f l2.
Proof.
  induction 1 as [|x l1 l2 _ IH|x y l|l1 l2 l3 _ IH1 _ IH2].
  - reflexivity.
  - rewrite !sumBy_cons, IH. reflexivity.
  - rewrite !sumBy_cons. ring.
  - rewrite IH1. exact IH2.
Qed.

End SumFacts.

Lemma sumBy_ext (A : Type) (f g : A -> number) (l : list A) :
  (forall x, In x l -> f x = g x) -> sumBy f l = sumBy g l.
Proof.
  induction l as [|x l IH]; intros H; [reflexivity|].
  rewrite !sumBy_cons, (H x (or_introl eq_refl)), IH; [reflexivity|].
  intros y Hy. apply H. right. exact Hy.
Qed.

Lemma orZero_id (x : number) : orZero x = x.
Proof.
  unfold orZero, truthyNum. destruct (Qc_eq_bool x (ofZ 0)) eqn:E;
    [|reflexivity].
  apply Qc_eq_bool_correct in E. symmetry. exact E.
Qed.

(** ** The replay engine, continued (part_001) *)

Section ReplayOrder.
Import ReplayPortfolio.

Lemma byDate_antisym (x y : InvestmentTrade) :
  byDate x y = Gt -> byDate y x <> Gt.
Proof. apply localeCompare_antisym. Qed.

(** X4. The history the replay page stores with an asset holds exactly the
    trades it was given, each as often as given, in date order: no trade
    stands in front of an earlier-dated one. *)
Theorem stored_history_is_sorted_permutation (target : Investment)
    (hist : list InvestmentTrade) :
  Permutation (history (finalAsset target hist)) hist /\
  Sorted (inOrder byDate) (history (finalAsset target hist)) /\
  List.length (history (finalAsset target hist)) = List.length hist.
Proof.
  cbn [finalAsset history]. split; [apply sort_Permutation|]. split.
  - apply sort_sorted. exact byDate_antisym.
  - apply Permutation_length. apply sort_Permutation.
Qed.

(** X5. Replaying the history the replay page stored changes nothing: the
    asset it yields is the stored asset itself. *)
Theorem replay_is_idempotent (target : Investment)
    (hist : list InvestmentTrade) :
  finalAsset (finalAsset target hist) (history (finalAsset target hist))
  = finalAsset target hist.
Proof.
  unfold finalAsset at 1. cbn [history inv_id inv_name assetType currPrice].
  cbn [finalAsset history inv_id inv_name assetType currPrice].
  rewrite (@sort_fixes_sorted _ byDate (sort byDate hist)).
  - reflexivity.
  - apply sort_sorted. exact byDate_antisym.
Qed.

(** X6. Trades of one date are replayed in the order they were entered:
    the sort never reorders two trades that carry the same date. *)
Theorem same_day_trades_keep_entry_order (d : string)
    (hist : list InvestmentTrade) :
  filter (onDate d) (sort byDate hist) = filter (onDate d) hist.
Proof.
  apply sort_stable. intros x y Hgt Hx. unfold onDate in *.
  apply String.eqb_eq in Hx. apply String.eqb_neq. intros Hy.
  apply (@localeCompare_Gt_neq _ _ Hgt). congruence.
Qed.

End ReplayOrder.

(** ** Trades on the replay page, continued (part_001) *)

Section ReplayTrades.
Import ReplayPortfolio.
Variable numberToString : number -> string.

(** X8. The replay page saves a snapshot exactly when the asset resolves
    (an existing id, or a name for a new asset) and both quantity and price
    are positive; in every other case it fires a single toast and the
    snapshot in force is the old one. *)
Theorem replay_page_saves_iff_valid (data : AppData) (td : TradeData)
    (s t : N) :
  (firesOnSave (executeTrade numberToString data td s t) = true <->
   targetAsset data td s <> None /\
   (0 < td_qty td)%Qc /\ (0 < td_price td)%Qc) /\
  (firesOnSave (executeTrade numberToString data td s t) = false ->
   saved (executeTrade numberToString data td s t) data = data /\
   exists msg, executeTrade numberToString data td s t = [showToast msg]).
Proof.
  unfold executeTrade. destruct (targetAsset data td s) as [target|].
  - destruct (leb (td_qty td) (ofZ 0)) eqn:Eq; cbn [orb].
    { cbn [firesOnSave existsb]. apply leb_true in Eq. split; [split|].
      - intros H. discriminate H.
      - intros (_ & Hq & _). exfalso. exact (Qcle_not_lt _ _ Eq Hq).
      - intros _. split; [reflexivity | eexists; reflexivity]. }
    destruct (leb (td_price td) (ofZ 0)) eqn:Ep.
    { cbn [firesOnSave existsb]. apply leb_true in Ep. split; [split|].
      - intros H. discriminate H.
      - intros (_ & _ & Hp). exfalso. exact (Qcle_not_lt _ _ Ep Hp).
      - intros _. split; [reflexivity | eexists; reflexivity]. }
    cbn [firesOnSave existsb orb]. split; [split|].
    + intros _. split; [discriminate|].
      split; [apply leb_false; exact Eq | apply leb_false; exact Ep].
    + intros _. reflexivity.
    + intros H. discriminate H.
  - cbn [firesOnSave existsb]. split; [split|].
    + intros H. discriminate H.
    + intros (H & _). exfalso. apply H. reflexivity.
    + intros _. split; [reflexivity | eexists; reflexivity].
Qed.

(** X9. A valid buy entered with no asset id but a name, at a clock reading
    no asset id equals, appends one new asset after the existing ones and
    leaves those as they were: the new asset holds the bought quantity at
    an average of price plus charges per unit, with no realized P/L, the
    status active and the one trade as its history. *)
Theorem new_asset_is_appended (data : AppData) (td : TradeData) (s t : N) :
  truthy (td_assetId td) = false ->
  truthy (td_newName td) = true ->
  td_type td = buy ->
  (0 < td_qty td)%Qc -> (0 < td_price td)%Qc ->
  ~ In (natToString s) (map inv_id (investments data)) ->
  exists a,
    investments (saved (executeTrade numberToString data td s t) data)
    = investments data ++ [a] /\
    inv_id a = natToString s /\ inv_name a = td_newName td /\
    qty a = td_qty td /\
    avgBuyPrice a
    = ((td_qty td * td_price td + td_charges td) / td_qty td)%Qc /\
    totalRealizedPL a = ofZ 0 /\ status a = active /\
    history a = [tradeRecord td t].
Proof.
  intros Hid Hname Hbuy Hq Hp Hfresh.
  unfold executeTrade, targetAsset. rewrite Hid, Hname. cbv beta iota.
  change (ofZ 0) with 0%Qc.
  rewrite (proj2 (leb_false _ _) Hq), (proj2 (leb_false _ _) Hp).
  cbn [orb saved investments]. unfold updatedInvestments. cbn [inv_id].
  assert (Hnone : findIndex (fun i => String.eqb (inv_id i) (natToString s))
                            (investments data) = None).
  { clear -Hfresh. induction (investments data) as [|x l IH]; [reflexivity|].
    simpl in *. destruct (String.eqb_spec (inv_id x) (natToString s)) as [E|E].
    - exfalso. apply Hfresh. left. exact E.
    - rewrite IH; [reflexivity|]. intros H. apply Hfresh. right. exact H. }
  rewrite Hnone. eexists. split; [reflexivity|].
  assert (Hh : forall target, history target = [] ->
                 newHistory td t target = [tradeRecord td t]).
  { intros target E. unfold newHistory. rewrite E. cbn [filter].
    destruct (truthy (td_id td)); reflexivity. }
  rewrite Hh by reflexivity.
  assert (R : replay (sort byDate [tradeRecord td t])
              = mkReplay (td_qty td)
                  (td_qty td * td_price td + td_charges td)%Qc 0%Qc).
  { unfold replay. cbn [sort fold_right insert fold_left]. unfold replayStep.
    cbn [tradeRecord trade_type trade_qty trade_price trade_charges].
    rewrite Hbuy. cbn [calcQty totalCostBasis accRealizedPL replayStart].
    change (ofZ 0) with 0%Qc. f_equal; ring. }
  unfold finalAsset. rewrite R.
  cbn [inv_id inv_name qty avgBuyPrice totalRealizedPL status history
       calcQty totalCostBasis accRealizedPL].
  unfold Math_max. change (ofZ 0) with 0%Qc.
  rewrite (proj2 (ltb_true _ _) Hq). repeat split.
Qed.

End ReplayTrades.

(** ** The incremental page, continued (src/pages/PortfolioPage.tsx) *)

Section IncrementalTrades.
Import PortfolioPage.
Variable numberToString toLocaleString : number -> string.

(** X13. On the incremental page holdings never go negative: when every
    asset holds a non-negative quantity and the trading asset shows the
    quantity of the assets that carry its id, every asset still holds a
    non-negative quantity after the handler ran, whatever the form. *)
Theorem page_trade_keeps_holdings_nonnegative (data : AppData)
    (asset : Investment) (td : TradeData) (t : N) :
  (forall inv, In inv (investments data) -> (0 <= qty inv)%Qc) ->
  (forall inv, In inv (investments data) -> inv_id inv = inv_id asset ->
               qty inv = qty asset) ->
  forall inv',
    In inv' (investments
               (saved (executeTrade numberToString toLocaleString data
                         (Some asset) td t) data)) ->
    (0 <= qty inv')%Qc.
Proof.
  intros Hall Hsync inv'. unfold executeTrade.
  destruct (leb (td_qty td) (ofZ 0)) eqn:Eq; cbn [orb]; [apply Hall|].
  destruct (leb (td_price td) (ofZ 0)); [apply Hall|].
  destruct (negb (isBuy (td_type td)) && ltb (qty asset) (td_qty td)) eqn:G;
    [apply Hall|].
  cbn [saved investments]. unfold updatedInvestments. intros Hin.
  apply in_map_iff in Hin. destruct Hin as (inv & <- & Hin).
  destruct (String.eqb_spec (inv_id inv) (inv_id asset)) as [Eid|_];
    [|apply Hall; exact Hin].
  apply leb_false in Eq. change (ofZ 0) with 0%Qc in Eq.
  unfold tradedAsset. destruct (td_type td) eqn:E; cbn [qty].
  - apply Qc_add_nonneg; [apply Hall; exact Hin|].
    apply Qclt_le_weak. exact Eq.
  - cbn [isBuy negb andb] in G. apply ltb_false in G.
    rewrite (Hsync inv Hin Eid).
    apply (proj1 (Qcle_minus_iff _ _)). exact G.
Qed.

End IncrementalTrades.

(** ** Summary tiles, mark prices and the audit ledger *)

Section ViewFacts.
Import PortfolioViews.

Lemma sumBy_map (A B : Type) (g : B -> number) (f : A -> B) (l : list A) :
  sumBy g (map f l) = sumBy (fun x => g (f x)) l.
Proof.
  induction l as [|x l IH]; [reflexivity|].
  cbn [map]. rewrite !sumBy_cons, IH. reflexivity.
Qed.

Lemma filter_map_swap (A B : Type) (p : B -> bool) (f : A -> B)
    (l : list A) :
  filter p (map f l) = map f (filter (fun x => p (f x)) l).
Proof.
  induction l as [|x l IH]; [reflexivity|].
  cbn [map filter]. destruct (p (f x)); cbn [map]; rewrite IH; reflexivity.
Qed.

Lemma sumBy_flat_map (A B : Type) (g : B -> number) (f : A -> list B)
    (l : list A) :
  sumBy g (flat_map f l) = sumBy (fun x => sumBy g (f x)) l.
Proof.
  induction l as [|x l IH]; [reflexivity|].
  cbn [flat_map]. rewrite sumBy_app, sumBy_cons, IH. reflexivity.
Qed.

(** X15. Setting a mark price moves only the current-value and unrealized
    tiles: the invested capital, the realized returns, the total charges
    and the count of assets held are what they were. *)
Theorem mark_price_keeps_other_tiles (data : AppData) (assetId : string)
    (price : number) :
  let after :=
    saved (PortfolioPage.handleUpdateMktPrice data assetId price) data in
  totalInvested (stats after) = totalInvested (stats data) /\
  realizedPL (stats after) = realizedPL (stats data) /\
  totalCharges (stats after) = totalCharges (stats data) /\
  assetCount (stats after) = assetCount (stats data).
Proof.
  cbn zeta. unfold PortfolioPage.handleUpdateMktPrice. cbn [saved].
  unfold stats. cbn [investments totalInvested realizedPL totalCharges
                     assetCount].
  set (f := fun inv : Investment =>
              if String.eqb (inv_id inv) assetId
              then withCurrPrice inv price else inv).
  assert (Hq : forall x, isHeld (f x) = isHeld x).
  { intros x. unfold f, isHeld. destruct (String.eqb (inv_id x) assetId);
      reflexivity. }
  rewrite filter_map_swap, (filter_ext _ _ Hq).
  rewrite !sumBy_map, length_map. repeat split.
  - apply sumBy_ext. intros x _. unfold f.
    destruct (String.eqb (inv_id x) assetId); reflexivity.
  - apply sumBy_ext. intros x _. unfold f.
    destruct (String.eqb (inv_id x) assetId); reflexivity.
  - apply sumBy_ext. intros x _. unfold f.
    destruct (String.eqb (inv_id x) assetId); reflexivity.
Qed.

(** X16. Of two mark prices set one after the other on the same asset the
    last one wins: the snapshot is the one a single update to the second
    price gives. *)
Theorem mark_price_last_write_wins (data : AppData) (assetId : string)
    (p1 p2 : number) :
  let once := saved (PortfolioPage.handleUpdateMktPrice data assetId p1) data in
  saved (PortfolioPage.handleUpdateMktPrice once assetId p2) once
  = saved (PortfolioPage.handleUpdateMktPrice data assetId p2) data.
Proof.
  cbn zeta. unfold PortfolioPage.handleUpdateMktPrice.
  cbn [saved transactions accounts parties investments tasks journal goals].
  f_equal. rewrite map_map. apply map_ext. intros inv.
  destruct (String.eqb (inv_id inv) assetId) eqn:E.
  - cbn [withCurrPrice inv_id]. rewrite E. reflexivity.
  - rewrite E. reflexivity.
Qed.

Lemma runningRows_app (l1 l2 : list InvestmentTrade) :
  forall (r : ReplayPortfolio.Replay) (rc : number),
    exists rc',
      runningRows (ReplayPortfolio.calcQty r) rc (l1 ++ l2)
      = runningRows (ReplayPortfolio.calcQty r) rc l1
        ++ runningRows
             (ReplayPortfolio.calcQty
                (fold_left ReplayPortfolio.replayStep l1 r)) rc' l2.
Proof.
  induction l1 as [|h l1 IH]; intros r rc.
  - exists rc. reflexivity.
  - cbn [app runningRows fold_left].
    assert (E : (if isBuy (trade_type h)
                 then (ReplayPortfolio.calcQty r + trade_qty h)%Qc
                 else (ReplayPortfolio.calcQty r - trade_qty h)%Qc)
                = ReplayPortfolio.calcQty (ReplayPortfolio.replayStep r h)).
    { unfold ReplayPortfolio.replayStep. destruct (trade_type h); reflexivity. }
    rewrite E. edestruct (IH (ReplayPortfolio.replayStep r h)) as (rc' & Hrc).
    exists rc'. rewrite Hrc. reflexivity.
Qed.

Lemma inWindow_open (h : LedgerRow) : inWindow EmptyString EmptyString h = true.
Proof. reflexivity. Qed.

(** X17. With no date window set, the audit ledger of an asset stored by
    the replay page lists one row per trade, and the running quantity of
    its first row, the most recent trade, is the quantity the replay ended
    with: the asset's quantity is that number, or 0 when it is negative,
    and the asset is active exactly when it is positive. *)
Theorem audit_ledger_ends_at_replayed_quantity (target : Investment)
    (hist : list InvestmentTrade) :
  hist <> [] ->
  let a := ReplayPortfolio.finalAsset target hist in
  exists row rest,
    assetLedgerData (Some a) EmptyString EmptyString = row :: rest /\
    List.length (row :: rest) = List.length hist /\
    qty a = Math_max (ofZ 0) (runningQty row) /\
    (status a = active <-> (0 < runningQty row)%Qc).
Proof.
  intros Hne. cbn zeta.
  set (S := sort ReplayPortfolio.byDate hist).
  assert (HS : S <> []).
  { intros E. apply Hne. apply Permutation_nil.
    rewrite <- E. unfold S. apply sort_Permutation. }
  assert (Hhist : history (ReplayPortfolio.finalAsset target hist) = S)
    by reflexivity.
  unfold assetLedgerData. rewrite Hhist.
  rewrite (@sort_fixes_sorted _ ReplayPortfolio.byDate S)
    by (apply sort_sorted; exact byDate_antisym).
  rewrite (filter_all_kept _ _ (fun x _ => inWindow_open x)).
  destruct (exists_last HS) as (l & h & El).
  destruct (runningRows_app l [h] ReplayPortfolio.replayStart (ofZ 0))
    as (rc' & Hrows).
  change (ReplayPortfolio.calcQty ReplayPortfolio.replayStart) with (ofZ 0)
    in Hrows.
  rewrite El, Hrows. cbn [runningRows]. rewrite rev_app_distr. cbn [rev app].
  eexists. eexists. split; [reflexivity|].
  assert (Eq : runningQty
                 (mkRow h
                    (if isBuy (trade_type h)
                     then (ReplayPortfolio.calcQty
                             (fold_left ReplayPortfolio.replayStep l
                                ReplayPortfolio.replayStart) + trade_qty h)%Qc
                     else (ReplayPortfolio.calcQty
                             (fold_left ReplayPortfolio.replayStep l
                                ReplayPortfolio.replayStart) - trade_qty h)%Qc)
                    (if isBuy (trade_type h)
                     then (rc' + (trade_qty h * trade_price h
                                  + (if isBuy (trade_type h)
                                     then trade_charges h
                                     else - trade_charges h)))%Qc
                     else (rc' - (trade_qty h * trade_price h
                                  + (if isBuy (trade_type h)
                                     then trade_charges h
                                     else - trade_charges h)))%Qc))
               = ReplayPortfolio.calcQty (ReplayPortfolio.replay S)).
  { unfold ReplayPortfolio.replay. rewrite El, fold_left_app.
    cbn [fold_left runningQty]. unfold ReplayPortfolio.replayStep.
    destruct (trade_type h); reflexivity. }
  rewrite Eq. split; [|split].
  - cbn [List.length]. rewrite length_rev.
    transitivity (List.length S).
    + rewrite El, length_app. cbn [List.length].
      assert (L : forall q c (x : list InvestmentTrade),
                 List.length (runningRows q c x) = List.length x).
      { intros q c x. revert q c. induction x as [|y x IHx]; intros q c;
          [reflexivity|]. cbn [runningRows List.length]. rewrite IHx.
        reflexivity. }
      rewrite L. lia.
    + apply Permutation_length. apply sort_Permutation.
  - reflexivity.
  - cbn [ReplayPortfolio.finalAsset status]. fold S.
    destruct (ltb (ofZ 0) (ReplayPortfolio.calcQty (ReplayPortfolio.replay S)))
      eqn:E.
    + apply ltb_true in E. split; [intros _; exact E | reflexivity].
    + apply ltb_false in E. split; [discriminate|].
      intros H. exfalso. exact (Qcle_not_lt _ _ E H).
Qed.

End ViewFacts.

(** ** Asset profiles (src/pages/PortfolioPage.tsx) *)

Section UpsertFacts.
Variable A : Type.
Variable p q : A -> bool.

Lemma findIndex_None (l : list A) (x : A) :
  findIndex p l = None -> p x = true ->
  find p (l ++ [x]) = Some x /\
  (q x = false -> find q (l ++ [x]) = find q l).
Proof.
  intros H Hx. induction l as [|y l IH]; simpl in *.
  - rewrite Hx. split; [reflexivity|]. intros ->. reflexivity.
  - destruct (p y) eqn:Py; [discriminate|].
    destruct (findIndex p l); [discriminate|].
    destruct (IH eq_refl) as [I1 I2]. split; [exact I1|].
    intros Hq. destruct (q y); [reflexivity | apply I2; exact Hq].
Qed.

Lemma findIndex_Some (l : list A) (x : A) :
  forall i, findIndex p l = Some i -> p x = true ->
  find p (setAt i x l) = Some x /\
  (q x = false -> (forall y, p y = true -> q y = false) ->
   find q (setAt i x l) = find q l) /\
  List.length (setAt i x l) = List.length l.
Proof.
  induction l as [|y l IH]; intros i H Hx; simpl in *; [discriminate|].
  destruct (p y) eqn:Py.
  - injection H as <-. simpl. rewrite Hx. split; [reflexivity|].
    split; [|reflexivity]. intros Hq Hpq. rewrite Hq, (Hpq y Py). reflexivity.
  - destruct (findIndex p l) as [j|] eqn:Ej; [|discriminate].
    injection H as <-. simpl. rewrite Py.
    destruct (IH j eq_refl Hx) as (I1 & I2 & I3). split; [exact I1|].
    split; [|rewrite I3; reflexivity].
    intros Hq Hpq. destruct (q y); [reflexivity | apply I2; assumption].
Qed.
End UpsertFacts.

Section AssetProfileFacts.
Import AssetProfile.

(** X18. Saving an asset profile that has a name stores it under its id,
    with the status active and the form's quantity, average and history
    kept; the asset shown for any other id, the transactions and the
    accounts are what they were, and the list grows by one only when the id
    was new. *)
Theorem save_asset_profile_upserts (data : AppData) (e : Investment) :
  truthy (inv_name e) = true ->
  let after := saved (handleSaveAsset data (Some e)) data in
  assetOf after (inv_id e) = Some (profileOf e) /\
  status (profileOf e) = active /\
  qty (profileOf e) = qty e /\ avgBuyPrice (profileOf e) = avgBuyPrice e /\
  history (profileOf e) = history e /\
  (forall id, id <> inv_id e -> assetOf after id = assetOf data id) /\
  transactions after = transactions data /\
  accounts after = accounts data /\
  List.length (investments after)
  = match assetOf data (inv_id e) with
    | Some _ => List.length (investments data)
    | None => S (List.length (investments data))
    end.
Proof.
  intros Hname. cbn zeta. unfold handleSaveAsset. rewrite Hname.
  cbn [negb saved]. unfold assetOf. cbn [investments transactions accounts].
  set (p := fun i : Investment => String.eqb (inv_id i) (inv_id e)).
  assert (Hp : p (profileOf e) = true) by apply String.eqb_refl.
  assert (Hother : forall id, id <> inv_id e ->
            (fun i : Investment => String.eqb (inv_id i) id) (profileOf e)
            = false /\
            forall y, p y = true ->
                      (fun i : Investment => String.eqb (inv_id i) id) y
                      = false).
  { intros id Hid. split.
    - apply String.eqb_neq. cbn [profileOf inv_id]. congruence.
    - intros y Hy. apply String.eqb_eq in Hy. apply String.eqb_neq.
      congruence. }
  assert (Hfields : status (profileOf e) = active /\
                    qty (profileOf e) = qty e /\
                    avgBuyPrice (profileOf e) = avgBuyPrice e /\
                    history (profileOf e) = history e).
  { unfold profileOf. cbn [status qty avgBuyPrice history].
    rewrite !orZero_id. repeat split. }
  destruct Hfields as (Hf1 & Hf2 & Hf3 & Hf4).
  destruct (findIndex p (investments data)) as [i|] eqn:Ei.
  - destruct (@findIndex_Some _ p p (investments data) (profileOf e) i Ei Hp)
      as (F1 & _ & F3).
    split; [exact F1|].
    split; [exact Hf1|]. split; [exact Hf2|]. split; [exact Hf3|].
    split; [exact Hf4|].
    split; [|split; [reflexivity|split; [reflexivity|]]].
    + intros id Hid. destruct (Hother id Hid) as [H1 H2].
      apply (@findIndex_Some _ p _ (investments data) (profileOf e) i Ei Hp);
        assumption.
    + rewrite F3.
      assert (Hf : exists a, find p (investments data) = Some a).
      { clear -Ei. revert i Ei.
        induction (investments data) as [|y l IH]; intros i Ei; simpl in *;
          [discriminate|].
        destruct (p y); [eexists; reflexivity|].
        destruct (findIndex p l) as [j|]; [|discriminate].
        apply (IH j eq_refl). }
      destruct Hf as (a & Ha). rewrite Ha. reflexivity.
  - destruct (@findIndex_None _ p p (investments data) (profileOf e) Ei Hp)
      as (F1 & _).
    split; [exact F1|].
    split; [exact Hf1|]. split; [exact Hf2|]. split; [exact Hf3|].
    split; [exact Hf4|].
    split; [|split; [reflexivity|split; [reflexivity|]]].
    + intros id Hid. destruct (Hother id Hid) as [H1 _].
      apply (@findIndex_None _ p _ (investments data) (profileOf e) Ei Hp).
      exact H1.
    + rewrite length_app. cbn [List.length].
      assert (Hf : find p (investments data) = None).
      { clear -Ei. induction (investments data) as [|y l IH]; simpl in *;
          [reflexivity|].
        destruct (p y); [discriminate|].
        destruct (findIndex p l); [discriminate|]. apply IH. reflexivity. }
      rewrite Hf. lia.
Qed.

End AssetProfileFacts.

(** ** The ledger page, continued (part_004) *)

Section LedgerRoundTrip.
Import LedgerPage.

Lemma updateFound_as_map (A : Type) (key : A -> string) (p : A -> bool)
    (k : string) (f : A -> A) (l : list A) :
  (forall x, p x = true -> key x = k) ->
  NoDup (map key l) ->
  updateFound p f l = map (fun a => if p a then f a else a) l.
Proof.
  intros Hp. induction l as [|x l IH]; intros N; [reflexivity|].
  inversion N as [|? ? Hx Hl]; subst. simpl.
  destruct (p x) eqn:E.
  - f_equal. symmetry. rewrite <- (map_id l) at 2. apply map_ext_in.
    intros y Hy. destruct (p y) eqn:Ey; [|reflexivity].
    exfalso. apply Hx. rewrite (Hp x E), <- (Hp y Ey). apply in_map. exact Hy.
  - f_equal. apply IH. exact Hl.
Qed.

Lemma updateFound_none (A : Type) (p : A -> bool) (f : A -> A) (l : list A) :
  find p l = None -> updateFound p f l = l.
Proof.
  induction l as [|x l IH]; simpl; [reflexivity|].
  destruct (p x); [discriminate|]. intros H. rewrite IH; auto.
Qed.

(** X22. No check that the account exists: a new entry on an account id
    that no account carries is stored all the same, in front of the other
    transactions, and no account changes. *)
Theorem record_on_unknown_account_moves_nothing (data : AppData)
    (e : Editing) (now : N) :
  truthy (e_id e) = false ->
  truthy (e_description e) = true ->
  truthyNum (e_amount e) = true ->
  truthy (e_date e) = true ->
  accountOf data (e_account e) = None ->
  let after := saved (handleSave data (Some e) now) data in
  transactions after = transOf e now :: transactions data /\
  accounts after = accounts data.
Proof.
  intros Hid Hd Ha Hdt Hnone. cbn zeta.
  unfold handleSave, reverted. rewrite Hd, Ha, Hdt, Hid.
  cbn [negb orb saved transactions accounts]. split; [reflexivity|].
  apply updateFound_none. exact Hnone.
Qed.

(** X23. The ledger page saves exactly when the form has a description, an
    amount other than zero (a negative one passes) and a date, and it
    deletes exactly when the dialog was confirmed and the id is that of a
    live transaction. *)
Theorem ledger_page_saves_iff_valid (data : AppData)
    (editing : option Editing) (now : N) (id : string) (confirmed : bool) :
  (firesOnSave (handleSave data editing now) = true <->
   exists e, editing = Some e /\ truthy (e_description e) = true /\
             e_amount e <> ofZ 0 /\ truthy (e_date e) = true) /\
  (firesOnSave (deleteTransaction data id confirmed) = true <->
   confirmed = true /\ In id (map tx_id (transactions data))).
Proof.
  split.
  - unfold handleSave. destruct editing as [e|].
    + assert (Hnum : truthyNum (e_amount e) = true <-> e_amount e <> ofZ 0).
      { unfold truthyNum. destruct (Qc_eq_bool (e_amount e) (ofZ 0)) eqn:E.
        - apply Qc_eq_bool_correct in E. split; [discriminate|].
          intros H. exfalso. apply H. exact E.
        - split; [|reflexivity]. intros _ H. rewrite H in E.
          unfold Qc_eq_bool in E. destruct (Qc_eq_dec (ofZ 0) (ofZ 0));
            [discriminate | congruence]. }
      assert (F : firesOnSave (handleSave data (Some e) now)
                  = truthy (e_description e) && truthyNum (e_amount e)
                    && truthy (e_date e)).
      { unfold handleSave.
        destruct (truthy (e_description e)); destruct (truthyNum (e_amount e));
          destruct (truthy (e_date e)); cbn [negb orb andb];
          try reflexivity.
        destruct (reverted data e) as [[? ?] ?]. reflexivity. }
      fold (handleSave data (Some e) now). rewrite F. split.
      * intros H. apply andb_true_iff in H. destruct H as [H Ht].
        apply andb_true_iff in H. destruct H as [Hd Ha].
        exists e. split; [reflexivity|]. split; [exact Hd|].
        split; [apply Hnum; exact Ha | exact Ht].
      * intros (e' & He & H1 & H2 & H3). injection He as <-.
        rewrite H1, H3, (proj2 Hnum H2). reflexivity.
    + cbn [firesOnSave existsb]. split; [discriminate|].
      intros (e & He & _). discriminate He.
  - unfold deleteTransaction. destruct confirmed; cbn [negb].
    + destruct (find (hasId id) (transactions data)) as [trans|] eqn:Ef.
      * cbn [firesOnSave existsb orb]. split; [|reflexivity].
        intros _. split; [reflexivity|].
        apply find_some in Ef. destruct Ef as [Hin Hh].
        unfold hasId in Hh. apply String.eqb_eq in Hh. rewrite <- Hh.
        apply in_map. exact Hin.
      * cbn [firesOnSave existsb]. split; [discriminate|].
        intros (_ & Hin). exfalso.
        exact (@not_found_not_in id (transactions data) Ef Hin).
    + cbn [firesOnSave existsb]. split; [discriminate|].
      intros (H & _). discriminate H.
Qed.

End LedgerRoundTrip.

(** ** The party side of the books (part_004) *)

Section PartyInvariant.
Import LedgerPage.
Variable numberToString : number -> string.

Lemma isParty_namesParty (t : Transaction) (p : Party) :
  isParty (partyId t) p = namesParty (party_id p) t.
Proof.
  unfold isParty, namesParty. destruct (partyId t) as [s|]; [|reflexivity].
  apply String.eqb_sym.
Qed.

Lemma partySum_remove (id tid : string) (old : Transaction)
    (txs : list Transaction) :
  NoDup (map tx_id txs) ->
  find (hasId tid) txs = Some old ->
  partySum id txs
  = ((if namesParty id old then partySignedDelta old else 0)
     + partySum id (filter (fun t => negb (hasId tid t)) txs))%Qc.
Proof.
  induction txs as [|x txs IH]; intros N Hf; [discriminate|].
  inversion N as [|? ? Hx Hl]; subst. simpl in Hf. cbn [filter].
  destruct (hasId tid x) eqn:E.
  - injection Hf as <-. cbn [negb]. rewrite filter_other_ids.
    + cbn [partySum]. destruct (namesParty id x); ring.
    + unfold hasId in E. apply String.eqb_eq in E. rewrite <- E. exact Hx.
  - cbn [negb partySum]. rewrite (IH Hl Hf).
    destruct (namesParty id x); destruct (namesParty id old); ring.
Qed.

Lemma party_ids_kept (g : Party -> Party) (l : list Party) :
  (forall p, party_id (g p) = party_id p) ->
  map party_id (map g l) = map party_id l.
Proof.
  intros H. rewrite map_map. apply map_ext. exact H.
Qed.

Lemma partiesOK_add (t : Transaction) (g : Party -> Party)
    (txs : list Transaction) (pts : list Party) :
  partiesOK txs pts ->
  ~ In (tx_id t) (map tx_id txs) ->
  (forall p, party_id (g p) = party_id p /\
             currentBalance (g p)
             = (currentBalance p
                + (if namesParty (party_id p) t
                   then partySignedDelta t else 0))%Qc) ->
  partiesOK (t :: txs) (map g pts).
Proof.
  intros (NP & NT & HB) Hfresh Hg. split; [|split].
  - rewrite party_ids_kept; [exact NP|]. intros p. apply (Hg p).
  - simpl. constructor; assumption.
  - intros p' Hin. apply in_map_iff in Hin. destruct Hin as (p & <- & Hin).
    destruct (Hg p) as (Hi & Hb). rewrite Hi, Hb, (HB p Hin).
    cbn [partySum]. destruct (namesParty (party_id p) t); ring.
Qed.

Lemma partiesOK_remove (tid : string) (old : Transaction)
    (g : Party -> Party) (txs : list Transaction) (pts : list Party) :
  partiesOK txs pts ->
  find (hasId tid) txs = Some old ->
  (forall p, party_id (g p) = party_id p /\
             currentBalance (g p)
             = (currentBalance p
                - (if namesParty (party_id p) old
                   then partySignedDelta old else 0))%Qc) ->
  partiesOK (filter (fun t => negb (hasId tid t)) txs) (map g pts).
Proof.
  intros (NP & NT & HB) Hf Hg. split; [|split].
  - rewrite party_ids_kept; [exact NP|]. intros p. apply (Hg p).
  - apply NoDup_filter_ids. exact NT.
  - intros p' Hin. apply in_map_iff in Hin. destruct Hin as (p & <- & Hin).
    destruct (Hg p) as (Hi & Hb). rewrite Hi, Hb, (HB p Hin).
    rewrite (@partySum_remove (party_id p) _ _ _ NT Hf). ring.
Qed.

Lemma party_applied_ok (trans : Transaction) (txs : list Transaction)
    (pts : list Party) :
  partiesOK txs pts ->
  ~ In (tx_id trans) (map tx_id txs) ->
  partiesOK (trans :: txs)
    (updateFound (isParty (partyId trans)) (applyParty trans) pts).
Proof.
  intros H Hfresh.
  destruct (partyId trans) as [pid|] eqn:Epid.
  - rewrite (@updateFound_as_map _ party_id (isParty (Some pid)) pid _ _
               (fun x Hx => proj1 (String.eqb_eq _ _) Hx) (proj1 H)).
    apply partiesOK_add; [exact H | exact Hfresh|]. intros p.
    rewrite <- Epid, isParty_namesParty.
    destruct (namesParty (party_id p) trans).
    + split; [|apply applyParty_delta].
      unfold applyParty. destruct (tx_type trans); reflexivity.
    + split; [reflexivity|]. ring.
  - rewrite updateFound_none.
    + rewrite <- (map_id pts).
      apply partiesOK_add; [exact H | exact Hfresh|]. intros p.
      unfold namesParty. rewrite Epid. split; [reflexivity|]. ring.
    + induction pts as [|x l IH]; [reflexivity|]. simpl. apply IH.
      destruct H as (NP & NT & HB). inversion NP; subst.
      split; [assumption|]. split; [assumption|].
      intros p Hp. apply HB. right. exact Hp.
Qed.

Lemma party_reverted_ok (tid : string) (old : Transaction)
    (txs : list Transaction) (pts : list Party) :
  partiesOK txs pts ->
  find (hasId tid) txs = Some old ->
  partiesOK (filter (fun t => negb (hasId tid t)) txs)
    (updateFound (isParty (partyId old)) (revertParty old) pts).
Proof.
  intros H Hf.
  assert (Hdelta : forall p,
             currentBalance (revertParty old p)
             = (currentBalance p - partySignedDelta old)%Qc
             /\ party_id (revertParty old p) = party_id p).
  { intros p. unfold revertParty, partySignedDelta.
    destruct (tx_type old); simpl; split; try reflexivity; ring. }
  destruct (partyId old) as [pid|] eqn:Epid.
  - rewrite (@updateFound_as_map _ party_id (isParty (Some pid)) pid _ _
               (fun x Hx => proj1 (String.eqb_eq _ _) Hx) (proj1 H)).
    apply partiesOK_remove with old; [exact H | exact Hf|]. intros p.
    rewrite <- Epid, isParty_namesParty.
    destruct (namesParty (party_id p) old).
    + destruct (Hdelta p) as [Hb Hi]. split; [exact Hi | exact Hb].
    + split; [reflexivity|]. ring.
  - rewrite updateFound_none.
    + rewrite <- (map_id pts).
      apply partiesOK_remove with old; [exact H | exact Hf|]. intros p.
      unfold namesParty. rewrite Epid. split; [reflexivity|]. ring.
    + clear. induction pts as [|x l IH]; [reflexivity|]. simpl. exact IH.
Qed.

(** In exact arithmetic the party side is kept as well: the ledger page's
    save and delete, and the assistant's record, keep party ids and
    transaction ids unique and every party's current balance the sum of
    the party signed deltas of the live transactions naming it. *)
Lemma commands_keep_parties_balanced (d : AppData) (c : Command) :
  partiesOK (transactions d) (parties d) ->
  admissible d c ->
  partiesOK (transactions (run numberToString d c))
            (parties (run numberToString d c)).
Proof.
  intros W Hadm. destruct c as [e now|id|ty amt desc cat date acct now|sp].
  - unfold run, handleSave.
    destruct (negb (truthy (e_description e)) || negb (truthyNum (e_amount e))
              || negb (truthy (e_date e))); [exact W|].
    unfold reverted. destruct (truthy (e_id e)) eqn:Hid.
    + destruct (find (hasId (e_id e)) (transactions d)) as [old|] eqn:Hf.
      * cbn [saved transactions parties].
        apply party_applied_ok; [apply party_reverted_ok; assumption|].
        cbn [transOf tx_id]. rewrite Hid. apply filtered_id_gone.
      * cbn [saved transactions parties]. apply party_applied_ok; [exact W|].
        cbn [transOf tx_id]. rewrite Hid. apply not_found_not_in. exact Hf.
    + cbn [saved transactions parties]. apply party_applied_ok; [exact W|].
      cbn [transOf tx_id]. rewrite Hid. apply Hadm. exact Hid.
  - unfold run, deleteTransaction. cbn [negb].
    destruct (find (hasId id) (transactions d)) as [old|] eqn:Hf; [|exact W].
    cbn [saved transactions parties].
    apply partiesOK_remove with old; [exact W | exact Hf|]. intros p.
    rewrite isParty_namesParty. destruct (namesParty (party_id p) old).
    + split; [reflexivity|]. unfold partySignedDelta.
      cbn [withCurrentBalance currentBalance]. destruct (tx_type old); ring.
    + split; [reflexivity|]. ring.
  - unfold run, MayaAssistant.handleFunctionCall,
    MayaAssistant.handleFunctionCallWith.
    cbn [fst saved transactions parties]. rewrite <- (map_id (parties d)).
    apply partiesOK_add; [exact W | exact Hadm|]. intros p.
    unfold namesParty. cbn [partyId]. split; [reflexivity|]. ring.
  - destruct Hadm.
Qed.

End PartyInvariant.

(** ** The assistant, continued (part_006 and part_005) *)

Section MayaMore.
Variable numberToString : number -> string.

(** X24. Every call of the assistant other than a record and a delete of
    type 'transaction' leaves the ledger alone: transactions, accounts,
    parties and assets of the snapshot in force are the old ones. *)
Theorem maya_other_calls_leave_ledger (data : AppData) (now : N)
    (fc : MayaAssistant.FunctionCall) :
  touchesLedger fc = false ->
  let after :=
    saved (fst (MayaAssistant.handleFunctionCall numberToString data now fc))
          data in
  transactions after = transactions data /\
  accounts after = accounts data /\
  parties after = parties data /\
  investments after = investments data.
Proof.
  intros H. cbn zeta. destruct fc as [ty amt d c dt a|c due pr|ty sp|ti c dt
                                      |se st en|pg|nm];
    cbn [touchesLedger] in H; try discriminate H;
    unfold MayaAssistant.handleFunctionCall;
    cbn [MayaAssistant.handleFunctionCallWith fst saved].
  - repeat split.
  - unfold MayaAssistant.purgeWith. rewrite H.
    destruct (String.eqb ty "task").
    { destruct (Nat.ltb _ _); cbn [fst saved]; repeat split. }
    destruct (String.eqb ty "journal").
    { destruct (Nat.ltb _ _); cbn [fst saved]; repeat split. }
    destruct (String.eqb ty "goal").
    { destruct (Nat.ltb _ _); cbn [fst saved]; repeat split. }
    cbn [fst saved]. repeat split.
  - repeat split.
  - destruct se; destruct (MayaAssistant.truthyOpt st
                           || MayaAssistant.truthyOpt en);
      cbn [app saved]; repeat split.
  - repeat split.
  - repeat split.
Qed.

Lemma filter_drops_iff (A : Type) (f : A -> bool) (l : list A) :
  Nat.ltb (List.length (filter f l)) (List.length l) = true <->
  exists x, In x l /\ f x = false.
Proof.
  split.
  - intros H. apply Nat.ltb_lt in H.
    induction l as [|x l IH]; simpl in *; [lia|].
    destruct (f x) eqn:E.
    + simpl in H. destruct IH as (y & Hy & Fy); [lia|].
      exists y. split; [right; exact Hy | exact Fy].
    + exists x. split; [left; reflexivity | exact E].
  - intros (x & Hx & Fx). apply Nat.ltb_lt.
    induction l as [|y l IH]; simpl in *; [contradiction|].
    pose proof (filter_length_le f l) as L.
    destruct Hx as [->|Hx].
    + rewrite Fx. lia.
    + specialize (IH Hx). destruct (f y); simpl; lia.
Qed.

(** X25. The assistant's delete of type 'transaction' saves exactly when
    some live transaction's description contains the search part, case
    aside; when none does it saves nothing and answers that it found
    none. *)
Theorem maya_delete_saves_iff_found (data : AppData) (now : N)
    (searchPart : string) :
  let call :=
    MayaAssistant.handleFunctionCall numberToString data now
      (MayaAssistant.deleteEntry "transaction" searchPart) in
  (firesOnSave (fst call) = true <->
   exists t, In t (transactions data) /\
             includes (toLowerCase (description t)) (toLowerCase searchPart)
             = true) /\
  (firesOnSave (fst call) = false ->
   call = ([], "Sorry baby, mujhe wo transaction nahi mila."%string)).
Proof.
  cbn zeta. unfold MayaAssistant.handleFunctionCall.
  cbn [MayaAssistant.handleFunctionCallWith]. unfold MayaAssistant.purgeWith.
  cbn [String.eqb Ascii.eqb Bool.eqb].
  destruct (Nat.ltb _ _) eqn:E; cbn [fst firesOnSave existsb orb].
  - split; [|discriminate]. split; [|reflexivity]. intros _.
    apply filter_drops_iff in E. destruct E as (t & Ht & Hk).
    exists t. split; [exact Ht|]. unfold MayaAssistant.keepsWith in Hk.
    apply negb_false_iff in Hk. exact Hk.
  - split; [|reflexivity]. split; [discriminate|].
    intros (t & Ht & Hinc).
    assert (D : Nat.ltb
                  (List.length
                     (filter (MayaAssistant.keepsWith toLowerCase
                                description (toLowerCase searchPart))
                             (transactions data)))
                  (List.length (transactions data)) = true).
    { apply filter_drops_iff. exists t. split; [exact Ht|].
      unfold MayaAssistant.keepsWith. rewrite Hinc. reflexivity. }
    rewrite D in E. discriminate.
Qed.

Lemma findIndex_splits (A : Type) (p : A -> bool) (l : list A) (idx : nat) :
  findIndex p l = Some idx ->
  exists l1 x l2,
    l = l1 ++ x :: l2 /\ nth_error l idx = Some x /\
    MayaReversing.removeAt idx l = l1 ++ l2 /\
    p x = true /\ (forall y, In y l1 -> p y = false).
Proof.
  revert idx. induction l as [|y l IH]; intros idx H; [discriminate|].
  simpl in H. destruct (p y) eqn:E.
  - injection H as <-. exists [], y, l. repeat split; [exact E|].
    intros z [].
  - destruct (findIndex p l) as [j|] eqn:Ej; [|discriminate].
    injection H as <-.
    destruct (IH j eq_refl) as (l1 & x & l2 & H1 & H2 & H3 & H4 & H5).
    exists (y :: l1), x, l2. cbn [nth_error MayaReversing.removeAt app].
    rewrite H3. rewrite H1 at 1. repeat split; [exact H2 | exact H4|].
    intros z [<-|Hz]; [exact E | apply H5; exact Hz].
Qed.

Lemma findIndex_none_all (A : Type) (p : A -> bool) (l : list A) :
  findIndex p l = None -> forall y, In y l -> p y = false.
Proof.
  induction l as [|x l IH]; intros H y Hy; [destruct Hy|].
  simpl in H. destruct (p x) eqn:E; [discriminate|].
  destruct (findIndex p l); [discriminate|].
  destruct Hy as [<-|Hy]; [exact E | apply IH; [reflexivity | exact Hy]].
Qed.

(** X26. The dispatcher of part_005 reverses what it deletes, and deletes
    one entry only.  A delete of type 'transaction' saves exactly when the
    lower-cased description of some live transaction contains the
    lower-cased search part, and otherwise leaves the snapshot alone.
    When it saves, it has removed the first such transaction and no other,
    though later ones may match as well, and has added the reverse of that
    transaction's signed amount to the balance of every account with its
    account id; everything else is as before. *)
Theorem reversing_delete_removes_first_match (data : AppData) (now : N)
    (searchPart : string) :
  let fired :=
    fst (MayaReversing.handleFunctionCall numberToString data now
           (MayaReversing.deleteEntry "transaction" searchPart)) in
  let hit := MayaReversing.mentions (toLowerCase searchPart) in
  (firesOnSave fired = true <->
   exists t, In t (transactions data) /\ hit t = true) /\
  (firesOnSave fired = false -> saved fired data = data) /\
  (firesOnSave fired = true ->
   exists before target after,
     transactions data = before ++ target :: after /\
     hit target = true /\
     (forall t, In t before -> hit t = false) /\
     saved fired data
     = mkAppData (before ++ after)
         (map (fun a =>
                 if String.eqb (acc_id a) (account target)
                 then withBalance a (balance a + reverseDelta target)%Qc
                 else a)
              (accounts data))
         (parties data) (investments data) (tasks data) (journal data)
         (goals data)).
Proof.
  cbn zeta. cbn [MayaReversing.handleFunctionCall].
  unfold MayaReversing.purge. cbn [String.eqb Ascii.eqb Bool.eqb].
  destruct (findIndex (MayaReversing.mentions (toLowerCase searchPart))
              (transactions data)) as [idx|] eqn:Ei.
  - destruct (findIndex_splits _ _ Ei)
      as (l1 & x & l2 & H1 & H2 & H3 & H4 & H5).
    rewrite H2. cbn [fst firesOnSave existsb orb saved].
    split; [|split; [discriminate|]].
    + split; [|reflexivity]. intros _. exists x. split; [|exact H4].
      rewrite H1. apply in_or_app. right. left. reflexivity.
    + intros _. exists l1, x, l2. rewrite H3.
      split; [exact H1|]. split; [exact H4|]. split; [exact H5|].
      reflexivity.
  - cbn [fst firesOnSave existsb saved].
    split; [|split; [reflexivity | discriminate]].
    split; [discriminate|]. intros (t & Ht & Hh).
    rewrite (findIndex_none_all _ _ Ei t Ht) in Hh. discriminate.
Qed.

(** X27. In the dispatcher of part_005 a delete takes back a record.
    Recording an entry and then deleting by a search part that the
    lower-cased description contains removes the entry just recorded: it
    stands in front, so it is the first match even when older entries
    match too.  The snapshot is the one from before the record, except
    that every account with the recorded account id has had the amount
    added and then taken away again. *)
Theorem reversing_delete_undoes_record (data : AppData) (now now' : N)
    (ty : TransactionType) (amt : number)
    (desc cat date acct searchPart : string) :
  includes (toLowerCase desc) (toLowerCase searchPart) = true ->
  let recorded :=
    saved (fst (MayaReversing.handleFunctionCall numberToString data now
                  (MayaReversing.recordTransaction ty amt desc cat date acct)))
          data in
  saved (fst (MayaReversing.handleFunctionCall numberToString recorded now'
                (MayaReversing.deleteEntry "transaction" searchPart)))
        recorded
  = mkAppData (transactions data)
      (map (fun a =>
              if String.eqb (acc_id a) acct
              then withBalance a (recordedThenPurged ty amt (balance a))
              else a)
           (accounts data))
      (parties data) (investments data) (tasks data) (journal data)
      (goals data).
Proof.
  intros Hinc. cbn zeta. cbn [MayaReversing.handleFunctionCall fst saved].
  unfold MayaReversing.purge. cbn [String.eqb Ascii.eqb Bool.eqb].
  cbn [transactions findIndex]. unfold MayaReversing.mentions at 1.
  cbn [description]. rewrite Hinc.
  cbn [nth_error fst saved MayaReversing.removeAt accounts parties
       investments tasks journal goals account tx_type amount].
  f_equal. rewrite map_map. apply map_ext. intros a.
  destruct (String.eqb (acc_id a) acct) eqn:E.
  - cbn [withBalance acc_id]. rewrite E.
    unfold withBalance, recordedThenPurged.
    cbn [acc_id acc_name balance acc_type openingBalance].
    destruct ty; reflexivity.
  - rewrite E. reflexivity.
Qed.

End MayaMore.

(** ** The transactions page (src/pages/TransactionsPage.tsx) *)

Section TransactionsPageFacts.
Import LedgerPage.

(** X28. The transactions page is the ledger page without parties.  On
    every snapshot and form its save fires [onSave] exactly when the
    ledger page's does, and saves the same transactions and the same
    accounts, computed by the same operations, while the parties stay the
    old list; its confirmed delete relates to the ledger page's delete in
    the same way. *)
Theorem transactions_page_is_ledger_page_without_parties (d : AppData)
    (e : Editing) (now : N) (id : string) :
  let withParties s :=
    mkAppData (transactions s) (accounts s) (parties d) (investments s)
      (tasks s) (journal s) (goals s) in
  saved (TransactionsPage.handleSave d (Some e) now) d
  = withParties (saved (handleSave d (Some e) now) d) /\
  firesOnSave (TransactionsPage.handleSave d (Some e) now)
  = firesOnSave (handleSave d (Some e) now) /\
  saved (TransactionsPage.deleteTransaction d id true) d
  = withParties (saved (deleteTransaction d id true) d) /\
  firesOnSave (TransactionsPage.deleteTransaction d id true)
  = firesOnSave (deleteTransaction d id true).
Proof.
  cbn zeta. split; [|split; [|split]].
  - unfold TransactionsPage.handleSave, handleSave.
    destruct (negb (truthy (e_description e))
              || negb (truthyNum (e_amount e))
              || negb (truthy (e_date e))); [destruct d; reflexivity|].
    unfold TransactionsPage.reverted, reverted.
    destruct (truthy (e_id e)); [|reflexivity].
    destruct (find (hasId (e_id e)) (transactions d)); reflexivity.
  - unfold TransactionsPage.handleSave, handleSave.
    destruct (negb (truthy (e_description e))
              || negb (truthyNum (e_amount e))
              || negb (truthy (e_date e))); [reflexivity|].
    destruct (TransactionsPage.reverted d e) as [tt aa].
    destruct (reverted d e) as [[tt' aa'] pp']. reflexivity.
  - unfold TransactionsPage.deleteTransaction, deleteTransaction. cbn [negb].
    destruct (find (hasId id) (transactions d));
      [reflexivity | destruct d; reflexivity].
  - unfold TransactionsPage.deleteTransaction, deleteTransaction. cbn [negb].
    destruct (find (hasId id) (transactions d)); reflexivity.
Qed.

End TransactionsPageFacts.

(** ** The ledger page's table (part_004, [filtered]) *)

Section LedgerViewFacts.
Import LedgerView.

Lemma newestFirst_antisym (x y : Transaction) :
  newestFirst x y = Gt -> newestFirst y x <> Gt.
Proof. apply localeCompare_antisym. Qed.

Lemma includes_empty (s : string) : includes s EmptyString = true.
Proof. rewrite includes_unfold. destruct s; reflexivity. Qed.

(** X29. The ledger page's table shows only live transactions that pass
    the kind filter, no row above a later-dated one; with every filter
    empty it shows each transaction exactly as often as the snapshot holds
    it. *)
Theorem ledger_table_is_newest_first (data : AppData) (k : KindFilter)
    (search startDate endDate : string) :
  Sorted (inOrder newestFirst) (filtered data k search startDate endDate) /\
  (forall t, In t (filtered data k search startDate endDate) ->
             In t (transactions data) /\ matchesKind k t = true) /\
  Permutation (filtered data allKinds EmptyString EmptyString EmptyString)
              (transactions data).
Proof.
  split; [|split].
  - unfold filtered. apply sort_sorted. exact newestFirst_antisym.
  - intros t Ht. unfold filtered in Ht.
    apply (Permutation_in t (sort_Permutation newestFirst _)) in Ht.
    apply filter_In in Ht. destruct Ht as [Ht _].
    apply filter_In in Ht. exact Ht.
  - unfold filtered.
    rewrite (@filter_all_kept _ (matchesKind allKinds));
      [|intros; reflexivity].
    rewrite (@filter_all_kept _
               (matches data EmptyString EmptyString EmptyString)).
    + apply sort_Permutation.
    + intros t _. unfold matches. cbn [toLowerCase truthy].
      rewrite includes_empty. reflexivity.
Qed.

End LedgerViewFacts.

(** ** The task page (src/pages/TaskPage.tsx) *)

Section TaskPageFacts.
Import TaskPage.

Lemma byStatusThenDue_antisym (x y : Task) :
  byStatusThenDue x y = Gt -> byStatusThenDue y x <> Gt.
Proof.
  unfold byStatusThenDue.
  destruct (completed x), (completed y); cbn [Bool.eqb];
    try discriminate; apply localeCompare_antisym.
Qed.

Lemma filter_all_dropped (A : Type) (f : A -> bool) (l : list A) :
  (forall x, In x l -> f x = false) -> filter f l = [].
Proof.
  induction l as [|x l IH]; simpl; intros H; [reflexivity|].
  rewrite (H x (or_introl eq_refl)). apply IH.
  intros y Hy. apply H. right. exact Hy.
Qed.

Lemma done_stays_done (a : Task) (l : list Task) :
  Sorted (inOrder byStatusThenDue) (a :: l) ->
  completed a = true ->
  forall u, In u l -> completed u = true.
Proof.
  revert a. induction l as [|b l IH]; intros a S Ha u Hu; [contradiction|].
  inversion S as [|? ? Sl Hd]; subst. inversion Hd as [|? ? R]; subst.
  assert (Hb : completed b = true).
  { unfold inOrder, byStatusThenDue in R. rewrite Ha in R.
    destruct (completed b); [reflexivity|]. cbn [Bool.eqb] in R.
    contradiction R. reflexivity. }
  destruct Hu as [<-|Hu]; [exact Hb|]. exact (IH b Sl Hb u Hu).
Qed.

(** X30. The task list shows every open task above every completed one:
    it is its open tasks followed by its completed tasks. *)
Theorem open_tasks_come_first (data : AppData) (search : string) :
  filteredTasks data search
  = filter (fun t => negb (completed t)) (filteredTasks data search)
    ++ filter completed (filteredTasks data search).
Proof.
  assert (S : Sorted (inOrder byStatusThenDue) (filteredTasks data search)).
  { unfold filteredTasks. apply sort_sorted. exact byStatusThenDue_antisym. }
  induction (filteredTasks data search) as [|a l IH]; [reflexivity|].
  cbn [filter]. destruct (completed a) eqn:Ha; cbn [negb].
  - pose proof (done_stays_done S Ha) as D.
    rewrite (@filter_all_dropped _ (fun t => negb (completed t)) l).
    + rewrite (@filter_all_kept _ completed l D). reflexivity.
    + intros u Hu. rewrite (D u Hu). reflexivity.
  - cbn [app]. f_equal. apply IH. inversion S; assumption.
Qed.

End TaskPageFacts.

(** ** Worked instances *)

Ltac nodup_eval := repeat constructor; simpl; intuition discriminate.

Ltac qc_cmp := vm_compute; first [reflexivity | discriminate].

Lemma strict_page_rejects_oversell_witness :
  PortfolioPage.executeTrade noText noText sampleData (Some goldAsset)
    pageSellAll 1
  = [showToast "Insufficient holding quantity."] /\
  saved (PortfolioPage.executeTrade noText noText sampleData (Some goldAsset)
           pageSellAll 1) sampleData = sampleData.
Proof.
  apply (@strict_page_rejects_oversell noText noText sampleData goldAsset
           pageSellAll 1); reflexivity.
Defined.

Lemma new_asset_is_appended_witness :
  exists a,
    investments (saved (ReplayPortfolio.executeTrade noText sampleData
                          newAssetForm 5 6) sampleData)
    = investments sampleData ++ [a] /\
    inv_id a = natToString 5 /\
    inv_name a = ReplayPortfolio.td_newName newAssetForm /\
    qty a = ReplayPortfolio.td_qty newAssetForm /\
    avgBuyPrice a
    = ((ReplayPortfolio.td_qty newAssetForm
        * ReplayPortfolio.td_price newAssetForm
        + ReplayPortfolio.td_charges newAssetForm)
       / ReplayPortfolio.td_qty newAssetForm)%Qc /\
    totalRealizedPL a = ofZ 0 /\ status a = active /\
    history a = [ReplayPortfolio.tradeRecord newAssetForm 6].
Proof.
  apply (@new_asset_is_appended noText sampleData newAssetForm 5 6);
    try reflexivity.
  simpl. intuition discriminate.
Defined.

Lemma page_trade_keeps_holdings_nonnegative_witness :
  (0 <= qty heldAsset)%Qc /\
  forall inv',
    In inv' (investments
               (saved (PortfolioPage.executeTrade noText noText heldData
                         (Some heldAsset) pageSellPart 3) heldData)) ->
    (0 <= qty inv')%Qc.
Proof.
  split; [qc_cmp|].
  apply (@page_trade_keeps_holdings_nonnegative noText noText heldData
           heldAsset pageSellPart 3).
  - intros inv [<-|[]]. qc_cmp.
  - intros inv [<-|[]] _. reflexivity.
Defined.

Lemma audit_ledger_ends_at_replayed_quantity_witness :
  let a := ReplayPortfolio.finalAsset goldAsset [firstBuy; laterSell] in
  exists row rest,
    PortfolioViews.assetLedgerData (Some a) EmptyString EmptyString
    = row :: rest /\
    List.length (row :: rest) = List.length [firstBuy; laterSell] /\
    qty a = Math_max (ofZ 0) (PortfolioViews.runningQty row) /\
    (status a = active <-> (0 < PortfolioViews.runningQty row)%Qc).
Proof.
  apply (@audit_ledger_ends_at_replayed_quantity goldAsset
           [firstBuy; laterSell]).
  discriminate.
Defined.

Lemma save_asset_profile_upserts_witness :
  let after :=
    saved (AssetProfile.handleSaveAsset sampleData (Some heldAsset))
          sampleData in
  assetOf after (inv_id heldAsset) = Some (AssetProfile.profileOf heldAsset) /\
  status (AssetProfile.profileOf heldAsset) = active /\
  qty (AssetProfile.profileOf heldAsset) = qty heldAsset /\
  avgBuyPrice (AssetProfile.profileOf heldAsset) = avgBuyPrice heldAsset /\
  history (AssetProfile.profileOf heldAsset) = history heldAsset /\
  (forall id, id <> inv_id heldAsset ->
              assetOf after id = assetOf sampleData id) /\
  transactions after = transactions sampleData /\
  accounts after = accounts sampleData /\
  List.length (investments after)
  = match assetOf sampleData (inv_id heldAsset) with
    | Some _ => List.length (investments sampleData)
    | None => S (List.length (investments sampleData))
    end.
Proof.
  apply (@save_asset_profile_upserts sampleData heldAsset). reflexivity.
Defined.

Lemma record_on_unknown_account_moves_nothing_witness :
  let after :=
    saved (LedgerPage.handleSave sampleData (Some strangerForm) 7)
          sampleData in
  transactions after
  = LedgerPage.transOf strangerForm 7 :: transactions sampleData /\
  accounts after = accounts sampleData.
Proof.
  apply (@record_on_unknown_account_moves_nothing sampleData strangerForm 7);
    reflexivity.
Defined.

Lemma maya_other_calls_leave_ledger_witness :
  let after :=
    saved (fst (MayaAssistant.handleFunctionCall noText soldData 3
                  (MayaAssistant.deleteEntry "task" "invoice")))
          soldData in
  transactions after = transactions soldData /\
  accounts after = accounts soldData /\
  parties after = parties soldData /\
  investments after = investments soldData.
Proof.
  apply (@maya_other_calls_leave_ledger noText soldData 3
           (MayaAssistant.deleteEntry "task" "invoice")).
  reflexivity.
Defined.

Lemma reversing_delete_undoes_record_witness :
  let recorded :=
    saved (fst (MayaReversing.handleFunctionCall noText soldData 8
                  (MayaReversing.recordTransaction EXPENSE (ofZ 100)
                     "Invoice printing" "Office" "2024-01-12" "cash-01")))
          soldData in
  saved (fst (MayaReversing.handleFunctionCall noText recorded 9
                (MayaReversing.deleteEntry "transaction" "invoice")))
        recorded
  = mkAppData (transactions soldData)
      (map (fun a =>
              if String.eqb (acc_id a) "cash-01"
              then withBalance a
                     (recordedThenPurged EXPENSE (ofZ 100) (balance a))
              else a)
           (accounts soldData))
      (parties soldData) (investments soldData) (tasks soldData)
      (journal soldData) (goals soldData).
Proof.
  apply (@reversing_delete_undoes_record noText soldData 8 9 EXPENSE
           (ofZ 100) "Invoice printing" "Office" "2024-01-12" "cash-01"
           "invoice").
  reflexivity.
Defined.

(** * The same pages on doubles *)

(** ** Retroactive edits on the replay page (part_001) *)


Section DoublesReplayFacts.
Variable numberToString : PrimFloat.float -> string.

Lemma doubles_executeTrade_asset (data : Doubles.AppData)
    (td : Doubles.ReplayPortfolio.TradeData) (s t : N)
    (a : Doubles.Investment) :
  truthy (Doubles.ReplayPortfolio.td_assetId td) = true ->
  Doubles.assetOf data (Doubles.ReplayPortfolio.td_assetId td) = Some a ->
  PrimFloat.leb (Doubles.ReplayPortfolio.td_qty td) PrimFloat.zero = false ->
  PrimFloat.leb (Doubles.ReplayPortfolio.td_price td) PrimFloat.zero
  = false ->
  Doubles.assetOf
    (Doubles.saved
       (Doubles.ReplayPortfolio.executeTrade numberToString data td s t)
       data)
    (Doubles.ReplayPortfolio.td_assetId td)
  = Some (Doubles.ReplayPortfolio.finalAsset a
            (Doubles.ReplayPortfolio.newHistory td t a)).
Proof.
  intros Hid Hfind Hq Hp.
  unfold Doubles.ReplayPortfolio.executeTrade,
    Doubles.ReplayPortfolio.targetAsset.
  rewrite Hid. unfold Doubles.assetOf in Hfind.
  unfold PrimFloat.zero in Hq, Hp. rewrite Hfind, Hq, Hp.
  cbn [orb Doubles.saved]. unfold Doubles.assetOf.
  cbn [Doubles.investments]. unfold Doubles.ReplayPortfolio.updatedInvestments.
  assert (Eid : Doubles.inv_id a = Doubles.ReplayPortfolio.td_assetId td).
  { apply find_some in Hfind. destruct Hfind as [_ H].
    apply String.eqb_eq in H. exact H. }
  rewrite (findIndex_ext _
             (fun i => String.eqb (Doubles.inv_id i)
                                  (Doubles.ReplayPortfolio.td_assetId td))).
  2:{ intros x. rewrite Eid. reflexivity. }
  destruct (find_setAt _ (Doubles.investments data)
              (Doubles.ReplayPortfolio.finalAsset a
                 (Doubles.ReplayPortfolio.newHistory td t a)) Hfind)
    as (i & Hi & Hs).
  { cbn [Doubles.ReplayPortfolio.finalAsset Doubles.inv_id]. rewrite Eid.
    apply String.eqb_refl. }
  rewrite Hi. exact Hs.
Qed.


End DoublesReplayFacts.

Section DoublesReplayInstances.
Import PrimFloat.



End DoublesReplayInstances.

(** ** Amendments on the ledger page (part_004) *)

Section UpdateFoundMore.
Variable A : Type.
Variables p q : A -> bool.

Lemma updateFound_twice (f g : A -> A) (l : list A) :
  (forall x, p (f x) = p x) ->
  updateFound p g (updateFound p f l) = updateFound p (fun x => g (f x)) l.
Proof.
  intros Hf. induction l as [|x l IH]; simpl; [reflexivity|].
  destruct (p x) eqn:E; simpl.
  - rewrite Hf, E. reflexivity.
  - rewrite E, IH. reflexivity.
Qed.

Lemma find_updateFound_other (f : A -> A) (l : list A) :
  (forall x, p x = true -> q x = false) ->
  (forall x, q (f x) = q x) ->
  find q (updateFound p f l) = find q l.
Proof.
  intros Hpq Hf. induction l as [|x l IH]; simpl; [reflexivity|].
  destruct (p x) eqn:E; simpl.
  - rewrite Hf, (Hpq x E). reflexivity.
  - rewrite IH. reflexivity.
Qed.

Lemma updateFound_ext (f g : A -> A) (l : list A) :
  (forall x, f x = g x) -> updateFound p f l = updateFound p g l.
Proof.
  intros H. induction l as [|x l IH]; simpl; [reflexivity|].
  rewrite H, IH. reflexivity.
Qed.

Lemma updateFound_fixed (f : A -> A) (l : list A) :
  (forall x, find p l = Some x -> f x = x) ->
  updateFound p f l = l.
Proof.
  induction l as [|x l IH]; simpl; intros H; [reflexivity|].
  destruct (p x) eqn:E.
  - rewrite (H x eq_refl). reflexivity.
  - rewrite (IH H). reflexivity.
Qed.
End UpdateFoundMore.

Section DoublesLedgerFacts.

Lemma doubles_redo_account (old : Doubles.Transaction) (x : Doubles.Account) :
  Doubles.LedgerPage.applyAccount old (Doubles.LedgerPage.revertAccount old x)
  = Doubles.withBalance x
      (undoneRedone (Doubles.tx_type old) (Doubles.amount old)
                    (Doubles.balance x)).
Proof.
  unfold Doubles.LedgerPage.applyAccount, Doubles.LedgerPage.revertAccount,
    undoneRedone.
  destruct (Doubles.tx_type old); reflexivity.
Qed.

Lemma doubles_redo_party (old : Doubles.Transaction) (x : Doubles.Party) :
  Doubles.LedgerPage.applyParty old (Doubles.LedgerPage.revertParty old x)
  = Doubles.withCurrentBalance x
      (partyUndoneRedone (Doubles.tx_type old) (Doubles.amount old)
                         (Doubles.currentBalance x)).
Proof.
  unfold Doubles.LedgerPage.applyParty, Doubles.LedgerPage.revertParty,
    partyUndoneRedone.
  destruct (Doubles.tx_type old); reflexivity.
Qed.

(** What an accepted amendment with identical content saves: the account
    and the party of the transaction with the amount undone and redone. *)
Lemma doubles_amend_identical (data : Doubles.AppData)
    (e : Doubles.LedgerPage.Editing) (old : Doubles.Transaction) (now : N) :
  truthy (Doubles.LedgerPage.e_description e) = true ->
  Doubles.truthyNum (Doubles.LedgerPage.e_amount e) = true ->
  truthy (Doubles.LedgerPage.e_date e) = true ->
  truthy (Doubles.LedgerPage.e_id e) = true ->
  find (Doubles.LedgerPage.hasId (Doubles.LedgerPage.e_id e))
       (Doubles.transactions data) = Some old ->
  Doubles.LedgerPage.e_type e = Doubles.tx_type old ->
  Doubles.LedgerPage.e_amount e = Doubles.amount old ->
  Doubles.LedgerPage.e_account e = Doubles.account old ->
  Doubles.LedgerPage.orUndefined (Doubles.LedgerPage.e_partyId e)
  = Doubles.partyId old ->
  let after :=
    Doubles.saved (Doubles.LedgerPage.handleSave data (Some e) now) data in
  Doubles.accounts after
  = updateFound (Doubles.LedgerPage.isAccount (Doubles.account old))
      (fun x => Doubles.withBalance x
                  (undoneRedone (Doubles.tx_type old) (Doubles.amount old)
                                (Doubles.balance x)))
      (Doubles.accounts data) /\
  Doubles.parties after
  = updateFound (Doubles.LedgerPage.isParty (Doubles.partyId old))
      (fun x => Doubles.withCurrentBalance x
                  (partyUndoneRedone (Doubles.tx_type old)
                     (Doubles.amount old) (Doubles.currentBalance x)))
      (Doubles.parties data).
Proof.
  intros Hd Ha Hdt Hid Hfind Hty Ham Hac Hpt after.
  unfold after, Doubles.LedgerPage.handleSave.
  rewrite Hd, Ha, Hdt. cbn [negb orb].
  unfold Doubles.LedgerPage.reverted. rewrite Hid, Hfind.
  cbn [Doubles.saved Doubles.accounts Doubles.parties
       Doubles.LedgerPage.transOf Doubles.account Doubles.partyId].
  rewrite Hac, Hpt. split.
  - rewrite updateFound_twice.
    + apply updateFound_ext. intros x. rewrite <- doubles_redo_account.
      unfold Doubles.LedgerPage.applyAccount.
      cbn [Doubles.LedgerPage.transOf Doubles.tx_type Doubles.amount].
      rewrite Hty, Ham. reflexivity.
    + intros x. unfold Doubles.LedgerPage.revertAccount,
                  Doubles.LedgerPage.isAccount.
      destruct (Doubles.LedgerPage.isIncomeOrSale (Doubles.tx_type old));
        reflexivity.
  - rewrite updateFound_twice.
    + apply updateFound_ext. intros x. rewrite <- doubles_redo_party.
      unfold Doubles.LedgerPage.applyParty.
      cbn [Doubles.LedgerPage.transOf Doubles.tx_type Doubles.amount].
      rewrite Hty, Ham. reflexivity.
    + intros x. unfold Doubles.LedgerPage.revertParty,
                  Doubles.LedgerPage.isParty.
      destruct (Doubles.partyId old); destruct (Doubles.tx_type old);
        reflexivity.
Qed.

(** C7, amended.  Amending an existing transaction with the same kind,
    amount, account and party through a form the page accepts leaves the
    balance of the referenced account at the old balance with the amount
    undone and redone in double arithmetic, the current balance of the
    referenced party likewise, and every other account and party as it
    was.  Hence the accounts, or the parties, are exactly unchanged
    whenever that undoing and redoing does not round. *)
Theorem amend_identical_undoes_and_redoes (data : Doubles.AppData)
    (e : Doubles.LedgerPage.Editing) (old : Doubles.Transaction) (now : N) :
  truthy (Doubles.LedgerPage.e_description e) = true ->
  Doubles.truthyNum (Doubles.LedgerPage.e_amount e) = true ->
  truthy (Doubles.LedgerPage.e_date e) = true ->
  truthy (Doubles.LedgerPage.e_id e) = true ->
  find (Doubles.LedgerPage.hasId (Doubles.LedgerPage.e_id e))
       (Doubles.transactions data) = Some old ->
  Doubles.LedgerPage.e_type e = Doubles.tx_type old ->
  Doubles.LedgerPage.e_amount e = Doubles.amount old ->
  Doubles.LedgerPage.e_account e = Doubles.account old ->
  Doubles.LedgerPage.orUndefined (Doubles.LedgerPage.e_partyId e)
  = Doubles.partyId old ->
  let after :=
    Doubles.saved (Doubles.LedgerPage.handleSave data (Some e) now) data in
  let redo := undoneRedone (Doubles.tx_type old) (Doubles.amount old) in
  let partyRedo :=
    partyUndoneRedone (Doubles.tx_type old) (Doubles.amount old) in
  option_map Doubles.balance (Doubles.accountOf after (Doubles.account old))
  = option_map (fun a => redo (Doubles.balance a))
               (Doubles.accountOf data (Doubles.account old)) /\
  (forall pid, Doubles.partyId old = Some pid ->
     option_map Doubles.currentBalance (Doubles.partyOf after pid)
     = option_map (fun x => partyRedo (Doubles.currentBalance x))
                  (Doubles.partyOf data pid)) /\
  (forall id, id <> Doubles.account old ->
     Doubles.accountOf after id = Doubles.accountOf data id) /\
  (forall pid, Doubles.partyId old <> Some pid ->
     Doubles.partyOf after pid = Doubles.partyOf data pid) /\
  ((forall a, Doubles.accountOf data (Doubles.account old) = Some a ->
              redo (Doubles.balance a) = Doubles.balance a) ->
   Doubles.accounts after = Doubles.accounts data) /\
  ((forall x pid, Doubles.partyId old = Some pid ->
                  Doubles.partyOf data pid = Some x ->
                  partyRedo (Doubles.currentBalance x)
                  = Doubles.currentBalance x) ->
   Doubles.parties after = Doubles.parties data).
Proof.
  intros Hd Ha Hdt Hid Hfind Hty Ham Hac Hpt after redo partyRedo.
  destruct (@doubles_amend_identical data e old now Hd Ha Hdt Hid Hfind Hty
              Ham Hac Hpt) as [HA HP].
  fold after in HA, HP. fold redo in HA. fold partyRedo in HP.
  split; [|split; [|split; [|split; [|split]]]].
  - unfold Doubles.accountOf. rewrite HA, find_updateFound.
    + destruct (find _ (Doubles.accounts data)); reflexivity.
    + intros x. reflexivity.
  - intros pid Hpid. unfold Doubles.partyOf. rewrite HP, Hpid.
    change (fun p : Doubles.Party => String.eqb (Doubles.party_id p) pid)
      with (Doubles.LedgerPage.isParty (Some pid)).
    rewrite find_updateFound.
    + destruct (find _ (Doubles.parties data)); reflexivity.
    + intros x. reflexivity.
  - intros id Hne. unfold Doubles.accountOf. rewrite HA.
    apply find_updateFound_other.
    + intros x Hx. unfold Doubles.LedgerPage.isAccount in *.
      apply String.eqb_eq in Hx. rewrite Hx. apply String.eqb_neq.
      intros E. apply Hne. symmetry. exact E.
    + intros x. reflexivity.
  - intros pid Hne. unfold Doubles.partyOf. rewrite HP.
    apply find_updateFound_other.
    + intros x Hx. unfold Doubles.LedgerPage.isParty in Hx.
      destruct (Doubles.partyId old) as [k|]; [|discriminate].
      apply String.eqb_eq in Hx. rewrite Hx. apply String.eqb_neq.
      intros E. apply Hne. rewrite E. reflexivity.
    + intros x. reflexivity.
  - intros Hex. rewrite HA. apply updateFound_fixed. intros x Hx.
    rewrite (Hex x Hx). destruct x; reflexivity.
  - intros Hex. rewrite HP. apply updateFound_fixed. intros x Hx.
    destruct (Doubles.partyId old) as [k|] eqn:Ek.
    + rewrite (Hex x k eq_refl Hx). destruct x; reflexivity.
    + apply find_some in Hx. destruct Hx as [_ Hx]. discriminate.
Qed.

End DoublesLedgerFacts.

Section DoublesLedgerInstances.
Import PrimFloat.

Lemma amend_identical_witness :
  let after :=
    Doubles.saved
      (Doubles.LedgerPage.handleSave DoublesBook.soldData
         (Some DoublesBook.sameSaleForm) 9)
      DoublesBook.soldData in
  let redo := undoneRedone SALE 250 in
  let partyRedo := partyUndoneRedone SALE 250 in
  option_map Doubles.balance (Doubles.accountOf after "cash-01")
  = option_map (fun a => redo (Doubles.balance a))
               (Doubles.accountOf DoublesBook.soldData "cash-01") /\
  (forall pid, Some "acme"%string = Some pid ->
     option_map Doubles.currentBalance (Doubles.partyOf after pid)
     = option_map (fun x => partyRedo (Doubles.currentBalance x))
                  (Doubles.partyOf DoublesBook.soldData pid)) /\
  (forall id, id <> "cash-01"%string ->
     Doubles.accountOf after id = Doubles.accountOf DoublesBook.soldData id) /\
  (forall pid, Some "acme"%string <> Some pid ->
     Doubles.partyOf after pid = Doubles.partyOf DoublesBook.soldData pid) /\
  ((forall a, Doubles.accountOf DoublesBook.soldData "cash-01" = Some a ->
              redo (Doubles.balance a) = Doubles.balance a) ->
   Doubles.accounts after = Doubles.accounts DoublesBook.soldData) /\
  ((forall x pid, Some "acme"%string = Some pid ->
                  Doubles.partyOf DoublesBook.soldData pid = Some x ->
                  partyRedo (Doubles.currentBalance x)
                  = Doubles.currentBalance x) ->
   Doubles.parties after = Doubles.parties DoublesBook.soldData).
Proof.
  apply (@amend_identical_undoes_and_redoes DoublesBook.soldData
           DoublesBook.sameSaleForm DoublesBook.saleTx 9); reflexivity.
Defined.

(** C7, as stated, fails on doubles.  An expense of 2.13 stands on an
    account left with 8; re-saving it with identical content undoes it to
    10.13 and redoes it to 7.999999999999999. *)
Lemma amend_identical_counterexample :
  let after :=
    Doubles.saved
      (Doubles.LedgerPage.handleSave DoublesBook.teaData
         (Some DoublesBook.teaForm) 9)
      DoublesBook.teaData in
  find (Doubles.LedgerPage.hasId
          (Doubles.LedgerPage.e_id DoublesBook.teaForm))
       (Doubles.transactions DoublesBook.teaData)
  = Some DoublesBook.teaTx /\
  Doubles.LedgerPage.e_type DoublesBook.teaForm
  = Doubles.tx_type DoublesBook.teaTx /\
  Doubles.LedgerPage.e_amount DoublesBook.teaForm
  = Doubles.amount DoublesBook.teaTx /\
  Doubles.LedgerPage.e_account DoublesBook.teaForm
  = Doubles.account DoublesBook.teaTx /\
  Doubles.LedgerPage.orUndefined
    (Doubles.LedgerPage.e_partyId DoublesBook.teaForm)
  = Doubles.partyId DoublesBook.teaTx /\
  option_map Doubles.balance (Doubles.accountOf DoublesBook.teaData "cash-01")
  = Some 8%float /\
  option_map Doubles.balance (Doubles.accountOf after "cash-01")
  = Some 7.999999999999999%float /\
  option_map Doubles.balance (Doubles.accountOf after "cash-01")
  <> option_map Doubles.balance
       (Doubles.accountOf DoublesBook.teaData "cash-01").
Proof.
  cbv zeta. repeat (split; [reflexivity|]).
  intros H.
  assert (E : option_map (fun x => eqb x 8)
                (option_map Doubles.balance
                   (Doubles.accountOf
                      (Doubles.saved
                         (Doubles.LedgerPage.handleSave DoublesBook.teaData
                            (Some DoublesBook.teaForm) 9)
                         DoublesBook.teaData) "cash-01"))
              = option_map (fun x => eqb x 8)
                  (option_map Doubles.balance
                     (Doubles.accountOf DoublesBook.teaData "cash-01")))
    by (rewrite H; reflexivity).
  vm_compute in E. discriminate E.
Qed.

End DoublesLedgerInstances.

(** ** The assistant's delete beyond ASCII (part_006) *)

(** C10, as stated, fails beyond ASCII.  The entry described 'ΑΣ'
    contains the search part 'Σ', but lower-cased they are 'ας' and 'σ':
    the assistant finds nothing, fires no callback, and the entry stays. *)
Lemma maya_delete_counterexample :
  let fired :=
    MayaAssistant.handleFunctionCallWith toLowerCaseFinalSigma noText
      greekData 9 (MayaAssistant.deleteEntry "transaction" "Σ") in
  In greekEntry (transactions greekData) /\
  includes (description greekEntry) "Σ" = true /\
  toLowerCaseFinalSigma (description greekEntry) = "ας"%string /\
  toLowerCaseFinalSigma "Σ" = "σ"%string /\
  fired = ([], "Sorry baby, mujhe wo transaction nahi mila."%string) /\
  In greekEntry (transactions (saved (fst fired) greekData)).
Proof.
  cbv zeta. split; [left; reflexivity|]. split; [reflexivity|].
  split; [reflexivity|]. split; [reflexivity|]. split; [reflexivity|].
  left. reflexivity.
Qed.

(** ** Finite doubles *)

Section FiniteFacts.
Import PrimFloat.

Lemma SFcompare_refl (x : SpecFloat.spec_float) :
  x <> SpecFloat.S754_nan -> SpecFloat.SFcompare x x = Some Eq.
Proof.
  destruct x as [s|s| |s m e]; intros H; try (destruct s; reflexivity).
  - exfalso. apply H. reflexivity.
  - simpl. destruct s;
      rewrite Z.compare_refl, ?Pos.compare_cont_refl, ?Pos.compare_refl;
      reflexivity.
Qed.

(** What compares greater than something is not [NaN]. *)
Lemma ltb_not_nan (x c : float) : (x <? c)%float = true -> is_nan c = false.
Proof.
  intros H. unfold is_nan.
  rewrite FloatAxioms.ltb_spec in H. rewrite FloatAxioms.eqb_spec.
  unfold SpecFloat.SFltb in H. unfold SpecFloat.SFeqb.
  rewrite SFcompare_refl; [reflexivity|].
  intros E. rewrite E in H.
  destruct (FloatOps.Prim2SF x) as [s|s| |s m e]; try destruct s;
    discriminate H.
Qed.

Lemma Math_max_pos (c : float) :
  (zero <? c)%float = true -> Doubles.Math_max zero c = c.
Proof.
  intros H. unfold Doubles.Math_max. rewrite (ltb_not_nan H).
  change (is_nan zero) with false. cbn [orb]. rewrite H. reflexivity.
Qed.

(** Adding to [0] what is greater than [0] changes nothing, and what is
    greater than [0] passes the guard [q <= 0]. *)
Lemma zero_add (q : float) : (0 <? q)%float = true -> (0 + q)%float = q.
Proof.
  intros H. apply FloatAxioms.Prim2SF_inj.
  rewrite FloatAxioms.add_spec. rewrite FloatAxioms.ltb_spec in H.
  change (FloatOps.Prim2SF 0%float) with (SpecFloat.S754_zero false) in *.
  destruct (FloatOps.Prim2SF q) as [s|s| |s m e]; try reflexivity.
  destruct s; discriminate H.
Qed.

Lemma positive_not_leb (q : float) :
  (0 <? q)%float = true -> (q <=? 0)%float = false.
Proof.
  rewrite FloatAxioms.ltb_spec, FloatAxioms.leb_spec.
  change (FloatOps.Prim2SF 0%float) with (SpecFloat.S754_zero false).
  destruct (FloatOps.Prim2SF q) as [s|s| |s m e]; try destruct s;
    intros H; try discriminate H; reflexivity.
Qed.

(** The finite doubles are the zeros and the doubles with a mantissa. *)
Lemma is_finite_SF (x : float) :
  is_finite x = true <->
  match FloatOps.Prim2SF x with
  | SpecFloat.S754_zero _ | SpecFloat.S754_finite _ _ _ => True
  | _ => False
  end.
Proof.
  unfold is_finite, is_nan, is_infinity.
  rewrite !FloatAxioms.eqb_spec, FloatAxioms.abs_spec.
  change (FloatOps.Prim2SF infinity) with (SpecFloat.S754_infinity false).
  destruct (FloatOps.Prim2SF x) as [s|s| |s m e].
  - destruct s; split; [intros _; exact I | reflexivity
                        | intros _; exact I | reflexivity].
  - destruct s; split; [discriminate | intros [] | discriminate | intros []].
  - split; [discriminate | intros []].
  - split; [intros _; exact I|]. intros _.
    cbn [SpecFloat.SFabs]. unfold SpecFloat.SFeqb.
    rewrite SFcompare_refl by discriminate. reflexivity.
Qed.

Lemma finite_abs (x : float) : is_finite x = true -> is_finite (abs x) = true.
Proof.
  rewrite !is_finite_SF, FloatAxioms.abs_spec.
  destruct (FloatOps.Prim2SF x); intros H; exact H.
Qed.

Lemma value_finite_nonzero (s : bool) (m : positive) (e : Z) :
  truthyNum (Q2Qc (inject_Z (if s then Z.neg m else Z.pos m) * Qpower 2 e))
  = true.
Proof.
  unfold truthyNum. apply negb_true_iff.
  destruct (Qc_eq_bool _ _) eqn:E; [|reflexivity]. exfalso.
  apply Qc_eq_bool_correct in E. apply (f_equal this) in E.
  cbn [this Q2Qc ofZ] in E.
  assert (P : (0 < Qpower 2 e)%Q).
  { apply Qpower.Qpower_0_lt. reflexivity. }
  assert (Z : (inject_Z (if s then Z.neg m else Z.pos m) * Qpower 2 e == 0)%Q).
  { rewrite <- (Qred_correct (_ * _)). rewrite E. reflexivity. }
  apply Qmult_integral in Z. destruct Z as [Z|Z].
  - destruct s; discriminate Z.
  - rewrite Z in P. discriminate P.
Qed.

(** A finite double is truthy exactly when it stands for a rational other
    than zero. *)
Lemma finite_truthyNum (x : float) :
  is_finite x = true -> Doubles.truthyNum x = truthyNum (value x).
Proof.
  intros F. pose proof (proj1 (is_finite_SF x) F) as S.
  unfold Doubles.truthyNum, is_zero, is_nan, value in *.
  rewrite !FloatAxioms.eqb_spec.
  destruct (FloatOps.Prim2SF x) as [s|s| |s m e] eqn:E; try destruct S.
  - change (FloatOps.Prim2SF zero) with (SpecFloat.S754_zero false).
    destruct s; reflexivity.
  - rewrite value_finite_nonzero.
    change (FloatOps.Prim2SF zero) with (SpecFloat.S754_zero false).
    unfold SpecFloat.SFeqb at 2.
    rewrite SFcompare_refl by discriminate.
    destruct s; reflexivity.
Qed.

(** [Math.abs] leaves what stands for a non-negative rational as it is. *)
Lemma value_abs (x : float) :
  (0 <= value x)%Qc -> value (abs x) = value x.
Proof.
  unfold value. rewrite FloatAxioms.abs_spec.
  destruct (FloatOps.Prim2SF x) as [s|s| |s m e]; try reflexivity.
  cbn [SpecFloat.SFabs]. destruct s; [|reflexivity]. intros H. exfalso.
  unfold Qcle in H. cbn [this Q2Qc] in H.
  change (this 0%Qc) with (0%Q) in H.
  pose proof (Qred_correct (inject_Z (Z.neg m) * Qpower 2 e)) as R.
  rewrite R in H.
  assert (P : (0 < Qpower 2 e)%Q).
  { apply Qpower.Qpower_0_lt. reflexivity. }
  assert (Ng : (inject_Z (Z.neg m) * Qpower 2 e < 0)%Q).
  { setoid_replace (0%Q) with (0 * Qpower 2 e)%Q by ring.
    apply Qmult_lt_compat_r; [exact P | reflexivity]. }
  exact (Qlt_not_le _ _ Ng H).
Qed.

(** What is falsy stands for zero, so [x || 0] stands for what [x] does. *)
Lemma falsy_value (x : float) :
  Doubles.truthyNum x = false -> value x = ofZ 0.
Proof.
  unfold Doubles.truthyNum, is_zero, is_nan, value.
  rewrite !FloatAxioms.eqb_spec.
  change (FloatOps.Prim2SF zero) with (SpecFloat.S754_zero false).
  destruct (FloatOps.Prim2SF x) as [s|s| |s m e]; try reflexivity.
  unfold SpecFloat.SFeqb at 2. rewrite SFcompare_refl by discriminate.
  destruct s; intros H; discriminate H.
Qed.

Lemma value_orZero (x : float) : value (Doubles.orZero x) = value x.
Proof.
  unfold Doubles.orZero. destruct (Doubles.truthyNum x) eqn:E; [reflexivity|].
  rewrite (falsy_value _ E). reflexivity.
Qed.

(** What is not greater than [0] stands for no positive rational. *)
Lemma not_positive_value (c : float) :
  (0 <? c)%float = false -> (value c <= 0)%Qc.
Proof.
  unfold value. rewrite FloatAxioms.ltb_spec.
  change (FloatOps.Prim2SF 0%float) with (SpecFloat.S754_zero false).
  destruct (FloatOps.Prim2SF c) as [s|s| |s m e];
    try (intros _; apply Qcle_refl).
  destruct s; [intros _|intros H; discriminate H].
  unfold Qcle. cbn [this Q2Qc]. change (this 0%Qc) with (0%Q).
  rewrite (Qred_correct (inject_Z (Z.neg m) * Qpower 2 e)).
  assert (P : (0 < Qpower 2 e)%Q).
  { apply Qpower.Qpower_0_lt. reflexivity. }
  setoid_replace (0%Q) with (0 * Qpower 2 e)%Q by ring.
  apply Qmult_le_compat_r; [|apply Qlt_le_weak; exact P]. discriminate.
Qed.

Lemma forallb_updateFound (A : Type) (P p : A -> bool) (f : A -> A)
    (l : list A) :
  forallb P l = true ->
  (forall x, find p l = Some x -> P (f x) = true) ->
  forallb P (updateFound p f l) = true.
Proof.
  induction l as [|x l IH]; intros H Hf; [reflexivity|].
  simpl in *. apply andb_true_iff in H. destruct H as [Hx Hl].
  destruct (p x).
  - simpl. rewrite (Hf x eq_refl), Hl. reflexivity.
  - simpl. rewrite Hx. apply IH; assumption.
Qed.

Lemma forallb_filter (A : Type) (P q : A -> bool) (l : list A) :
  forallb P l = true -> forallb P (filter q l) = true.
Proof.
  induction l as [|x l IH]; intros H; [reflexivity|].
  simpl in *. apply andb_true_iff in H. destruct H as [Hx Hl].
  destruct (q x); simpl; [rewrite Hx|]; apply IH; exact Hl.
Qed.

Lemma forallb_map_in (A : Type) (P : A -> bool) (g : A -> A) (l : list A) :
  forallb P l = true ->
  (forall x, In x l -> P x = true -> P (g x) = true) ->
  forallb P (map g l) = true.
Proof.
  induction l as [|x l IH]; intros H Hg; [reflexivity|].
  simpl in *. apply andb_true_iff in H. destruct H as [Hx Hl].
  rewrite (Hg x (or_introl eq_refl) Hx). apply IH; [exact Hl|].
  intros y Hy. apply Hg. right. exact Hy.
Qed.

End FiniteFacts.

(** ** The ledger page on doubles, read exactly (part_004) *)

Section ExactReading.

Lemma find_map_exact (A B : Type) (m : A -> B) (p : A -> bool)
    (q : B -> bool) (l : list A) :
  (forall x, q (m x) = p x) ->
  find q (map m l) = option_map m (find p l).
Proof.
  intros H. induction l as [|x l IH]; [reflexivity|]. simpl. rewrite H.
  destruct (p x); [reflexivity | exact IH].
Qed.

Lemma filter_map_exact (A B : Type) (m : A -> B) (p : A -> bool)
    (q : B -> bool) (l : list A) :
  (forall x, q (m x) = p x) ->
  filter q (map m l) = map m (filter p l).
Proof.
  intros H. induction l as [|x l IH]; [reflexivity|]. simpl. rewrite H.
  destruct (p x); simpl; rewrite IH; reflexivity.
Qed.

Lemma updateFound_map_exact (A B : Type) (m : A -> B) (p : A -> bool)
    (q : B -> bool) (f : A -> A) (g : B -> B) (l : list A) :
  (forall x, q (m x) = p x) ->
  (forall x, find p l = Some x -> m (f x) = g (m x)) ->
  updateFound q g (map m l) = map m (updateFound p f l).
Proof.
  intros H. induction l as [|x l IH]; intros Hf; [reflexivity|].
  simpl in *. rewrite H. destruct (p x).
  - simpl. rewrite Hf; reflexivity.
  - simpl. rewrite IH; [reflexivity | exact Hf].
Qed.

Lemma exact_revertAccount (old : Doubles.Transaction) (a : Doubles.Account) :
  takesExactly (Doubles.balance a) (Doubles.amount old) ->
  exactAccount (Doubles.LedgerPage.revertAccount old a)
  = LedgerPage.revertAccount (exactTransaction old) (exactAccount a).
Proof.
  intros ((_ & Hadd) & (_ & Hsub) & _).
  unfold Doubles.LedgerPage.revertAccount, LedgerPage.revertAccount.
  cbn [exactTransaction tx_type].
  destruct (Doubles.LedgerPage.isIncomeOrSale (Doubles.tx_type old)) eqn:E;
    change (LedgerPage.isIncomeOrSale (Doubles.tx_type old))
      with (Doubles.LedgerPage.isIncomeOrSale (Doubles.tx_type old));
    rewrite E; unfold exactAccount, withBalance, Doubles.withBalance;
    cbn; f_equal; assumption.
Qed.

Lemma exact_applyAccount (t : Doubles.Transaction) (a : Doubles.Account) :
  takesExactly (Doubles.balance a) (Doubles.amount t) ->
  exactAccount (Doubles.LedgerPage.applyAccount t a)
  = LedgerPage.applyAccount (exactTransaction t) (exactAccount a).
Proof.
  intros ((_ & Hadd) & (_ & Hsub) & _).
  unfold Doubles.LedgerPage.applyAccount, LedgerPage.applyAccount.
  cbn [exactTransaction tx_type].
  destruct (Doubles.LedgerPage.isIncomeOrSale (Doubles.tx_type t)) eqn:E;
    change (LedgerPage.isIncomeOrSale (Doubles.tx_type t))
      with (Doubles.LedgerPage.isIncomeOrSale (Doubles.tx_type t));
    rewrite E; unfold exactAccount, withBalance, Doubles.withBalance;
    cbn; f_equal; assumption.
Qed.

Lemma exact_revertParty (old : Doubles.Transaction) (p : Doubles.Party) :
  takesExactly (Doubles.currentBalance p) (Doubles.amount old) ->
  exactParty (Doubles.LedgerPage.revertParty old p)
  = LedgerPage.revertParty (exactTransaction old) (exactParty p).
Proof.
  intros ((_ & Hadd) & (_ & Hsub) & _).
  unfold Doubles.LedgerPage.revertParty, LedgerPage.revertParty.
  cbn [exactTransaction tx_type].
  destruct (Doubles.tx_type old);
    unfold exactParty, withCurrentBalance, Doubles.withCurrentBalance;
    cbn; f_equal; assumption.
Qed.

Lemma exact_applyParty (t : Doubles.Transaction) (p : Doubles.Party) :
  takesExactly (Doubles.currentBalance p) (Doubles.amount t) ->
  exactParty (Doubles.LedgerPage.applyParty t p)
  = LedgerPage.applyParty (exactTransaction t) (exactParty p).
Proof.
  intros ((_ & Hadd) & (_ & Hsub) & _).
  unfold Doubles.LedgerPage.applyParty, LedgerPage.applyParty.
  cbn [exactTransaction tx_type].
  destruct (Doubles.tx_type t);
    unfold exactParty, withCurrentBalance, Doubles.withCurrentBalance;
    cbn; f_equal; assumption.
Qed.

(** The revert phase on doubles, read exactly, is the revert phase of
    exact arithmetic on the book read exactly. *)
Lemma exact_reverted (d : Doubles.AppData) (e : Doubles.LedgerPage.Editing) :
  savesExactly d e ->
  LedgerPage.reverted (exactBook d) (exactForm e)
  = (map exactTransaction (fst (fst (Doubles.LedgerPage.reverted d e))),
     map exactAccount (snd (fst (Doubles.LedgerPage.reverted d e))),
     map exactParty (snd (Doubles.LedgerPage.reverted d e))).
Proof.
  intros (_ & Hold & _).
  unfold LedgerPage.reverted, Doubles.LedgerPage.reverted.
  cbn [exactForm LedgerPage.e_id exactBook transactions accounts parties].
  destruct (truthy (Doubles.LedgerPage.e_id e)) eqn:Hid; [|reflexivity].
  rewrite (@find_map_exact _ _ exactTransaction
             (Doubles.LedgerPage.hasId (Doubles.LedgerPage.e_id e)));
    [|reflexivity].
  destruct (find (Doubles.LedgerPage.hasId (Doubles.LedgerPage.e_id e))
              (Doubles.transactions d)) as [old|] eqn:Hf; [|reflexivity].
  destruct (Hold old eq_refl eq_refl) as [Ha Hp].
  cbn [option_map fst snd]. f_equal; [f_equal|].
  - apply (@filter_map_exact _ _ exactTransaction). reflexivity.
  - apply (@updateFound_map_exact _ _ exactAccount
             (Doubles.LedgerPage.isAccount (Doubles.account old))).
    + reflexivity.
    + intros a Hfa. apply exact_revertAccount. apply Ha. exact Hfa.
  - apply (@updateFound_map_exact _ _ exactParty
             (Doubles.LedgerPage.isParty (Doubles.partyId old))).
    + reflexivity.
    + intros p Hfp. apply exact_revertParty. apply Hp. exact Hfp.
Qed.

(** A save and a delete that do not round commute with the exact reading:
    the snapshot the double page saves, read exactly, is the snapshot
    exact arithmetic saves from the book read exactly. *)
Lemma exact_handleSave (d : Doubles.AppData) (e : Doubles.LedgerPage.Editing)
    (now : N) :
  savesExactly d e ->
  saved (LedgerPage.handleSave (exactBook d) (Some (exactForm e)) now)
        (exactBook d)
  = exactBook (Doubles.saved (Doubles.LedgerPage.handleSave d (Some e) now) d).
Proof.
  intros H. pose proof (exact_reverted H) as Hr.
  destruct H as (Hfin & _ & Hacc & Hpty).
  unfold LedgerPage.handleSave, Doubles.LedgerPage.handleSave.
  rewrite Hr. clear Hr.
  cbn [exactForm LedgerPage.e_description LedgerPage.e_amount
       LedgerPage.e_date].
  rewrite <- (finite_truthyNum _ Hfin).
  destruct (negb (truthy (Doubles.LedgerPage.e_description e))
            || negb (Doubles.truthyNum (Doubles.LedgerPage.e_amount e))
            || negb (truthy (Doubles.LedgerPage.e_date e))); [reflexivity|].
  destruct (Doubles.LedgerPage.reverted d e) as [[txs accs] pts].
  cbn [fst snd] in *. cbn [saved Doubles.saved]. unfold exactBook.
  cbn [Doubles.transactions Doubles.accounts Doubles.parties
       Doubles.investments Doubles.tasks Doubles.journal Doubles.goals
       investments tasks journal goals map].
  f_equal.
  - apply (@updateFound_map_exact _ _ exactAccount
             (Doubles.LedgerPage.isAccount
                (Doubles.account (Doubles.LedgerPage.transOf e now)))).
    + reflexivity.
    + intros a Hfa.
      apply (exact_applyAccount (Doubles.LedgerPage.transOf e now)).
      apply Hacc. exact Hfa.
  - apply (@updateFound_map_exact _ _ exactParty
             (Doubles.LedgerPage.isParty
                (Doubles.partyId (Doubles.LedgerPage.transOf e now)))).
    + reflexivity.
    + intros p Hfp.
      apply (exact_applyParty (Doubles.LedgerPage.transOf e now)).
      apply Hpty. exact Hfp.
Qed.

Lemma exact_deleteTransaction (d : Doubles.AppData) (id : string) :
  deletesExactly d id ->
  saved (LedgerPage.deleteTransaction (exactBook d) id true) (exactBook d)
  = exactBook
      (Doubles.saved (Doubles.LedgerPage.deleteTransaction d id true) d).
Proof.
  intros H.
  unfold LedgerPage.deleteTransaction, Doubles.LedgerPage.deleteTransaction.
  cbn [negb exactBook transactions accounts parties investments tasks journal
       goals].
  rewrite (@find_map_exact _ _ exactTransaction
             (Doubles.LedgerPage.hasId id)); [|reflexivity].
  destruct (find (Doubles.LedgerPage.hasId id) (Doubles.transactions d))
    as [trans|] eqn:Hf; [|reflexivity].
  destruct (H trans Hf) as [Ha Hp].
  cbn [option_map saved Doubles.saved]. unfold exactBook.
  cbn [Doubles.transactions Doubles.accounts Doubles.parties
       Doubles.investments Doubles.tasks Doubles.journal Doubles.goals].
  f_equal.
  - apply (@filter_map_exact _ _ exactTransaction). reflexivity.
  - rewrite !map_map. apply map_ext_in. intros a Hin.
    change (LedgerPage.isAccount (account (exactTransaction trans))
              (exactAccount a))
      with (Doubles.LedgerPage.isAccount (Doubles.account trans) a).
    destruct (Doubles.LedgerPage.isAccount (Doubles.account trans) a) eqn:E;
      [|reflexivity].
    destruct (Ha a Hin E) as ((_ & Hadd) & _ & (_ & Hopp)).
    cbn [exactTransaction tx_type amount].
    change (LedgerPage.isIncomeOrSale (Doubles.tx_type trans))
      with (Doubles.LedgerPage.isIncomeOrSale (Doubles.tx_type trans)).
    destruct (Doubles.LedgerPage.isIncomeOrSale (Doubles.tx_type trans));
      unfold exactAccount, withBalance, Doubles.withBalance; cbn;
      f_equal; symmetry; assumption.
  - rewrite !map_map. apply map_ext_in. intros p Hin.
    change (LedgerPage.isParty (partyId (exactTransaction trans))
              (exactParty p))
      with (Doubles.LedgerPage.isParty (Doubles.partyId trans) p).
    destruct (Doubles.LedgerPage.isParty (Doubles.partyId trans) p) eqn:E;
      [|reflexivity].
    destruct (Hp p Hin E) as ((_ & Hadd) & _ & (_ & Hopp)).
    cbn [exactTransaction tx_type amount].
    destruct (Doubles.tx_type trans);
      unfold exactParty, withCurrentBalance, Doubles.withCurrentBalance; cbn;
      f_equal; symmetry; assumption.
Qed.

Lemma exact_pageRun (d : Doubles.AppData) (c : PageCommand) :
  stepsExactly d c ->
  run noText (exactBook d) (exactCommand c) = exactBook (pageRun d c).
Proof.
  destruct c as [e now|id]; intros H.
  - apply exact_handleSave. exact H.
  - apply exact_deleteTransaction. exact H.
Qed.

Lemma exact_ids (txs : list Doubles.Transaction) :
  map tx_id (map exactTransaction txs) = map Doubles.tx_id txs.
Proof. rewrite map_map. reflexivity. Qed.

Lemma mintsFreshId_admissible (d : Doubles.AppData) (c : PageCommand) :
  mintsFreshId d c -> admissible (exactBook d) (exactCommand c).
Proof.
  destruct c as [e now|id]; [|intros _; exact I].
  cbn [mintsFreshId exactCommand admissible exactBook transactions exactForm
       LedgerPage.e_id].
  rewrite exact_ids. intros H. exact H.
Qed.

Lemma finiteBook_parts (d : Doubles.AppData) :
  finiteBook d = true <->
  forallb (fun t => PrimFloat.is_finite (Doubles.amount t))
          (Doubles.transactions d) = true /\
  forallb (fun a => PrimFloat.is_finite (Doubles.balance a)
                    && PrimFloat.is_finite (Doubles.openingBalance a))
          (Doubles.accounts d) = true /\
  forallb (fun p => PrimFloat.is_finite (Doubles.currentBalance p))
          (Doubles.parties d) = true.
Proof.
  unfold finiteBook. rewrite !andb_true_iff. tauto.
Qed.

Lemma found_holds (A : Type) (P p : A -> bool) (l : list A) (x : A) :
  forallb P l = true -> find p l = Some x -> P x = true.
Proof.
  intros H Hf. apply find_some in Hf.
  exact (proj1 (forallb_forall P l) H x (proj1 Hf)).
Qed.

Lemma finite_revertAccount (old : Doubles.Transaction) (a : Doubles.Account) :
  takesExactly (Doubles.balance a) (Doubles.amount old) ->
  PrimFloat.is_finite (Doubles.balance a)
  && PrimFloat.is_finite (Doubles.openingBalance a) = true ->
  PrimFloat.is_finite (Doubles.balance (Doubles.LedgerPage.revertAccount old a))
  && PrimFloat.is_finite
       (Doubles.openingBalance (Doubles.LedgerPage.revertAccount old a))
  = true.
Proof.
  intros ((Fadd & _) & (Fsub & _) & _) H. apply andb_true_iff in H.
  unfold Doubles.LedgerPage.revertAccount.
  destruct (Doubles.LedgerPage.isIncomeOrSale (Doubles.tx_type old));
    cbn [Doubles.withBalance Doubles.balance Doubles.openingBalance];
    apply andb_true_iff; split; tauto.
Qed.

Lemma finite_applyAccount (t : Doubles.Transaction) (a : Doubles.Account) :
  takesExactly (Doubles.balance a) (Doubles.amount t) ->
  PrimFloat.is_finite (Doubles.balance a)
  && PrimFloat.is_finite (Doubles.openingBalance a) = true ->
  PrimFloat.is_finite (Doubles.balance (Doubles.LedgerPage.applyAccount t a))
  && PrimFloat.is_finite
       (Doubles.openingBalance (Doubles.LedgerPage.applyAccount t a))
  = true.
Proof.
  intros ((Fadd & _) & (Fsub & _) & _) H. apply andb_true_iff in H.
  unfold Doubles.LedgerPage.applyAccount.
  destruct (Doubles.LedgerPage.isIncomeOrSale (Doubles.tx_type t));
    cbn [Doubles.withBalance Doubles.balance Doubles.openingBalance];
    apply andb_true_iff; split; tauto.
Qed.

Lemma finite_revertParty (old : Doubles.Transaction) (p : Doubles.Party) :
  takesExactly (Doubles.currentBalance p) (Doubles.amount old) ->
  PrimFloat.is_finite
    (Doubles.currentBalance (Doubles.LedgerPage.revertParty old p)) = true.
Proof.
  intros ((Fadd & _) & (Fsub & _) & _).
  unfold Doubles.LedgerPage.revertParty.
  destruct (Doubles.tx_type old);
    cbn [Doubles.withCurrentBalance Doubles.currentBalance]; assumption.
Qed.

Lemma finite_applyParty (t : Doubles.Transaction) (p : Doubles.Party) :
  takesExactly (Doubles.currentBalance p) (Doubles.amount t) ->
  PrimFloat.is_finite
    (Doubles.currentBalance (Doubles.LedgerPage.applyParty t p)) = true.
Proof.
  intros ((Fadd & _) & (Fsub & _) & _).
  unfold Doubles.LedgerPage.applyParty.
  destruct (Doubles.tx_type t);
    cbn [Doubles.withCurrentBalance Doubles.currentBalance]; assumption.
Qed.

(** A save and a delete that do not round keep the ledger numbers
    finite. *)
Lemma finiteBook_handleSave (d : Doubles.AppData)
    (e : Doubles.LedgerPage.Editing) (now : N) :
  finiteBook d = true ->
  savesExactly d e ->
  finiteBook (Doubles.saved (Doubles.LedgerPage.handleSave d (Some e) now) d)
  = true.
Proof.
  intros F (Hfin & Hold & Hacc & Hpty).
  assert (R : forallb (fun t => PrimFloat.is_finite (Doubles.amount t))
                (fst (fst (Doubles.LedgerPage.reverted d e))) = true /\
              forallb (fun a => PrimFloat.is_finite (Doubles.balance a)
                                && PrimFloat.is_finite
                                     (Doubles.openingBalance a))
                (snd (fst (Doubles.LedgerPage.reverted d e))) = true /\
              forallb (fun p => PrimFloat.is_finite (Doubles.currentBalance p))
                (snd (Doubles.LedgerPage.reverted d e)) = true).
  { apply finiteBook_parts in F. destruct F as (Ft & Fa & Fp).
    unfold Doubles.LedgerPage.reverted.
    destruct (truthy (Doubles.LedgerPage.e_id e)) eqn:Hid;
      [|cbn [fst snd]; tauto].
    destruct (find (Doubles.LedgerPage.hasId (Doubles.LedgerPage.e_id e))
                (Doubles.transactions d)) as [old|] eqn:Hf;
      [|cbn [fst snd]; tauto].
    destruct (Hold old eq_refl eq_refl) as [Ha Hp]. cbn [fst snd].
    split; [apply forallb_filter; exact Ft|]. split.
    - apply forallb_updateFound; [exact Fa|]. intros a Hfa.
      apply finite_revertAccount; [apply Ha; exact Hfa|].
      exact (found_holds _ _ _ Fa Hfa).
    - apply forallb_updateFound; [exact Fp|]. intros p Hfp.
      apply finite_revertParty. apply Hp. exact Hfp. }
  unfold Doubles.LedgerPage.handleSave.
  destruct (negb (truthy (Doubles.LedgerPage.e_description e))
            || negb (Doubles.truthyNum (Doubles.LedgerPage.e_amount e))
            || negb (truthy (Doubles.LedgerPage.e_date e))); [exact F|].
  destruct (Doubles.LedgerPage.reverted d e) as [[txs accs] pts].
  cbn [fst snd] in *. destruct R as (Rt & Ra & Rp).
  cbn [Doubles.saved]. apply finiteBook_parts.
  cbn [Doubles.transactions Doubles.accounts Doubles.parties forallb].
  split; [|split].
  - cbn [Doubles.LedgerPage.transOf Doubles.amount]. rewrite Hfin, Rt.
    reflexivity.
  - apply forallb_updateFound; [exact Ra|]. intros a Hfa.
    apply (finite_applyAccount (Doubles.LedgerPage.transOf e now));
      [apply Hacc; exact Hfa|].
    exact (found_holds _ _ _ Ra Hfa).
  - apply forallb_updateFound; [exact Rp|]. intros p Hfp.
    apply (finite_applyParty (Doubles.LedgerPage.transOf e now)).
    apply Hpty. exact Hfp.
Qed.

Lemma finiteBook_deleteTransaction (d : Doubles.AppData) (id : string) :
  finiteBook d = true ->
  deletesExactly d id ->
  finiteBook
    (Doubles.saved (Doubles.LedgerPage.deleteTransaction d id true) d)
  = true.
Proof.
  intros F H. unfold Doubles.LedgerPage.deleteTransaction. cbn [negb].
  destruct (find (Doubles.LedgerPage.hasId id) (Doubles.transactions d))
    as [trans|] eqn:Hf; [|exact F].
  destruct (H trans Hf) as [Ha Hp].
  apply finiteBook_parts in F. destruct F as (Ft & Fa & Fp).
  cbn [Doubles.saved]. apply finiteBook_parts.
  cbn [Doubles.transactions Doubles.accounts Doubles.parties].
  split; [apply forallb_filter; exact Ft|]. split.
  - apply forallb_map_in; [exact Fa|]. intros a Hin Hfa.
    destruct (Doubles.LedgerPage.isAccount (Doubles.account trans) a) eqn:E;
      [|exact Hfa].
    destruct (Ha a Hin E) as ((Fadd & _) & _ & (Fopp & _)).
    apply andb_true_iff in Hfa.
    destruct (Doubles.LedgerPage.isIncomeOrSale (Doubles.tx_type trans));
      cbn [Doubles.withBalance Doubles.balance Doubles.openingBalance];
      apply andb_true_iff; split; tauto.
  - apply forallb_map_in; [exact Fp|]. intros p Hin Hfp.
    destruct (Doubles.LedgerPage.isParty (Doubles.partyId trans) p) eqn:E;
      [|exact Hfp].
    destruct (Hp p Hin E) as ((Fadd & _) & _ & (Fopp & _)).
    destruct (Doubles.tx_type trans);
      cbn [Doubles.withCurrentBalance Doubles.currentBalance]; assumption.
Qed.

Lemma finiteBook_pageRun (d : Doubles.AppData) (c : PageCommand) :
  finiteBook d = true -> stepsExactly d c -> finiteBook (pageRun d c) = true.
Proof.
  destruct c as [e now|id]; intros F H.
  - apply finiteBook_handleSave; assumption.
  - apply finiteBook_deleteTransaction; assumption.
Qed.


(** X1. The ledger page on doubles keeps the books balanced as long as no
    balance update rounds.  Take a book of finite numbers which, read
    exactly, has unique account and transaction ids and every account
    balanced.  After any run of the page's saves (records and amendments)
    and confirmed deletes in which every minted id is fresh and every
    balance takes its amount without rounding, the book is again of that
    kind: its numbers are finite, and each balance stands for the opening
    balance plus the signed amounts of the live transactions on the
    account. *)
Theorem page_runs_keep_books_balanced (cs : list PageCommand) :
  forall d,
    wellFormedExactly d ->
    runsExactly d cs ->
    wellFormedExactly (pageRunAll d cs).
Proof.
  induction cs as [|c cs IH]; intros d W R.
  - exact W.
  - destruct R as (Fc & Rc & Rcs). destruct W as [F W].
    cbn [pageRunAll fold_left]. apply IH; [|exact Rcs].
    split; [apply finiteBook_pageRun; assumption|].
    rewrite <- (@exact_pageRun d c Rc).
    apply admissible_keeps_wellFormed; [exact W|].
    apply mintsFreshId_admissible. exact Fc.
Qed.

(** X21. The party side is kept as well.  Take a book of finite numbers
    which, read exactly, has unique party and transaction ids and every
    party's current balance equal to the sum of the party signed deltas of
    the live transactions naming it.  After a save or a confirmed delete
    of the ledger page on doubles that mints a fresh id, if any, and does
    not round, the book is again of that kind. *)
Theorem page_commands_keep_parties_balanced (d : Doubles.AppData)
    (c : PageCommand) :
  partiesOKExactly d ->
  mintsFreshId d c ->
  stepsExactly d c ->
  partiesOKExactly (pageRun d c).
Proof.
  intros [Fd W] F E. split; [apply finiteBook_pageRun; assumption|].
  rewrite <- (@exact_pageRun d c E).
  apply commands_keep_parties_balanced; [exact W|].
  apply mintsFreshId_admissible. exact F.
Qed.

End ExactReading.

(** ** Record, then delete, on doubles (part_004)

    In this section the records and the handlers are those of [Doubles]
    and [Doubles.LedgerPage]. *)

Section DoublesRoundTrip.
Import Doubles Doubles.LedgerPage.

Lemma doubles_filter_other_ids (tid : string) (l : list Transaction) :
  ~ In tid (map tx_id l) ->
  filter (fun t => negb (String.eqb (tx_id t) tid)) l = l.
Proof.
  induction l as [|t l IH]; intros H; [reflexivity|]. cbn [filter map] in *.
  destruct (String.eqb (tx_id t) tid) eqn:E.
  - apply String.eqb_eq in E. exfalso. apply H. left. exact E.
  - cbn [negb]. f_equal. apply IH. intros K. apply H. right. exact K.
Qed.

Lemma map_if_twice (A : Type) (p : A -> bool) (f g : A -> A) (l : list A) :
  (forall a, p a = true -> p (f a) = true) ->
  map (fun a => if p a then g a else a)
      (map (fun a => if p a then f a else a) l)
  = map (fun a => if p a then g (f a) else a) l.
Proof.
  intros H. rewrite map_map. apply map_ext. intros a.
  destruct (p a) eqn:E; [rewrite (H a E); reflexivity | rewrite E; reflexivity].
Qed.

(** X20. On the ledger page on doubles a delete takes back a record.  On
    a book whose account ids and party ids are unique, recording a new
    entry under an id not yet in use and then deleting that id gives back
    the transactions and everything else of the snapshot from before,
    except that the balance of the account and the current balance of the
    party the entry names have had the amount applied and taken back
    again; when those two round trips return the balances they started
    from, the snapshot is the one from before. *)
Theorem delete_undoes_record (data : AppData) (e : Editing) (now : N) :
  truthy (e_id e) = false ->
  truthy (e_description e) = true ->
  truthyNum (e_amount e) = true ->
  truthy (e_date e) = true ->
  ~ In (natToString now) (map tx_id (transactions data)) ->
  NoDup (map acc_id (accounts data)) ->
  NoDup (map party_id (parties data)) ->
  let recorded := saved (handleSave data (Some e) now) data in
  let restored :=
    saved (deleteTransaction recorded (natToString now) true) recorded in
  restored
  = mkAppData (transactions data)
      (map (fun a =>
              if isAccount (e_account e) a
              then withBalance a
                     (recordedDeleted (e_type e) (e_amount e) (balance a))
              else a)
           (accounts data))
      (map (fun p =>
              if isParty (orUndefined (e_partyId e)) p
              then withCurrentBalance p
                     (partyRecordedDeleted (e_type e) (e_amount e)
                        (currentBalance p))
              else p)
           (parties data))
      (investments data) (tasks data) (journal data) (goals data) /\
  ((forall a, In a (accounts data) -> isAccount (e_account e) a = true ->
              recordedDeleted (e_type e) (e_amount e) (balance a)
              = balance a) ->
   (forall p, In p (parties data) ->
              isParty (orUndefined (e_partyId e)) p = true ->
              partyRecordedDeleted (e_type e) (e_amount e) (currentBalance p)
              = currentBalance p) ->
   restored = data).
Proof.
  intros Hid Hd Ha Hdt Hfresh NA NP. cbn zeta.
  match goal with |- ?X = ?Y /\ _ =>
    assert (H : X = Y); [|split; [exact H|]] end.
  2:{ intros E1 E2. rewrite H.
      rewrite (map_ext_in _ (fun a => a) (accounts data)).
      - rewrite (map_ext_in _ (fun p => p) (parties data)).
        + rewrite !map_id. destruct data; reflexivity.
        + intros p Hp. destruct (isParty (orUndefined (e_partyId e)) p) eqn:E;
            [|reflexivity].
          rewrite (E2 p Hp E). destruct p; reflexivity.
      - intros a Hin. destruct (isAccount (e_account e) a) eqn:E;
          [|reflexivity].
        rewrite (E1 a Hin E). destruct a; reflexivity. }
  unfold handleSave, reverted. rewrite Hd, Ha, Hdt, Hid. cbn [negb orb saved].
  set (trans := transOf e now).
  assert (Htid : tx_id trans = natToString now).
  { unfold trans, transOf. cbn [tx_id]. rewrite Hid. reflexivity. }
  unfold deleteTransaction. cbn [negb transactions find].
  unfold hasId at 1. rewrite Htid, String.eqb_refl.
  cbn [saved transactions accounts parties investments tasks journal goals
       filter].
  unfold hasId at 1. rewrite Htid, String.eqb_refl. cbn [negb].
  change (filter (fun t => negb (hasId (natToString now) t))
                 (transactions data))
    with (filter (fun t => negb (String.eqb (tx_id t) (natToString now)))
                 (transactions data)).
  rewrite (doubles_filter_other_ids _ _ Hfresh).
  rewrite (@updateFound_as_map _ acc_id (isAccount (account trans))
             (account trans) _ _
             (fun x H => proj1 (String.eqb_eq _ _) H) NA).
  assert (HP : updateFound (isParty (partyId trans)) (applyParty trans)
                 (parties data)
               = map (fun p => if isParty (partyId trans) p
                               then applyParty trans p else p)
                   (parties data)).
  { destruct (partyId trans) as [pid|] eqn:Epid.
    - apply (@updateFound_as_map _ party_id (isParty (Some pid)) pid _ _
               (fun x H => proj1 (String.eqb_eq _ _) H) NP).
    - cbn [isParty]. rewrite <- (map_id (parties data)) at 2.
      generalize (parties data). intros l.
      induction l as [|x l IH]; [reflexivity|]. simpl. rewrite IH.
      rewrite map_id. reflexivity. }
  rewrite HP.
  rewrite (@map_if_twice _ (isAccount (account trans))).
  2:{ intros a Ea. unfold applyAccount.
      destruct (isIncomeOrSale (tx_type trans)); exact Ea. }
  rewrite (@map_if_twice _ (isParty (partyId trans))).
  2:{ intros p Ep. unfold applyParty. destruct (tx_type trans); exact Ep. }
  unfold trans, transOf, applyAccount, applyParty, recordedDeleted,
    partyRecordedDeleted.
  cbn [tx_type amount account partyId].
  f_equal.
  - apply map_ext. intros a. destruct (isAccount (e_account e) a);
      [|reflexivity].
    destruct (e_type e); reflexivity.
  - apply map_ext. intros p.
    destruct (isParty (orUndefined (e_partyId e)) p); [|reflexivity].
    destruct (e_type e); reflexivity.
Qed.

End DoublesRoundTrip.

(** ** The trade pages on doubles, continued (part_001 and
       src/pages/PortfolioPage.tsx) *)

Section DoublesReplayMore.
Import PrimFloat.

Lemma doubles_replay_buys (S : list Doubles.InvestmentTrade) :
  (forall h, In h S -> Doubles.trade_type h = buy) ->
  forall r,
    fold_left Doubles.ReplayPortfolio.replayStep S r
    = Doubles.ReplayPortfolio.mkReplay
        (fold_left (fun sum x => (sum + Doubles.trade_qty x)%float) S
           (Doubles.ReplayPortfolio.calcQty r))
        (fold_left (fun sum x => (sum + buyCost x)%float) S
           (Doubles.ReplayPortfolio.totalCostBasis r))
        (Doubles.ReplayPortfolio.accRealizedPL r).
Proof.
  induction S as [|h S IH]; intros H r.
  - destruct r; reflexivity.
  - cbn [fold_left]. rewrite IH by (intros x Hx; apply H; right; exact Hx).
    unfold Doubles.ReplayPortfolio.replayStep.
    rewrite (H h (or_introl eq_refl)). reflexivity.
Qed.

(** X7. On doubles, when every trade of the history is a buy and the sum
    of the bought quantities, taken from 0 in date order, is positive, the
    replay page stores that sum as the quantity, the sum of the costs
    (quantity times price plus charges, taken from 0 in date order)
    divided by it as the average buy price, no realized P/L, the status
    active, and the trades in date order as the history. *)
Theorem buys_only_weighted_average (target : Doubles.Investment)
    (hist : list Doubles.InvestmentTrade) :
  (forall h, In h hist -> Doubles.trade_type h = buy) ->
  let sorted := sort Doubles.ReplayPortfolio.byDate hist in
  let total := Doubles.sumBy Doubles.trade_qty sorted in
  let cost := Doubles.sumBy buyCost sorted in
  (0 <? total)%float = true ->
  let a := Doubles.ReplayPortfolio.finalAsset target hist in
  Doubles.qty a = total /\
  Doubles.avgBuyPrice a = (cost / total)%float /\
  Doubles.totalRealizedPL a = 0%float /\
  Doubles.status a = active /\
  Doubles.history a = sorted.
Proof.
  intros Hbuy sorted total cost Hpos.
  assert (R : Doubles.ReplayPortfolio.replay sorted
              = Doubles.ReplayPortfolio.mkReplay total cost 0%float).
  { unfold Doubles.ReplayPortfolio.replay.
    rewrite doubles_replay_buys; [reflexivity|].
    intros h Hh. apply Hbuy.
    apply (In_sort Doubles.ReplayPortfolio.byDate). exact Hh. }
  cbn zeta. unfold Doubles.ReplayPortfolio.finalAsset. fold sorted. rewrite R.
  cbn [Doubles.qty Doubles.avgBuyPrice Doubles.totalRealizedPL Doubles.status
       Doubles.history Doubles.ReplayPortfolio.calcQty
       Doubles.ReplayPortfolio.totalCostBasis
       Doubles.ReplayPortfolio.accRealizedPL].
  change 0%float with zero in *.
  rewrite Hpos, (Math_max_pos Hpos). repeat split.
Qed.

Variable numberToString : float -> string.

(** X10. The replay page on doubles keeps the books balanced as long as
    the balance update does not round.  Take a book of finite numbers
    which, read exactly, has unique account and transaction ids and every
    account balanced.  A new trade (no id in the form) whose linked
    transaction id is not in use and whose net cash impact is finite and
    not negative, and which every account with the settlement account's
    id takes without rounding, leaves a book that is again of that kind;
    so does a form the page rejects. *)
Theorem new_trade_keeps_books_balanced (data : Doubles.AppData)
    (td : Doubles.ReplayPortfolio.TradeData) (s t : N) :
  wellFormedExactly data ->
  truthy (Doubles.ReplayPortfolio.td_id td) = false ->
  ~ In ("trade-" ++ natToString t)%string
       (map Doubles.tx_id (Doubles.transactions data)) ->
  is_finite (Doubles.ReplayPortfolio.netImpact td) = true ->
  (0 <= value (Doubles.ReplayPortfolio.netImpact td))%Qc ->
  (forall a, In a (Doubles.accounts data) ->
             Doubles.acc_id a = Doubles.ReplayPortfolio.td_accountId td ->
             takesExactly (Doubles.balance a)
                          (Doubles.ReplayPortfolio.netImpact td)) ->
  wellFormedExactly
    (Doubles.saved
       (Doubles.ReplayPortfolio.executeTrade numberToString data td s t)
       data).
Proof.
  intros [F W] Hid Hfresh Hfin Hnet Hex.
  unfold Doubles.ReplayPortfolio.executeTrade.
  destruct (Doubles.ReplayPortfolio.targetAsset data td s) as [target|];
    [|split; [exact F | exact W]].
  destruct ((Doubles.ReplayPortfolio.td_qty td <=? 0)%float
            || (Doubles.ReplayPortfolio.td_price td <=? 0)%float);
    [split; [exact F | exact W]|].
  cbn [Doubles.saved].
  assert (Hlt : Doubles.tx_id
                  (Doubles.ReplayPortfolio.ledgerTrans numberToString td t
                     target)
                = ("trade-" ++ natToString t)%string).
  { unfold Doubles.ReplayPortfolio.ledgerTrans. cbn [Doubles.tx_id].
    rewrite Hid. reflexivity. }
  rewrite Hlt. rewrite (doubles_filter_other_ids _ _ Hfresh). split.
  { apply finiteBook_parts in F. destruct F as (Ft & Fa & Fp).
    apply finiteBook_parts.
    cbn [Doubles.transactions Doubles.accounts Doubles.parties forallb].
    split; [|split; [|exact Fp]].
    - cbn [Doubles.ReplayPortfolio.ledgerTrans Doubles.amount].
      unfold Doubles.Math_abs. rewrite (finite_abs _ Hfin), Ft. reflexivity.
    - unfold Doubles.ReplayPortfolio.updatedAccounts.
      apply forallb_map_in; [exact Fa|]. intros a Hin Hfa.
      destruct (String.eqb_spec (Doubles.acc_id a)
                  (Doubles.ReplayPortfolio.td_accountId td)) as [E|E];
        [|exact Hfa].
      destruct (Hex a Hin E) as ((Fadd & _) & _ & (Fopp & _)).
      apply andb_true_iff in Hfa.
      destruct (isBuy (Doubles.ReplayPortfolio.td_type td));
        cbn [Doubles.withBalance Doubles.balance Doubles.openingBalance];
        apply andb_true_iff; split; tauto. }
  unfold wellFormed, balancedData, balanced, exactBook.
  cbn [Doubles.transactions Doubles.accounts transactions accounts map].
  set (lt := exactTransaction
               (Doubles.ReplayPortfolio.ledgerTrans numberToString td t
                  target)).
  set (g := fun a : Account =>
              if String.eqb (acc_id a)
                   (Doubles.ReplayPortfolio.td_accountId td)
              then withBalance a (balance a + signedDelta lt)%Qc
              else a).
  assert (Hacc : map exactAccount
                   (Doubles.ReplayPortfolio.updatedAccounts data td)
                 = map g (map exactAccount (Doubles.accounts data))).
  { unfold Doubles.ReplayPortfolio.updatedAccounts. rewrite !map_map.
    apply map_ext_in.
    intros a Hin. unfold g. cbn [exactAccount acc_id].
    destruct (String.eqb_spec (Doubles.acc_id a)
                (Doubles.ReplayPortfolio.td_accountId td)) as [E|E];
      [|reflexivity].
    destruct (Hex a Hin E) as ((_ & Hadd) & _ & (_ & Hopp)).
    unfold exactAccount, withBalance, Doubles.withBalance.
    cbn [acc_id acc_name balance acc_type openingBalance Doubles.acc_id
         Doubles.acc_name Doubles.balance Doubles.acc_type
         Doubles.openingBalance].
    f_equal. unfold signedDelta, lt.
    cbn [exactTransaction tx_type amount Doubles.ReplayPortfolio.ledgerTrans
         Doubles.tx_type Doubles.amount].
    unfold Doubles.Math_abs. rewrite (@value_abs _ Hnet).
    destruct (Doubles.ReplayPortfolio.td_type td); cbn [isBuy]; assumption. }
  rewrite Hacc.
  apply (@booksOK_add lt g); [exact W | |].
  - unfold lt. cbn [exactTransaction tx_id]. rewrite Hlt.
    rewrite (exact_ids (Doubles.transactions data)). exact Hfresh.
  - intros a. unfold g, lt.
    cbn [exactTransaction account Doubles.ReplayPortfolio.ledgerTrans
         Doubles.account].
    rewrite (String.eqb_sym (acc_id a)).
    destruct (String.eqb (Doubles.ReplayPortfolio.td_accountId td) (acc_id a)).
    + repeat split.
    + repeat split. ring.
Qed.

Variable toLocaleString : float -> string.

(** X11. The incremental page on doubles keeps the books balanced as long
    as the balance update does not round.  Take a book of finite numbers
    which, read exactly, has unique account and transaction ids and every
    account balanced.  A trade whose linked transaction id is not in use
    and whose total cash impact is finite and not negative, and which
    every account with the settlement account's id takes without
    rounding, leaves a book that is again of that kind; so does a form
    the page rejects. *)
Theorem page_trade_keeps_books_balanced (data : Doubles.AppData)
    (tradingAsset : option Doubles.Investment)
    (td : Doubles.PortfolioPage.TradeData) (t : N) :
  wellFormedExactly data ->
  ~ In ("trade-" ++ natToString t)%string
       (map Doubles.tx_id (Doubles.transactions data)) ->
  is_finite (Doubles.PortfolioPage.tradeTotalImpact td) = true ->
  (0 <= value (Doubles.PortfolioPage.tradeTotalImpact td))%Qc ->
  (forall a, In a (Doubles.accounts data) ->
             Doubles.acc_id a = Doubles.PortfolioPage.td_accountId td ->
             takesExactly (Doubles.balance a)
                          (Doubles.PortfolioPage.tradeTotalImpact td)) ->
  wellFormedExactly
    (Doubles.saved
       (Doubles.PortfolioPage.executeTrade numberToString toLocaleString
          data tradingAsset td t)
       data).
Proof.
  intros [F W] Hfresh Hfin Hnet Hex.
  unfold Doubles.PortfolioPage.executeTrade.
  destruct tradingAsset as [asset|]; [|split; [exact F | exact W]].
  destruct ((Doubles.PortfolioPage.td_qty td <=? 0)%float
            || (Doubles.PortfolioPage.td_price td <=? 0)%float);
    [split; [exact F | exact W]|].
  destruct (negb (isBuy (Doubles.PortfolioPage.td_type td))
            && (Doubles.qty asset <? Doubles.PortfolioPage.td_qty td)%float);
    [split; [exact F | exact W]|].
  cbn [Doubles.saved]. split.
  { apply finiteBook_parts in F. destruct F as (Ft & Fa & Fp).
    apply finiteBook_parts.
    cbn [Doubles.transactions Doubles.accounts Doubles.parties forallb].
    split; [|split; [|exact Fp]].
    - cbn [Doubles.PortfolioPage.ledgerTrans Doubles.amount].
      unfold Doubles.Math_abs. rewrite (finite_abs _ Hfin), Ft. reflexivity.
    - unfold Doubles.PortfolioPage.updatedAccounts.
      apply forallb_map_in; [exact Fa|]. intros a Hin Hfa.
      destruct (String.eqb_spec (Doubles.acc_id a)
                  (Doubles.PortfolioPage.td_accountId td)) as [E|E];
        [|exact Hfa].
      destruct (Hex a Hin E) as ((Fadd & _) & (Fsub & _) & _).
      apply andb_true_iff in Hfa.
      destruct (isBuy (Doubles.PortfolioPage.td_type td));
        cbn [Doubles.withBalance Doubles.balance Doubles.openingBalance];
        apply andb_true_iff; split; tauto. }
  unfold wellFormed, balancedData, balanced, exactBook.
  cbn [Doubles.transactions Doubles.accounts transactions accounts map].
  set (lt := exactTransaction
               (Doubles.PortfolioPage.ledgerTrans numberToString td t asset)).
  set (g := fun a : Account =>
              if String.eqb (acc_id a) (Doubles.PortfolioPage.td_accountId td)
              then withBalance a (balance a + signedDelta lt)%Qc
              else a).
  assert (Hacc : map exactAccount
                   (Doubles.PortfolioPage.updatedAccounts data td)
                 = map g (map exactAccount (Doubles.accounts data))).
  { unfold Doubles.PortfolioPage.updatedAccounts. rewrite !map_map.
    apply map_ext_in.
    intros a Hin. unfold g. cbn [exactAccount acc_id].
    destruct (String.eqb_spec (Doubles.acc_id a)
                (Doubles.PortfolioPage.td_accountId td)) as [E|E];
      [|reflexivity].
    destruct (Hex a Hin E) as ((_ & Hadd) & (_ & Hsub) & _).
    unfold exactAccount, withBalance, Doubles.withBalance.
    cbn [acc_id acc_name balance acc_type openingBalance Doubles.acc_id
         Doubles.acc_name Doubles.balance Doubles.acc_type
         Doubles.openingBalance].
    f_equal. unfold signedDelta, lt.
    cbn [exactTransaction tx_type amount Doubles.PortfolioPage.ledgerTrans
         Doubles.tx_type Doubles.amount].
    unfold Doubles.Math_abs. rewrite (@value_abs _ Hnet).
    destruct (Doubles.PortfolioPage.td_type td); cbn [isBuy]; assumption. }
  rewrite Hacc.
  apply (@booksOK_add lt g); [exact W | |].
  - unfold lt. cbn [exactTransaction tx_id Doubles.PortfolioPage.ledgerTrans
                    Doubles.tx_id].
    rewrite (exact_ids (Doubles.transactions data)). exact Hfresh.
  - intros a. unfold g, lt.
    cbn [exactTransaction account Doubles.PortfolioPage.ledgerTrans
         Doubles.account].
    rewrite (String.eqb_sym (acc_id a)).
    destruct (String.eqb (Doubles.PortfolioPage.td_accountId td) (acc_id a)).
    + repeat split.
    + repeat split. ring.
Qed.

(** X12. On an asset never traded the two trade pages agree on a first
    buy.  For an asset with quantity 0, average 0, no realized P/L and an
    empty history, a buy of a positive quantity at a positive price stores
    the same asset figures whether it is entered on the incremental page
    or on the replay page: the bought quantity, the cost of the buy
    (quantity times price plus charges, added to 0) divided by it as the
    average buy price, the same realized P/L and the same one-trade
    history. *)
Theorem first_buy_agrees_with_replay (data : Doubles.AppData)
    (inv : Doubles.Investment) (q p c : float) (date acct : string)
    (s t : N) :
  truthy (Doubles.inv_id inv) = true ->
  Doubles.assetOf data (Doubles.inv_id inv) = Some inv ->
  Doubles.qty inv = 0%float ->
  Doubles.avgBuyPrice inv = 0%float ->
  Doubles.totalRealizedPL inv = 0%float ->
  Doubles.history inv = [] ->
  (0 <? q)%float = true ->
  (0 <? p)%float = true ->
  let pageForm := Doubles.PortfolioPage.mkTradeData buy q p c date acct in
  let replayForm :=
    Doubles.ReplayPortfolio.mkTradeData EmptyString (Doubles.inv_id inv)
      EmptyString EmptyString buy q p c date acct in
  exists a1 a2,
    Doubles.assetOf
      (Doubles.saved
         (Doubles.PortfolioPage.executeTrade numberToString toLocaleString
            data (Some inv) pageForm t) data)
      (Doubles.inv_id inv) = Some a1 /\
    Doubles.assetOf
      (Doubles.saved
         (Doubles.ReplayPortfolio.executeTrade numberToString data replayForm
            s t) data)
      (Doubles.inv_id inv) = Some a2 /\
    Doubles.qty a1 = q /\ Doubles.qty a2 = q /\
    Doubles.avgBuyPrice a1 = Doubles.avgBuyPrice a2 /\
    Doubles.avgBuyPrice a2 = ((0 + (q * p + c)) / q)%float /\
    Doubles.totalRealizedPL a1 = Doubles.totalRealizedPL a2 /\
    Doubles.history a1 = Doubles.history a2.
Proof.
  intros Hid Hfind Hq0 Ha0 Hpl0 Hh0 Hq Hp pageForm replayForm.
  pose proof (@doubles_executeTrade_asset numberToString data replayForm s t
                inv Hid Hfind (positive_not_leb Hq) (positive_not_leb Hp))
    as H2.
  exists (Doubles.PortfolioPage.tradedAsset pageForm t inv).
  eexists. split; [|split; [exact H2|]].
  - unfold Doubles.PortfolioPage.executeTrade.
    cbn [Doubles.PortfolioPage.td_qty Doubles.PortfolioPage.td_price
         Doubles.PortfolioPage.td_type pageForm isBuy negb andb].
    rewrite (positive_not_leb Hq), (positive_not_leb Hp).
    cbn [orb Doubles.saved]. unfold Doubles.assetOf in *.
    cbn [Doubles.investments].
    unfold Doubles.PortfolioPage.updatedInvestments.
    rewrite (@find_map_exact _ _
               (fun i => if String.eqb (Doubles.inv_id i) (Doubles.inv_id inv)
                         then Doubles.PortfolioPage.tradedAsset pageForm t i
                         else i)
               (fun i => String.eqb (Doubles.inv_id i) (Doubles.inv_id inv))).
    + rewrite Hfind. cbn [option_map]. rewrite String.eqb_refl. reflexivity.
    + intros x.
      destruct (String.eqb (Doubles.inv_id x) (Doubles.inv_id inv)) eqn:E;
        [|exact E].
      unfold Doubles.PortfolioPage.tradedAsset.
      cbn [Doubles.PortfolioPage.td_type pageForm Doubles.inv_id]. exact E.
  - unfold Doubles.ReplayPortfolio.finalAsset,
      Doubles.ReplayPortfolio.newHistory, Doubles.PortfolioPage.tradedAsset,
      Doubles.ReplayPortfolio.tradeRecord, Doubles.PortfolioPage.tradeRecord.
    cbn [Doubles.ReplayPortfolio.td_id Doubles.ReplayPortfolio.td_date
         Doubles.ReplayPortfolio.td_type Doubles.ReplayPortfolio.td_qty
         Doubles.ReplayPortfolio.td_price Doubles.ReplayPortfolio.td_charges
         Doubles.PortfolioPage.td_date Doubles.PortfolioPage.td_type
         Doubles.PortfolioPage.td_qty Doubles.PortfolioPage.td_price
         Doubles.PortfolioPage.td_charges replayForm pageForm].
    rewrite Hh0, Hq0, Ha0, Hpl0.
    cbn [truthy String.eqb negb app sort fold_right insert
         Doubles.ReplayPortfolio.replay fold_left
         Doubles.ReplayPortfolio.replayStep Doubles.trade_type
         Doubles.trade_qty Doubles.trade_price Doubles.trade_charges
         Doubles.ReplayPortfolio.replayStart
         Doubles.ReplayPortfolio.calcQty
         Doubles.ReplayPortfolio.totalCostBasis
         Doubles.ReplayPortfolio.accRealizedPL
         Doubles.qty Doubles.avgBuyPrice Doubles.totalRealizedPL
         Doubles.history].
    rewrite (zero_add Hq), Hq.
    pose proof (@Math_max_pos q Hq) as M. unfold zero in M. rewrite M.
    change (0 * 0)%float with 0%float.
    repeat split.
Qed.

End DoublesReplayMore.

(** ** The charges tab on doubles (src/pages/PortfolioPage.tsx) *)

Section ChargesFacts.
Import PrimFloat.

(** X19. The charges tab adds up to the total-charges tile as long as the
    tile's sums do not round.  When no trade carries charges that stand
    for a negative number, the sum of the charges of each asset and the
    sum of these sums over the assets, as the tile computes them, are
    finite and stand for the exact sums of their terms, then the tile is
    finite and stands for the exact sum of the amounts listed on the
    charges tab. *)
Theorem charges_tab_adds_up_to_tile (data : Doubles.AppData) :
  (forall inv h, In inv (Doubles.investments data) ->
                 In h (Doubles.history inv) ->
                 (0 <= value (Doubles.trade_charges h))%Qc) ->
  (forall inv, In inv (Doubles.investments data) ->
               addsExactly (fun trade =>
                              Doubles.orZero (Doubles.trade_charges trade))
                           (Doubles.history inv)) ->
  addsExactly Doubles.PortfolioViews.historyCharges
              (Doubles.investments data) ->
  stands (Doubles.PortfolioViews.totalCharges
            (Doubles.PortfolioViews.stats data))
         (sumBy (fun row => value (Doubles.AssetProfile.charge_amount row))
                (Doubles.AssetProfile.chargesList data)).
Proof.
  intros Hnn Hinner [Fouter Houter].
  cbn [Doubles.PortfolioViews.stats Doubles.PortfolioViews.totalCharges].
  split; [exact Fouter|]. rewrite Houter.
  unfold Doubles.AssetProfile.chargesList.
  rewrite (sumBy_Permutation _
             (sort_Permutation Doubles.AssetProfile.newestFirst
                (Doubles.AssetProfile.chargeRows data))).
  unfold Doubles.AssetProfile.chargeRows. rewrite sumBy_flat_map.
  apply sumBy_ext. intros inv Hinv.
  unfold Doubles.PortfolioViews.historyCharges. rewrite value_orZero.
  rewrite (proj2 (Hinner inv Hinv)), sumBy_flat_map.
  apply sumBy_ext. intros h Hh. rewrite value_orZero.
  destruct (0 <? Doubles.trade_charges h)%float eqn:E.
  - unfold sumBy. cbn [fold_left Doubles.AssetProfile.charge_amount].
    change (ofZ 0) with 0%Qc. ring.
  - unfold sumBy. cbn [fold_left].
    apply Qcle_antisym; [apply not_positive_value; exact E|].
    exact (Hnn inv h Hinv Hh).
Qed.

End ChargesFacts.

(** ** Worked instances on doubles *)

Section DoublesMoreInstances.
Import PrimFloat.

Ltac takes_eval := repeat split; first [reflexivity | qc_eval].

Ltac found_eval H :=
  vm_compute in H;
  first [discriminate H | injection H as <-; takes_eval].

Ltac save_eval :=
  split; [vm_compute; reflexivity|];
  split;
    [ let old := fresh "old" in
      let Ht := fresh "Ht" in
      let Hf := fresh "Hf" in
      intros old Ht Hf; vm_compute in Ht;
      first [ discriminate Ht
            | vm_compute in Hf;
              first [ discriminate Hf
                    | injection Hf as <-;
                      split;
                        (let x := fresh "x" in
                         let Hx := fresh "Hx" in
                         intros x Hx; found_eval Hx) ] ]
    | split;
        (let x := fresh "x" in
         let Hx := fresh "Hx" in
         intros x Hx; found_eval Hx) ].

Ltac member_eval :=
  let x := fresh "x" in
  let Hin := fresh "Hin" in
  let Hx := fresh "Hx" in
  intros x Hin Hx; vm_compute in Hin;
  repeat (destruct Hin as [Hin|Hin]; [subst x|]);
  try contradiction;
  vm_compute in Hx; first [discriminate Hx | takes_eval].

Ltac delete_eval :=
  let t := fresh "t" in
  let Hf := fresh "Hf" in
  intros t Hf; vm_compute in Hf;
  first [discriminate Hf | injection Hf as <-; split; member_eval].

Ltac fresh_eval := vm_compute; intuition discriminate.

Lemma soldBook_wellFormed : wellFormedExactly DoublesBook.soldData.
Proof.
  split; [reflexivity|]. split; [nodup_eval | split; [nodup_eval|]].
  intros a [<-|[]]. red. qc_eval.
Qed.

Lemma soldBook_partiesOK : partiesOKExactly DoublesBook.soldData.
Proof.
  split; [reflexivity|]. split; [nodup_eval | split; [nodup_eval|]].
  intros p [<-|[]]. qc_eval.
Qed.

Lemma sampleBook_wellFormed : wellFormedExactly DoublesBook.sampleData.
Proof.
  split; [reflexivity|]. split; [nodup_eval | split; [constructor|]].
  intros a [<-|[]]. red. qc_eval.
Qed.

Lemma page_runs_keep_books_balanced_witness :
  wellFormedExactly
    (pageRunAll DoublesBook.soldData
       [Save DoublesBook.teaCupForm 9; Save DoublesBook.raisedSaleForm 10;
        Delete "9"]).
Proof.
  apply (@page_runs_keep_books_balanced
           [Save DoublesBook.teaCupForm 9; Save DoublesBook.raisedSaleForm 10;
            Delete "9"]
           DoublesBook.soldData soldBook_wellFormed).
  split; [fresh_eval|]. split; [save_eval|].
  split; [fresh_eval|]. split; [save_eval|].
  split; [exact I|]. split; [delete_eval | exact I].
Defined.

Lemma page_commands_keep_parties_balanced_witness :
  partiesOKExactly (pageRun DoublesBook.soldData (Delete "1700000000000")).
Proof.
  apply (@page_commands_keep_parties_balanced DoublesBook.soldData
           (Delete "1700000000000") soldBook_partiesOK).
  - exact I.
  - delete_eval.
Defined.

Lemma delete_undoes_record_witness :
  let recorded :=
    Doubles.saved
      (Doubles.LedgerPage.handleSave DoublesBook.sampleData
         (Some DoublesBook.teaCupForm) 7)
      DoublesBook.sampleData in
  Doubles.saved
    (Doubles.LedgerPage.deleteTransaction recorded (natToString 7) true)
    recorded
  = DoublesBook.sampleData.
Proof.
  refine (proj2 (@delete_undoes_record DoublesBook.sampleData
                   DoublesBook.teaCupForm 7 eq_refl eq_refl eq_refl eq_refl
                   _ _ _) _ _).
  - intros [].
  - nodup_eval.
  - constructor.
  - intros a [<-|[]] _. reflexivity.
  - intros p [].
Defined.

Lemma buys_only_weighted_average_witness :
  let a :=
    Doubles.ReplayPortfolio.finalAsset DoublesBook.goldAsset
      [DoublesBook.secondBuy; DoublesBook.firstBuy] in
  Doubles.qty a = 15%float /\
  Doubles.avgBuyPrice a = (1610 / 15)%float /\
  Doubles.totalRealizedPL a = 0%float /\
  Doubles.status a = active /\
  Doubles.history a = [DoublesBook.firstBuy; DoublesBook.secondBuy].
Proof.
  refine (@buys_only_weighted_average DoublesBook.goldAsset
            [DoublesBook.secondBuy; DoublesBook.firstBuy] _ _).
  - intros h [<-|[<-|[]]]; reflexivity.
  - reflexivity.
Defined.

Lemma new_trade_keeps_books_balanced_witness :
  wellFormedExactly
    (Doubles.saved
       (Doubles.ReplayPortfolio.executeTrade DoublesBook.noText
          DoublesBook.sampleData
          (DoublesBook.tradeOn buy 10 100 "2024-01-10") 1 1)
       DoublesBook.sampleData).
Proof.
  apply (@new_trade_keeps_books_balanced DoublesBook.noText
           DoublesBook.sampleData
           (DoublesBook.tradeOn buy 10 100 "2024-01-10") 1 1
           sampleBook_wellFormed).
  - reflexivity.
  - intros [].
  - reflexivity.
  - qc_cmp.
  - intros a [<-|[]] _. takes_eval.
Defined.

Lemma page_trade_keeps_books_balanced_witness :
  wellFormedExactly
    (Doubles.saved
       (Doubles.PortfolioPage.executeTrade DoublesBook.noText
          DoublesBook.noText DoublesBook.sampleData
          (Some DoublesBook.goldAsset) DoublesBook.pageBuy 1)
       DoublesBook.sampleData).
Proof.
  apply (@page_trade_keeps_books_balanced DoublesBook.noText
           DoublesBook.noText DoublesBook.sampleData
           (Some DoublesBook.goldAsset) DoublesBook.pageBuy 1
           sampleBook_wellFormed).
  - intros [].
  - reflexivity.
  - qc_cmp.
  - intros a [<-|[]] _. takes_eval.
Defined.

Lemma charges_tab_adds_up_to_tile_witness :
  stands (Doubles.PortfolioViews.totalCharges
            (Doubles.PortfolioViews.stats DoublesBook.chargedData))
         (sumBy (fun row => value (Doubles.AssetProfile.charge_amount row))
                (Doubles.AssetProfile.chargesList DoublesBook.chargedData)).
Proof.
  apply (@charges_tab_adds_up_to_tile DoublesBook.chargedData).
  - intros inv h [<-|[<-|[]]] Hh; vm_compute in Hh;
      repeat (destruct Hh as [<-|Hh]; [qc_cmp|]); destruct Hh.
  - intros inv [<-|[<-|[]]]; (split; [reflexivity | qc_eval]).
  - split; [reflexivity | qc_eval].
Defined.

Lemma first_buy_agrees_with_replay_witness :
  exists a1 a2,
    Doubles.assetOf
      (Doubles.saved
         (Doubles.PortfolioPage.executeTrade DoublesBook.noText
            DoublesBook.noText DoublesBook.sampleData
            (Some DoublesBook.goldAsset) DoublesBook.pageBuy 1)
         DoublesBook.sampleData)
      "gold" = Some a1 /\
    Doubles.assetOf
      (Doubles.saved
         (Doubles.ReplayPortfolio.executeTrade DoublesBook.noText
            DoublesBook.sampleData
            (Doubles.ReplayPortfolio.mkTradeData EmptyString "gold"
               EmptyString EmptyString buy 10 100.5 10 "2024-01-10"
               "cash-01") 2 1)
         DoublesBook.sampleData)
      "gold" = Some a2 /\
    Doubles.qty a1 = 10%float /\ Doubles.qty a2 = 10%float /\
    Doubles.avgBuyPrice a1 = Doubles.avgBuyPrice a2 /\
    Doubles.avgBuyPrice a2 = ((0 + (10 * 100.5 + 10)) / 10)%float /\
    Doubles.totalRealizedPL a1 = Doubles.totalRealizedPL a2 /\
    Doubles.history a1 = Doubles.history a2.
Proof.
  apply (@first_buy_agrees_with_replay DoublesBook.noText DoublesBook.noText
           DoublesBook.sampleData DoublesBook.goldAsset 10 100.5 10
           "2024-01-10" "cash-01" 2 1); reflexivity.
Defined.

End DoublesMoreInstances.
